(** * GOTO-alert: events into the observation database

    A shallow embedding of [gotoalert/database.py]: the strategy extractor
    [get_mpointing_info], the tile resolver [get_grid_tiles], the
    deduplication pass [remove_previous_events], the lookups [get_user] and
    [get_grid] and the plan builder [add_to_database], with the properties
    the specification states about them and further properties that the
    code has.

    Conventions of the embedding.
    - A Python [float] is a binary64 number: [PrimFloat.float], with the
      IEEE operations of the kernel.  A Python [int] is a [Z].
    - A Python exception is a value of [Exception]; a function that can
      raise returns an [Outcome].
    - Every ORM object carries the identity it was allocated with ([oid]);
      a relationship attribute holds the identity of the object it points
      to, and becomes the foreign key of the row when the object is stored.
    - The logger is a list of records, oldest first.  A record keeps the
      message template and the values given to [str.format], unrendered. *)

From Stdlib Require Import ZArith List String Bool Arith Lia.
From Stdlib Require Import PrimFloat FloatOps SpecFloat FloatAxioms.
From Stdlib Require Import Permutation Sorted.
Import ListNotations.

Local Open Scope string_scope.
Local Open Scope list_scope.

(** ** Exceptions and outcomes *)

Inductive Exception : Type :=
| ValueError (msg : string)
| KeyError (key : string)
| AttributeError (attr : string)
| UnboundLocalError (var : string)
| OverflowError (msg : string)
| IntegrityError (msg : string)
| MultipleResultsFound.

Inductive Outcome (A : Type) : Type :=
| Return (a : A)
| Raise (e : Exception).

Arguments Return {A} a.
Arguments Raise {A} e.

Definition obind {A B : Type} (c : Outcome A) (k : A -> Outcome B) : Outcome B :=
  match c with
  | Return a => k a
  | Raise e => Raise e
  end.

Notation "'let*' x ':=' c 'in' k" := (obind c (fun x => k))
  (at level 10, x pattern, c at level 100, k at level 200).

Fixpoint omap {A B : Type} (f : A -> Outcome B) (l : list A) : Outcome (list B) :=
  match l with
  | [] => Return []
  | x :: l' =>
      let* y := f x in
      let* ys := omap f l' in
      Return (y :: ys)
  end.

(** [d[key]] on a mapping whose entry for [key] is [o]: a missing key raises. *)
Definition getitem {A : Type} (key : string) (o : option A) : Outcome A :=
  match o with
  | Some v => Return v
  | None => Raise (KeyError key)
  end.

(** [obj.attr] on an object whose attribute [attr] holds [o], or is not
    there. *)
Definition getattr {A : Type} (attr : string) (o : option A) : Outcome A :=
  match o with
  | Some v => Return v
  | None => Raise (AttributeError attr)
  end.

(** ** Numbers *)

Inductive Number : Type :=
| Int (z : Z)
| Float (f : float).

(** The binary64 number nearest to an integer (ties to even). *)
Definition Z2float (z : Z) : float :=
  SF2Prim (binary_normalize prec emax z 0 false).

(** Python converts an [int] operand to [float] before mixed arithmetic, and
    refuses an integer that is out of the range of binary64. *)
Definition float_of_int (z : Z) : Outcome float :=
  if is_infinity (Z2float z)
  then Raise (OverflowError "int too large to convert to float")
  else Return (Z2float z).

Definition float_add_int (x : float) (n : Z) : Outcome float :=
  let* y := float_of_int n in Return (x + y)%float.

Definition float_mul_int (x : float) (n : Z) : Outcome float :=
  let* y := float_of_int n in Return (x * y)%float.

Definition number_add_float (acc : Number) (x : float) : Outcome Number :=
  match acc with
  | Int z => let* a := float_of_int z in Return (Float (a + x)%float)
  | Float a => Return (Float (a + x)%float)
  end.

(** The builtin [sum] over floats: it starts from the integer [0]. *)
Fixpoint sum_from (acc : Number) (l : list float) : Outcome Number :=
  match l with
  | [] => Return acc
  | x :: l' => let* acc' := number_add_float acc x in sum_from acc' l'
  end.

Definition py_sum (l : list float) : Outcome Number := sum_from (Int 0) l.

(** The builtin [max] over floats: the first maximal item; an empty
    sequence raises. *)
Definition py_max (l : list float) : Outcome float :=
  match l with
  | [] => Raise (ValueError "max() arg is an empty sequence")
  | x :: l' => Return (fold_left (fun best y => if (best <? y)%float then y else best) l' x)
  end.

(** ** The alert object and its strategy mapping

    [event.strategy] is a nested mapping resolved outside this module.  An
    entry is held at the type the extractor coerces it to, so [int()],
    [float()] and [str()] are the identity on it; a key that the mapping
    lacks is [None] here, and subscripting it raises [KeyError]. *)

Record ExposureSetDict : Type := {
  esd_num_exp : option Z;
  esd_exptime : option float;
  esd_filt : option string
}.

Inductive WaitTime : Type :=
| WaitFloat (f : float)
| WaitList (l : list float).

Record CadenceDict : Type := {
  cd_num_todo : option Z;
  cd_wait_time : option WaitTime
}.

Record ConstraintsDict : Type := {
  cs_max_sunalt : option float;
  cs_min_alt : option float;
  cs_min_moonsep : option float;
  cs_max_moon : option string
}.

Record Strategy : Type := {
  exposure_sets_dict : option (list ExposureSetDict);
  start_time : option string;
  stop_time : option string;
  rank : option Z;
  cadence_dict : option CadenceDict;
  constraints_dict : option ConstraintsDict;
  on_grid : option bool;
  tile_limit : option Z;
  prob_limit : option float
}.

(** One row of the tile table of the grid library: (tilename, ra, dec, prob). *)
Record TableRow : Type := {
  tilename : string;
  tile_ra : float;
  tile_dec : float;
  prob : float
}.

(** What the grid library yields once a skymap is applied to the current
    grid, tile by tile: the row of [grid.get_table()] and the contour values
    [skymap.contours[tile]] of the pixels of that tile ([grid.pixels]). *)
Record Tile : Type := {
  tile_row : TableRow;
  tile_contours : list float
}.

Record Skymap : Type := {
  skymap_tiles : list Tile
}.

Record SkyCoord : Type := {
  ra : float;
  dec : float
}.

Record Event : Type := {
  event_name : string;
  event_ivorn : string;
  event_source : string;
  event_type : string;
  event_time : string;
  event_skymap_url : option string;
  event_coord : SkyCoord;
  event_skymap : option Skymap;
  (* the skymap that [event.get_skymap()] retrieves *)
  event_remote_skymap : Skymap;
  event_strategy : Strategy;
  (* attributes stored by the resolver and the builder *)
  event_full_table : option (list TableRow);
  event_masked_table : option (list TableRow);
  event_tile_table : option (list TableRow)
}.

(** ** The strategy extractor *)

Record ExpData : Type := {
  num_exp : Z;
  exptime : float;
  filt : string;
  binning : Z;
  imgtype : string
}.

Record MpData : Type := {
  too : bool;
  min_time : Number;
  valid_time : Z;
  mp_start_time : string;
  mp_stop_time : string;
  start_rank : Z;
  num_todo : Z;
  wait_time : WaitTime;
  max_sunalt : float;
  min_alt : float;
  min_moonsep : float;
  max_moon : string
}.

Definition get_exp_data (expset_dict : ExposureSetDict) : Outcome ExpData :=
  let* n := getitem "num_exp" (esd_num_exp expset_dict) in
  let* t := getitem "exptime" (esd_exptime expset_dict) in
  let* f := getitem "filt" (esd_filt expset_dict) in
  Return {| num_exp := n; exptime := t; filt := f;
            (* These are always the same *)
            binning := 1; imgtype := "SCIENCE" |}.

(** One term of the generator under [sum]: [(exptime + 30) * num_exp]. *)
Definition visit_time (exp_data : ExpData) : Outcome float :=
  let* t := float_add_int (exptime exp_data) 30 in
  float_mul_int t (num_exp exp_data).

Definition get_mpointing_info (event : Event) : Outcome (MpData * list ExpData) :=
  let strategy := event_strategy event in
  (* Fill out ExposureSet info *)
  let* dicts := getitem "exposure_sets_dict" (exposure_sets_dict strategy) in
  let* expsets := omap get_exp_data dicts in
  (* The minimum pointing time is based on the ExposureSet +30s for readout *)
  let* terms := omap visit_time expsets in
  let* total := py_sum terms in
  (* Everything else comes from the strategy dict and its subdicts *)
  let* start := getitem "start_time" (start_time strategy) in
  let* stop := getitem "stop_time" (stop_time strategy) in
  let* rk := getitem "rank" (rank strategy) in
  let* cadence := getitem "cadence_dict" (cadence_dict strategy) in
  let* todo := getitem "num_todo" (cd_num_todo cadence) in
  let* wait := getitem "wait_time" (cd_wait_time cadence) in
  let* constraints := getitem "constraints_dict" (constraints_dict strategy) in
  let* sunalt := getitem "max_sunalt" (cs_max_sunalt constraints) in
  let* alt := getitem "min_alt" (cs_min_alt constraints) in
  let* moonsep := getitem "min_moonsep" (cs_min_moonsep constraints) in
  let* moon := getitem "max_moon" (cs_max_moon constraints) in
  Return ({| too := true;
             min_time := total;
             (* The valid time is always infinite *)
             valid_time := -1;
             mp_start_time := start;
             mp_stop_time := stop;
             start_rank := rk;
             num_todo := todo;
             wait_time := wait;
             max_sunalt := sunalt;
             min_alt := alt;
             min_moonsep := moonsep;
             max_moon := moon |},
          expsets).

(** ** The observation database

    The tables of [obsdb] that this module reads and writes.  A row keeps
    the identity of its object ([*_id], the primary key once stored) and the
    identities of the objects its relationship attributes point to. *)

Definition oid : Type := nat.

Module db.

Record Event : Type := {
  ev_id : oid;
  ev_name : string;
  ev_ivorn : string;
  ev_source : string;
  ev_event_type : string;
  ev_time : string;
  ev_skymap : option string
}.

Record Grid : Type := {
  grid_id : oid;
  grid_name : string;
  ra_fov : float;
  dec_fov : float;
  ra_overlap : float;
  dec_overlap : float;
  algorithm : string
}.

Record GridTile : Type := {
  gt_id : oid;
  gt_name : string;
  gt_grid : option oid
}.

Record Survey : Type := {
  sv_id : oid;
  sv_name : string;
  sv_grid : option oid;
  sv_event : option oid
}.

Record SurveyTile : Type := {
  st_id : oid;
  st_weight : float;
  st_survey : option oid;
  st_grid_tile : option oid
}.

Record User : Type := {
  user_id : oid;
  username : string;
  password : string;
  full_name : string
}.

Record ExposureSet : Type := {
  es_id : oid;
  es_data : ExpData;
  es_mpointing : option oid
}.

Record Pointing : Type := {
  pt_id : oid;
  pt_status : string;
  pt_mpointing : option oid;
  pt_event : option oid;
  pt_grid_tile : option oid;
  pt_survey_tile : option oid
}.

Record Mpointing : Type := {
  mp_id : oid;
  mp_object_name : string;
  mp_ra : option float;
  mp_dec : option float;
  mp_data : MpData;
  mp_status : string;
  mp_user : option oid;
  mp_event : option oid;
  mp_grid_tile : option oid;
  mp_survey_tile : option oid
}.

Record Database : Type := {
  events : list Event;
  grids : list Grid;
  grid_tiles : list GridTile;
  surveys : list Survey;
  survey_tiles : list SurveyTile;
  users : list User;
  mpointings : list Mpointing;
  exposure_sets : list ExposureSet;
  pointings : list Pointing
}.

End db.

(** An [Mpointing] object in memory: its columns, and the objects held by
    its relationship attributes that are stored together with it. *)
Record MpointingObject : Type := {
  row : db.Mpointing;
  user : option db.User;
  survey_tile : option db.SurveyTile;
  exposure_sets : list db.ExposureSet;
  pointings : list db.Pointing
}.

(** ** The logger *)

Inductive Level : Type := DEBUG | INFO | WARNING.

Inductive FormatArg : Type :=
| ArgStr (s : string)
| ArgInt (z : Z)
| ArgFloat (f : float).

Record LogRecord : Type := {
  levelname : Level;
  msg : string;
  args : list FormatArg
}.

(** ** Sessions

    [committed] is what the database holds; [view] is what the session sees:
    the committed rows together with the changes that are not committed
    yet.  [next_oid] is the next free object identity. *)

Record State : Type := {
  committed : db.Database;
  view : db.Database;
  next_oid : oid;
  log : list LogRecord
}.

Definition M (A : Type) : Type := State -> Outcome A * State.

Definition ret {A : Type} (a : A) : M A := fun s => (Return a, s).

Definition raise {A : Type} (e : Exception) : M A := fun s => (Raise e, s).

Definition bind {A B : Type} (c : M A) (k : A -> M B) : M B :=
  fun s =>
    match c s with
    | (Return a, s') => k a s'
    | (Raise e, s') => (Raise e, s')
    end.

Notation "x <- c ;; k" := (bind c (fun x => k))
  (at level 61, c at next level, right associativity).
Notation "' pat <- c ;; k" := (bind c (fun x => match x with pat => k end))
  (at level 61, pat pattern, c at next level, right associativity).
Notation "c ;; k" := (bind c (fun _ => k))
  (at level 61, right associativity).

Definition lift {A : Type} (o : Outcome A) : M A := fun s => (o, s).

Definition get_view : M db.Database := fun s => (Return (view s), s).

Definition set_view (d : db.Database) : M unit :=
  fun s => (Return tt, {| committed := committed s; view := d;
                          next_oid := next_oid s; log := log s |}).

Definition new_oid : M oid :=
  fun s => (Return (next_oid s),
            {| committed := committed s; view := view s;
               next_oid := S (next_oid s); log := log s |}).

Definition emit (l : Level) (template : string) (values : list FormatArg) : M unit :=
  fun s => (Return tt,
            {| committed := committed s; view := view s; next_oid := next_oid s;
               log := log s ++ [{| levelname := l; msg := template; args := values |}] |}).

(** A [for] loop whose body has effects. *)
Fixpoint for_each {A : Type} (l : list A) (body : A -> M unit) : M unit :=
  match l with
  | [] => ret tt
  | x :: l' => body x ;; for_each l' body
  end.

(** A [for] loop that carries the local variables its body assigns. *)
Fixpoint for_fold {A L : Type} (l : list A) (body : L -> A -> M L) (locals : L) : M L :=
  match l with
  | [] => ret locals
  | x :: l' => locals' <- body locals x ;; for_fold l' body locals'
  end.

(** [try: c  except Exception as e: handler e]. *)
Definition try_except {A : Type} (c : M A) (handler : Exception -> M A) : M A :=
  fun s =>
    match c s with
    | (Return a, s') => (Return a, s')
    | (Raise e, s') => handler e s'
    end.

(** The [Event] rows that the session would INSERT: those of its view that
    the database does not hold yet. *)
Definition inserted_events (s : State) : list db.Event :=
  filter (fun e => negb (existsb (fun e0 => Nat.eqb (db.ev_id e0) (db.ev_id e))
                                 (db.events (committed s))))
         (db.events (view s)).

Definition ivorn_count (ivorn : string) (l : list db.Event) : nat :=
  List.length (filter (fun e => String.eqb (db.ev_ivorn e) ivorn) l).

(** Modelled from the spec: [session.commit()] of the storage engine, which
    is not part of this repository.  It makes the changes of the session
    permanent; as [ivorn] is globally unique and inserting a duplicate is a
    hard error, it refuses to insert an [Event] whose [ivorn] another row
    carries. *)
Definition commit : M unit :=
  fun s =>
    if forallb (fun e => Nat.eqb (ivorn_count (db.ev_ivorn e) (db.events (view s))) 1)
               (inserted_events s)
    then (Return tt, {| committed := view s; view := view s;
                        next_oid := next_oid s; log := log s |})
    else (Raise (IntegrityError "UNIQUE constraint failed: events.ivorn"), s).

(** Modelled from the spec: [session.rollback()] of the storage engine, which
    is not part of this repository.  It drops every change that is not
    committed. *)
Definition rollback : M unit :=
  fun s => (Return tt, {| committed := committed s; view := committed s;
                          next_oid := next_oid s; log := log s |}).

(** What outlives a session: the database, the supply of object identities
    and the log. *)
Record World : Type := {
  database : db.Database;
  oid_supply : oid;
  records : list LogRecord
}.

Definition enter (w : World) : State :=
  {| committed := database w; view := database w;
     next_oid := oid_supply w; log := records w |}.

Definition leave (s : State) : World :=
  {| database := committed s; oid_supply := next_oid s; records := log s |}.

(** Modelled from the spec: [db.open_session()] of the storage engine, which
    is not part of this repository: a scoped transaction.  The block runs
    on a fresh session; when it ends the session commits; an exception that
    leaves the block rolls the session back and is raised again. *)
Definition open_session (block : M unit) (w : World) : Outcome unit * World :=
  let (r, s) := try_except (block ;; commit) (fun e => rollback ;; raise e) (enter w) in
  (r, leave s).

(** ** Queries and updates on the view of the session *)

Definition refers_to (fk : option oid) (id : oid) : bool :=
  match fk with
  | Some i => Nat.eqb i id
  | None => false
  end.

(** [session.query(table).filter(p).all()] *)
Definition query_all {A : Type} (table : db.Database -> list A) (p : A -> bool)
  : M (list A) :=
  d <- get_view ;; ret (filter p (table d)).

(** [query.one_or_none()] *)
Definition one_or_none {A : Type} (l : list A) : M (option A) :=
  match l with
  | [] => ret None
  | [x] => ret (Some x)
  | _ :: _ :: _ => raise MultipleResultsFound
  end.

Definition with_status_mp (m : db.Mpointing) (status : string) : db.Mpointing :=
  {| db.mp_id := db.mp_id m; db.mp_object_name := db.mp_object_name m;
     db.mp_ra := db.mp_ra m; db.mp_dec := db.mp_dec m; db.mp_data := db.mp_data m;
     db.mp_status := status;
     db.mp_user := db.mp_user m; db.mp_event := db.mp_event m;
     db.mp_grid_tile := db.mp_grid_tile m; db.mp_survey_tile := db.mp_survey_tile m |}.

Definition with_status_pt (p : db.Pointing) (status : string) : db.Pointing :=
  {| db.pt_id := db.pt_id p; db.pt_status := status;
     db.pt_mpointing := db.pt_mpointing p; db.pt_event := db.pt_event p;
     db.pt_grid_tile := db.pt_grid_tile p; db.pt_survey_tile := db.pt_survey_tile p |}.

Definition with_mpointings (d : db.Database) (l : list db.Mpointing) : db.Database :=
  {| db.events := db.events d; db.grids := db.grids d; db.grid_tiles := db.grid_tiles d;
     db.surveys := db.surveys d; db.survey_tiles := db.survey_tiles d;
     db.users := db.users d; db.mpointings := l;
     db.exposure_sets := db.exposure_sets d; db.pointings := db.pointings d |}.

Definition with_pointings (d : db.Database) (l : list db.Pointing) : db.Database :=
  {| db.events := db.events d; db.grids := db.grids d; db.grid_tiles := db.grid_tiles d;
     db.surveys := db.surveys d; db.survey_tiles := db.survey_tiles d;
     db.users := db.users d; db.mpointings := db.mpointings d;
     db.exposure_sets := db.exposure_sets d; db.pointings := l |}.

Definition with_events (d : db.Database) (l : list db.Event) : db.Database :=
  {| db.events := l; db.grids := db.grids d; db.grid_tiles := db.grid_tiles d;
     db.surveys := db.surveys d; db.survey_tiles := db.survey_tiles d;
     db.users := db.users d; db.mpointings := db.mpointings d;
     db.exposure_sets := db.exposure_sets d; db.pointings := db.pointings d |}.

Definition with_surveys (d : db.Database) (l : list db.Survey) : db.Database :=
  {| db.events := db.events d; db.grids := db.grids d; db.grid_tiles := db.grid_tiles d;
     db.surveys := l; db.survey_tiles := db.survey_tiles d;
     db.users := db.users d; db.mpointings := db.mpointings d;
     db.exposure_sets := db.exposure_sets d; db.pointings := db.pointings d |}.

(** [db_mpointing.status = status] on an object loaded by the session: the
    row with its primary key changes in the view. *)
Definition set_mpointing_status (db_mpointing : db.Mpointing) (status : string) : M unit :=
  d <- get_view ;;
  set_view (with_mpointings d
    (map (fun m => if Nat.eqb (db.mp_id m) (db.mp_id db_mpointing)
                   then with_status_mp m status else m)
         (db.mpointings d))).

Definition set_pointing_status (db_pointing : db.Pointing) (status : string) : M unit :=
  d <- get_view ;;
  set_view (with_pointings d
    (map (fun p => if Nat.eqb (db.pt_id p) (db.pt_id db_pointing)
                   then with_status_pt p status else p)
         (db.pointings d))).

(** [session.add(db_event)] and [session.add(db_survey)]. *)
Definition session_add_event (db_event : db.Event) : M unit :=
  d <- get_view ;; set_view (with_events d (db.events d ++ [db_event])).

Definition session_add_survey (db_survey : db.Survey) : M unit :=
  d <- get_view ;; set_view (with_surveys d (db.surveys d ++ [db_survey])).

Definition len {A : Type} (l : list A) : Z := Z.of_nat (List.length l).

Definition in_ (s : string) (choices : list string) : bool :=
  existsb (String.eqb s) choices.

(** ** The deduplication pass *)

Definition duplicate_ivorn (ivorn : string) : Exception :=
  ValueError ("ivorn=" ++ ivorn ++ " already exists in the database")%string.

Definition delete_previous (db_event : db.Event) : M unit :=
  (* Get any Mpointings for this event *)
  db_mpointings <- query_all db.mpointings
    (fun m => refers_to (db.mp_event m) (db.ev_id db_event)
              && in_ (db.mp_status m) ["scheduled"; "unscheduled"]) ;;
  (* Delete the Mpointings *)
  for_each db_mpointings (fun db_mpointing =>
    set_mpointing_status db_mpointing "deleted") ;;
  (* Get any pending pointings related to this event *)
  db_pointings <- query_all db.pointings
    (fun p => refers_to (db.pt_event p) (db.ev_id db_event)
              && String.eqb (db.pt_status p) "pending") ;;
  (* Delete the Pointings *)
  for_each db_pointings (fun db_pointing =>
    set_pointing_status db_pointing "deleted") ;;
  (* Commit changes *)
  commit ;;
  if (0 <? len db_mpointings)%Z || (0 <? len db_pointings)%Z
  then emit INFO "Deleted {} Mpointings and {} Pointings from previous Event {}"
            [ArgInt (len db_mpointings); ArgInt (len db_pointings);
             ArgStr (db.ev_ivorn db_event)]
  else ret tt.

Definition remove_previous_events_block (event : Event) : M unit :=
  (* Check the events table for any previous entries of the same event *)
  db_events <- query_all db.events
    (fun e => String.eqb (db.ev_name e) (event_name event)
              && String.eqb (db.ev_source e) (event_source event)) ;;
  match db_events with
  | [] =>
      (* Nothing to worry about, it's a new event *)
      emit INFO "Event {} has no previous entry in the database"
           [ArgStr (event_name event)]
  | _ :: _ =>
      if existsb (fun db_event => String.eqb (db.ev_ivorn db_event) (event_ivorn event))
                 db_events
      then raise (duplicate_ivorn (event_ivorn event))
      else
        emit DEBUG "Event {} has {} previous entries in the database"
             [ArgStr (event_name event); ArgInt (len db_events)] ;;
        for_each db_events delete_previous
  end.

Definition remove_previous_events (event : Event) (w : World) : Outcome unit * World :=
  open_session (remove_previous_events_block event) w.

(** ** Users and grids *)

Definition DEFAULT_USER : string := "goto".
Definition DEFAULT_PW : string := "gotoobs".
Definition DEFAULT_NAME : string := "GOTO automated alerts".

(** Modelled from the spec: [db.get_user] of the storage engine, which is
    not part of this repository: a lookup of a user by name that signals
    not-found via an error. *)
Definition db_get_user (name : string) : M db.User :=
  found <- query_all db.users (fun u => String.eqb (db.username u) name) ;;
  match found with
  | u :: _ => ret u
  | [] => raise (ValueError "No matching User found")
  end.

(** Get the database user, or create one if it doesn't exist. *)
Definition get_user : M db.User :=
  try_except (db_get_user DEFAULT_USER)
    (fun e =>
       match e with
       | ValueError _ =>
           id <- new_oid ;;
           ret {| db.user_id := id; db.username := DEFAULT_USER;
                  db.password := DEFAULT_PW; db.full_name := DEFAULT_NAME |}
       | _ => raise e
       end).

(** Get the current grid from the database. *)
Definition get_grid : M db.Grid :=
  (* Get all the database grids *)
  db_grids <- query_all db.grids (fun _ => true) ;;
  match db_grids with
  | [] => raise (ValueError "No defined Grids found!")
  | g :: l =>
      (* Might have multiple grids defined, just take the latest... *)
      ret (last l g)
  end.

(** ** Tables of the grid library *)

(** [table[mask]] with a boolean mask, one entry per row. *)
Definition getitem_mask {A : Type} (table : list A) (mask : list bool) : list A :=
  map snd (filter fst (combine mask table)).

(** [table[:stop]] *)
Definition slice_to {A : Type} (stop : Z) (table : list A) : list A :=
  if (0 <=? stop)%Z
  then firstn (Z.to_nat stop) table
  else firstn (List.length table - Z.to_nat (- stop)) table.

(** [sum(mask)]: the number of entries that are true. *)
Definition sum_mask (mask : list bool) : Z :=
  len (filter (fun b => b) mask).

(** The order in which numpy sorts floats: a NaN comes after every number. *)
Definition np_less (a b : float) : bool :=
  (a <? b)%float || (is_nan b && negb (is_nan a)).

Fixpoint insert_by_prob (r : TableRow) (sorted : list TableRow) : list TableRow :=
  match sorted with
  | [] => [r]
  | x :: rest =>
      if np_less (prob x) (prob r)
      then x :: insert_by_prob r rest
      else r :: sorted
  end.

(** [table.sort('prob')], ascending; rows of equal [prob] keep their order. *)
Fixpoint sort_by_prob (table : list TableRow) : list TableRow :=
  match table with
  | [] => []
  | r :: rest => insert_by_prob r (sort_by_prob rest)
  end.

(** [table.sort('prob'); table.reverse()] *)
Definition sort_reverse (table : list TableRow) : list TableRow :=
  rev (sort_by_prob table).

(** The literal [0.9], the binary64 number nearest to nine tenths. *)
Definition contour_level : float := 0x1.ccccccccccccdp-1%float.

Definition with_tables (event : Event) (sm : Skymap) (full masked : list TableRow) : Event :=
  {| event_name := event_name event; event_ivorn := event_ivorn event;
     event_source := event_source event; event_type := event_type event;
     event_time := event_time event; event_skymap_url := event_skymap_url event;
     event_coord := event_coord event;
     event_skymap := Some sm;
     event_remote_skymap := event_remote_skymap event;
     event_strategy := event_strategy event;
     event_full_table := Some full;
     event_masked_table := Some masked;
     event_tile_table := event_tile_table event |}.

Definition with_tile_table (event : Event) (tile_table : list TableRow) : Event :=
  {| event_name := event_name event; event_ivorn := event_ivorn event;
     event_source := event_source event; event_type := event_type event;
     event_time := event_time event; event_skymap_url := event_skymap_url event;
     event_coord := event_coord event;
     event_skymap := event_skymap event;
     event_remote_skymap := event_remote_skymap event;
     event_strategy := event_strategy event;
     event_full_table := event_full_table event;
     event_masked_table := event_masked_table event;
     event_tile_table := Some tile_table |}.

(** Modelled from the spec: [event.get_skymap()] of the alert object, whose
    class is not under src/: the skymap of the event is fetched when it is
    absent. *)
Definition get_skymap (event : Event) : Skymap := event_remote_skymap event.

Section TileResolver.

(** [numpy.mean] is taken as it comes: nothing is assumed about how it
    rounds. *)
Variable np_mean : list float -> float.

(** Apply the Event skymap to the current grid and return a table of
    filtered tiles, with the event as it is left.  The geometry of the
    grid ([db_grid]) is the business of the grid library: the skymap
    comes with the tiles that it yields. *)
Definition get_grid_tiles (event : Event) (db_grid : db.Grid)
  : list TableRow * Event :=
  (* Apply the Event skymap to the grid *)
  let skymap :=
    match event_skymap event with
    | Some sm => sm
    | None => get_skymap event
    end in
  let pixels := skymap_tiles skymap in
  (* Get the table of tiles and contained probability *)
  let table := map tile_row pixels in
  (* mask based on if the mean tile pixel value is within the 90% contour *)
  let mask :=
    map (fun tile => (np_mean (tile_contours tile) <? contour_level)%float) pixels in
  let mask :=
    if (sum_mask mask <? 1)%Z
    then
      (* Instead just mask to any tiles with a contained probability of > 90% *)
      map (fun r => (contour_level <? prob r)%float) table
    else mask in
  let masked_table := getitem_mask table mask in
  (* Sort the tables *)
  let table := sort_reverse table in
  let masked_table := sort_reverse masked_table in
  (* Store grid and tables on the Event *)
  (masked_table, with_tables event skymap table masked_table).

End TileResolver.

(** ** Objects of the plan *)

(** Modelled from the spec: the constructor [db.Mpointing(...)] of the
    storage engine, which is not part of this repository: a new
    MetaPointing with the given target and parameters, not linked to
    anything, whose status is [unscheduled]. *)
Definition new_mpointing (object_name : string) (ra dec : option float)
    (mp_data : MpData) : M MpointingObject :=
  id <- new_oid ;;
  ret {| row := {| db.mp_id := id; db.mp_object_name := object_name;
                   db.mp_ra := ra; db.mp_dec := dec; db.mp_data := mp_data;
                   db.mp_status := "unscheduled";
                   db.mp_user := None; db.mp_event := None;
                   db.mp_grid_tile := None; db.mp_survey_tile := None |};
         user := None; survey_tile := None;
         exposure_sets := []; pointings := [] |}.

(** [db_mpointing.user = db_user] *)
Definition set_user (o : MpointingObject) (db_user : db.User) : MpointingObject :=
  let m := row o in
  {| row := {| db.mp_id := db.mp_id m; db.mp_object_name := db.mp_object_name m;
               db.mp_ra := db.mp_ra m; db.mp_dec := db.mp_dec m;
               db.mp_data := db.mp_data m; db.mp_status := db.mp_status m;
               db.mp_user := Some (db.user_id db_user);
               db.mp_event := db.mp_event m;
               db.mp_grid_tile := db.mp_grid_tile m;
               db.mp_survey_tile := db.mp_survey_tile m |};
     user := Some db_user; survey_tile := survey_tile o;
     exposure_sets := exposure_sets o; pointings := pointings o |}.

(** [db_mpointing.event = db_event] *)
Definition set_event (o : MpointingObject) (db_event : db.Event) : MpointingObject :=
  let m := row o in
  {| row := {| db.mp_id := db.mp_id m; db.mp_object_name := db.mp_object_name m;
               db.mp_ra := db.mp_ra m; db.mp_dec := db.mp_dec m;
               db.mp_data := db.mp_data m; db.mp_status := db.mp_status m;
               db.mp_user := db.mp_user m;
               db.mp_event := Some (db.ev_id db_event);
               db.mp_grid_tile := db.mp_grid_tile m;
               db.mp_survey_tile := db.mp_survey_tile m |};
     user := user o; survey_tile := survey_tile o;
     exposure_sets := exposure_sets o; pointings := pointings o |}.

(** [db_mpointing.grid_tile = db_grid_tile], where [db_grid_tile] may be
    [None]. *)
Definition set_grid_tile (o : MpointingObject) (db_grid_tile : option db.GridTile)
  : MpointingObject :=
  let m := row o in
  {| row := {| db.mp_id := db.mp_id m; db.mp_object_name := db.mp_object_name m;
               db.mp_ra := db.mp_ra m; db.mp_dec := db.mp_dec m;
               db.mp_data := db.mp_data m; db.mp_status := db.mp_status m;
               db.mp_user := db.mp_user m; db.mp_event := db.mp_event m;
               db.mp_grid_tile := option_map db.gt_id db_grid_tile;
               db.mp_survey_tile := db.mp_survey_tile m |};
     user := user o; survey_tile := survey_tile o;
     exposure_sets := exposure_sets o; pointings := pointings o |}.

(** [db_mpointing.survey_tile = db_survey_tile] *)
Definition set_survey_tile (o : MpointingObject) (db_survey_tile : db.SurveyTile)
  : MpointingObject :=
  let m := row o in
  {| row := {| db.mp_id := db.mp_id m; db.mp_object_name := db.mp_object_name m;
               db.mp_ra := db.mp_ra m; db.mp_dec := db.mp_dec m;
               db.mp_data := db.mp_data m; db.mp_status := db.mp_status m;
               db.mp_user := db.mp_user m; db.mp_event := db.mp_event m;
               db.mp_grid_tile := db.mp_grid_tile m;
               db.mp_survey_tile := Some (db.st_id db_survey_tile) |};
     user := user o; survey_tile := Some db_survey_tile;
     exposure_sets := exposure_sets o; pointings := pointings o |}.

(** [db_mpointing.exposure_sets.append(db_exposure_set)]: the exposure set
    now belongs to this MetaPointing. *)
Definition append_exposure_set (o : MpointingObject) (db_exposure_set : db.ExposureSet)
  : MpointingObject :=
  {| row := row o; user := user o; survey_tile := survey_tile o;
     exposure_sets :=
       exposure_sets o ++
       [{| db.es_id := db.es_id db_exposure_set;
           db.es_data := db.es_data db_exposure_set;
           db.es_mpointing := Some (db.mp_id (row o)) |}];
     pointings := pointings o |}.

(** [db_mpointing.pointings.append(db_pointing)] *)
Definition append_pointing (o : MpointingObject) (db_pointing : db.Pointing)
  : MpointingObject :=
  {| row := row o; user := user o; survey_tile := survey_tile o;
     exposure_sets := exposure_sets o;
     pointings :=
       pointings o ++
       [{| db.pt_id := db.pt_id db_pointing;
           db.pt_status := db.pt_status db_pointing;
           db.pt_mpointing := Some (db.mp_id (row o));
           db.pt_event := db.pt_event db_pointing;
           db.pt_grid_tile := db.pt_grid_tile db_pointing;
           db.pt_survey_tile := db.pt_survey_tile db_pointing |}] |}.

(** Modelled from the spec: [Mpointing.get_next_pointing()] of the storage
    engine, which is not part of this repository: it synthesizes the next
    Pointing of the MetaPointing, pending.  It links by the keys of stored
    rows, which the objects do not have yet, so the Pointing comes back
    with no link. *)
Definition get_next_pointing (o : MpointingObject) : M db.Pointing :=
  id <- new_oid ;;
  ret {| db.pt_id := id; db.pt_status := "pending";
         db.pt_mpointing := None; db.pt_event := None;
         db.pt_grid_tile := None; db.pt_survey_tile := None |}.

Definition pointing_with_event (p : db.Pointing) (db_event : db.Event) : db.Pointing :=
  {| db.pt_id := db.pt_id p; db.pt_status := db.pt_status p;
     db.pt_mpointing := db.pt_mpointing p;
     db.pt_event := Some (db.ev_id db_event);
     db.pt_grid_tile := db.pt_grid_tile p;
     db.pt_survey_tile := db.pt_survey_tile p |}.

Definition pointing_with_grid_tile (p : db.Pointing) (db_grid_tile : option db.GridTile)
  : db.Pointing :=
  {| db.pt_id := db.pt_id p; db.pt_status := db.pt_status p;
     db.pt_mpointing := db.pt_mpointing p; db.pt_event := db.pt_event p;
     db.pt_grid_tile := option_map db.gt_id db_grid_tile;
     db.pt_survey_tile := db.pt_survey_tile p |}.

Definition pointing_with_survey_tile (p : db.Pointing) (db_survey_tile : db.SurveyTile)
  : db.Pointing :=
  {| db.pt_id := db.pt_id p; db.pt_status := db.pt_status p;
     db.pt_mpointing := db.pt_mpointing p; db.pt_event := db.pt_event p;
     db.pt_grid_tile := db.pt_grid_tile p;
     db.pt_survey_tile := Some (db.st_id db_survey_tile) |}.

(** The rows that storing one MetaPointing adds: its own, those of its
    exposure sets and pointings, and those of its user and survey tile
    unless they are stored already. *)
Definition store (o : MpointingObject) (d : db.Database) : db.Database :=
  {| db.events := db.events d;
     db.grids := db.grids d;
     db.grid_tiles := db.grid_tiles d;
     db.surveys := db.surveys d;
     db.survey_tiles :=
       match survey_tile o with
       | Some t =>
           if existsb (fun t0 => Nat.eqb (db.st_id t0) (db.st_id t)) (db.survey_tiles d)
           then db.survey_tiles d else db.survey_tiles d ++ [t]
       | None => db.survey_tiles d
       end;
     db.users :=
       match user o with
       | Some u =>
           if existsb (fun u0 => Nat.eqb (db.user_id u0) (db.user_id u)) (db.users d)
           then db.users d else db.users d ++ [u]
       | None => db.users d
       end;
     db.mpointings := db.mpointings d ++ [row o];
     db.exposure_sets := db.exposure_sets d ++ exposure_sets o;
     db.pointings := db.pointings d ++ pointings o |}.

(** Modelled from the spec: [db.insert_items] of the storage engine, which
    is not part of this repository: it adds all MetaPointings, and the rows
    they own, to the session in one batch. *)
Definition insert_items (items : list MpointingObject) : M unit :=
  for_each items (fun o => d <- get_view ;; set_view (store o d)).

(** A [for] loop that changes the objects of a list in place. *)
Fixpoint for_update {A : Type} (l : list A) (body : A -> M A) : M (list A) :=
  match l with
  | [] => ret []
  | x :: l' =>
      y <- body x ;;
      ys <- for_update l' body ;;
      ret (y :: ys)
  end.

(** Reading a local variable: one that no assignment has reached yet is
    unbound. *)
Definition read_local {A : Type} (var : string) (value : option A) : M A :=
  match value with
  | Some v => ret v
  | None => raise (UnboundLocalError var)
  end.

(** The two locals of [add_to_database] that only the loop over the tiles
    assigns. *)
Record Locals : Type := {
  db_grid_tile : option (option db.GridTile);
  db_survey_tile : option db.SurveyTile
}.

(** ** The plan builder *)

(** [db.Event(name=event.name, ivorn=event.ivorn, source=event.source,
    event_type=event.type, time=event.time, skymap=...)], where the skymap
    is [event.skymap_url] if the event has that attribute, else [None]. *)
Definition event_row (id : oid) (event : Event) : db.Event :=
  {| db.ev_id := id;
     db.ev_name := event_name event;
     db.ev_ivorn := event_ivorn event;
     db.ev_source := event_source event;
     db.ev_event_type := event_type event;
     db.ev_time := event_time event;
     db.ev_skymap := event_skymap_url event |}.

Section PlanBuilder.

Variable np_mean : list float -> float.

(** The loop [for exp_data in expsets], which the function holds twice. *)
Definition create_exposure_sets (expsets : list ExpData)
    (db_mpointing : MpointingObject) : M MpointingObject :=
  for_fold expsets
    (fun db_mpointing exp_data =>
       id <- new_oid ;;
       let db_exposure_set :=
         {| db.es_id := id; db.es_data := exp_data; db.es_mpointing := None |} in
       ret (append_exposure_set db_mpointing db_exposure_set))
    db_mpointing.

(** Create a single Mpointing (the branch [not event.strategy['on_grid']]). *)
Definition create_single_mpointing (event : Event) (mp_data : MpData)
    (expsets : list ExpData) (db_event : db.Event) (db_user : db.User)
  : M (list MpointingObject) :=
  db_mpointing <- new_mpointing (event_name event)
                    (Some (ra (event_coord event)))
                    (Some (dec (event_coord event)))
                    mp_data ;;
  let db_mpointing := set_user db_mpointing db_user in
  let db_mpointing := set_event db_mpointing db_event in
  (* Create Exposure Sets *)
  db_mpointing <- create_exposure_sets expsets db_mpointing ;;
  (* Add to list *)
  ret [db_mpointing].

(** The body of [for tilename, _, _, weight in tile_table]. *)
Definition create_tile_mpointing (event : Event) (mp_data : MpData)
    (db_event : db.Event) (db_grid : db.Grid) (db_survey : db.Survey)
    (db_user : db.User)
    (state : list MpointingObject * Locals) (tile : TableRow)
  : M (list MpointingObject * Locals) :=
  (* Find the matching GridTile *)
  found <- query_all db.grid_tiles
    (fun t => refers_to (db.gt_grid t) (db.grid_id db_grid)
              && String.eqb (db.gt_name t) (tilename tile)) ;;
  db_grid_tile <- one_or_none found ;;
  (* Create a SurveyTile *)
  id <- new_oid ;;
  let db_survey_tile :=
    {| db.st_id := id; db.st_weight := prob tile;
       db.st_survey := Some (db.sv_id db_survey);
       db.st_grid_tile := option_map db.gt_id db_grid_tile |} in
  (* Create Mpointing *)
  db_mpointing <- new_mpointing (event_name event ++ "_" ++ tilename tile)%string
                    None None mp_data ;;
  let db_mpointing := set_user db_mpointing db_user in
  let db_mpointing := set_grid_tile db_mpointing db_grid_tile in
  let db_mpointing := set_survey_tile db_mpointing db_survey_tile in
  let db_mpointing := set_event db_mpointing db_event in
  (* Add to list *)
  ret (fst state ++ [db_mpointing],
       {| db_grid_tile := Some db_grid_tile;
          db_survey_tile := Some db_survey_tile |}).

(** The body of [for db_mpointing in mpointings]. *)
Definition create_children (expsets : list ExpData) (db_event : db.Event)
    (locals : Locals) (db_mpointing : MpointingObject) : M MpointingObject :=
  (* Create Exposure Sets *)
  db_mpointing <- create_exposure_sets expsets db_mpointing ;;
  (* Create the first Pointing (i.e. preempt the caretaker) *)
  db_pointing <- get_next_pointing db_mpointing ;;
  let db_pointing := pointing_with_event db_pointing db_event in
  grid_tile <- read_local "db_grid_tile" (db_grid_tile locals) ;;
  let db_pointing := pointing_with_grid_tile db_pointing grid_tile in
  survey_tile <- read_local "db_survey_tile" (db_survey_tile locals) ;;
  let db_pointing := pointing_with_survey_tile db_pointing survey_tile in
  ret (append_pointing db_mpointing db_pointing).

(** From [db_user = get_user(session)] to [db.insert_items].  [tiled]
    holds [db_grid], [db_survey] and [tile_table] when
    [event.strategy['on_grid']] is true, and nothing when it is false. *)
Definition prepare_plan (event : Event) (mp_data : MpData) (expsets : list ExpData)
    (db_event : db.Event)
    (tiled : option (db.Grid * db.Survey * list TableRow)) : M unit :=
  (* Get the database User, or make it if it doesn't exist *)
  db_user <- get_user ;;
  (* Create Mpointing(s) *)
  let unbound := {| db_grid_tile := None; db_survey_tile := None |} in
  '(mpointings, locals) <-
    match tiled with
    | None =>
        mpointings <- create_single_mpointing event mp_data expsets db_event db_user ;;
        ret (mpointings, unbound)
    | Some (db_grid, db_survey, tile_table) =>
        for_fold tile_table
          (create_tile_mpointing event mp_data db_event db_grid db_survey db_user)
          ([], unbound)
    end ;;
  mpointings <- for_update mpointings (create_children expsets db_event locals) ;;
  (* Add Mpointings to the database *)
  emit DEBUG "Adding {} Mpointings to database" [ArgInt (len mpointings)] ;;
  insert_items mpointings.

(** The end of the function: [session.commit()] under [try]. *)
Definition commit_changes : M unit :=
  try_except commit
    (fun e =>
       (* Undo database changes before raising *)
       rollback ;; raise e).

Definition build_plan (event : Event) (mp_data : MpData) (expsets : list ExpData)
    (db_event : db.Event)
    (tiled : option (db.Grid * db.Survey * list TableRow)) : M unit :=
  prepare_plan event mp_data expsets db_event tiled ;;
  (* Commit changes *)
  commit_changes.

(** The table of the tiles to observe: [masked_table[:tile_limit]], then
    the rows above [prob_limit] if that is positive. *)
Definition limit_tiles (masked_table : list TableRow) (limit : Z) (floor : float)
  : list TableRow :=
  (* Limit number of tiles *)
  let tile_table := slice_to limit masked_table in
  (* Limit probability, if given *)
  if (0 <? floor)%float
  then getitem_mask tile_table (map (fun r => (floor <? prob r)%float) tile_table)
  else tile_table.

(** The tiled path once the final table is there: from
    [if not len(tile_table)] to the end of the function. *)
Definition add_tiles (event : Event) (mp_data : MpData) (expsets : list ExpData)
    (db_event : db.Event) (db_grid : db.Grid) (tile_table : list TableRow)
  : M unit :=
  (* We might have excluded all of our tiles, if so exit *)
  match tile_table with
  | [] =>
      emit WARNING "No tiles passed filtering, no pointings to add" [] ;;
      full_table <- lift (getattr "full_table" (event_full_table event)) ;;
      highest <- lift (py_max (map prob full_table)) ;;
      percent <- lift (float_mul_int highest 100) ;;
      emit DEBUG "Highest tile has {:.2f}%" [ArgFloat percent]
  | _ :: _ =>
      (* Create Survey *)
      id <- new_oid ;;
      let db_survey :=
        {| db.sv_id := id; db.sv_name := event_name event;
           db.sv_grid := Some (db.grid_id db_grid);
           db.sv_event := Some (db.ev_id db_event) |} in
      emit DEBUG "Adding Survey to database" [] ;;
      session_add_survey db_survey ;;
      build_plan event mp_data expsets db_event
        (Some (db_grid, db_survey, tile_table))
  end.

(** The block under [with db.open_session() as session]. *)
Definition add_to_database_block (event : Event) : M unit :=
  (* Get Mpointing and ExposureSet infomation *)
  '(mp_data, expsets) <- lift (get_mpointing_info event) ;;
  (* Create Event *)
  id <- new_oid ;;
  let db_event := event_row id event in
  emit DEBUG "Adding Event to database" [] ;;
  session_add_event db_event ;;
  (* If it's a retraction event that's all we need to do *)
  if String.eqb (event_type event) "GW_RETRACTION"
  then ret tt
  else
    tiled <- lift (getitem "on_grid" (on_grid (event_strategy event))) ;;
    if tiled : bool
    then
      (* Find the current Grid in the database *)
      db_grid <- get_grid ;;
      emit INFO "Applying to Grid {}" [ArgStr (db.grid_name db_grid)] ;;
      (* Get the masked tile table *)
      let '(masked_table, event) := get_grid_tiles np_mean event db_grid in
      limit <- lift (getitem "tile_limit" (tile_limit (event_strategy event))) ;;
      floor <- lift (getitem "prob_limit" (prob_limit (event_strategy event))) ;;
      let tile_table := limit_tiles masked_table limit floor in
      (* Store final table *)
      let event := with_tile_table event tile_table in
      emit DEBUG "Masked tile table has {} entries" [ArgInt (len tile_table)] ;;
      add_tiles event mp_data expsets db_event db_grid tile_table
    else
      build_plan event mp_data expsets db_event None.

(** Add the Event into the database. *)
Definition add_to_database (event : Event) (w : World) : Outcome unit * World :=
  open_session (add_to_database_block event) w.

End PlanBuilder.

(** ** The words of the specification *)

(** Minimum visit time: the sum over the exposure sets of
    [(exptime + readout overhead) * num_exp], with a readout overhead of
    30 seconds, added up from the first exposure set on. *)
Definition readout_sum (expsets : list ExpData) : float :=
  fold_left
    (fun acc exp_data =>
       (acc + (exptime exp_data + 30) * Z2float (num_exp exp_data))%float)
    expsets 0%float.

(** A mapping of an exposure set holds the values of an extracted one. *)
Definition holds_values (expset_dict : ExposureSetDict) (exp_data : ExpData) : Prop :=
  esd_num_exp expset_dict = Some (num_exp exp_data)
  /\ esd_exptime expset_dict = Some (exptime exp_data)
  /\ esd_filt expset_dict = Some (filt exp_data).

(** The stored events that the deduplication pass takes for earlier
    notices of an event: those with its name and source. *)
Definition is_previous (event : Event) (e : db.Event) : bool :=
  String.eqb (db.ev_name e) (event_name event)
  && String.eqb (db.ev_source e) (event_source event).

Definition belongs_to (previous : list db.Event) (fk : option oid) : bool :=
  existsb (fun e => refers_to fk (db.ev_id e)) previous.

(** Soft deletion: a MetaPointing of a previous event whose status is
    [scheduled] or [unscheduled] becomes [deleted]; a Pointing of a previous
    event whose status is [pending] becomes [deleted]; every other row stays
    as it is, and no row goes away. *)
Definition soft_delete_mpointing (previous : list db.Event) (m : db.Mpointing)
  : db.Mpointing :=
  if belongs_to previous (db.mp_event m)
     && in_ (db.mp_status m) ["scheduled"; "unscheduled"]
  then with_status_mp m "deleted"
  else m.

Definition soft_delete_pointing (previous : list db.Event) (p : db.Pointing)
  : db.Pointing :=
  if belongs_to previous (db.pt_event p) && String.eqb (db.pt_status p) "pending"
  then with_status_pt p "deleted"
  else p.

Definition soft_delete (previous : list db.Event) (d : db.Database) : db.Database :=
  with_pointings
    (with_mpointings d (map (soft_delete_mpointing previous) (db.mpointings d)))
    (map (soft_delete_pointing previous) (db.pointings d)).

(** The skymap of the event once it is loaded. *)
Definition loaded_skymap (event : Event) : Skymap :=
  match event_skymap event with
  | Some sm => sm
  | None => get_skymap event
  end.

(** The containment tests of the resolver: the mean of the contour values
    of the pixels of a tile is below 0.9; the aggregate [prob] of a row
    exceeds 0.9. *)
Definition mean_below_level (np_mean : list float -> float) (tile : Tile) : bool :=
  (np_mean (tile_contours tile) <? contour_level)%float.

Definition prob_above_level (r : TableRow) : bool :=
  (contour_level <? prob r)%float.

(** ** Sample data *)

(** A mean that adds the values up from the first on and divides by their
    number. *)
Definition sequential_mean (values : list float) : float :=
  (fold_left PrimFloat.add values 0 / Z2float (len values))%float.

Definition sample_exposure_sets : list ExposureSetDict :=
  [ {| esd_num_exp := Some 2%Z; esd_exptime := Some 60%float; esd_filt := Some "L" |};
    {| esd_num_exp := Some 1%Z; esd_exptime := Some 10%float; esd_filt := Some "R" |} ].

Definition sample_strategy (tiled : bool) (limit : Z) (floor : float) : Strategy :=
  {| exposure_sets_dict := Some sample_exposure_sets;
     start_time := Some "2019-04-25 08:18:05";
     stop_time := Some "2019-04-28 08:18:05";
     rank := Some 2%Z;
     cadence_dict :=
       Some {| cd_num_todo := Some 3%Z; cd_wait_time := Some (WaitFloat 60) |};
     constraints_dict :=
       Some {| cs_max_sunalt := Some (-12)%float; cs_min_alt := Some 30%float;
               cs_min_moonsep := Some 10%float; cs_max_moon := Some "B" |};
     on_grid := Some tiled;
     tile_limit := Some limit;
     prob_limit := Some floor |}.

(** A strategy mapping with nothing in it. *)
Definition empty_strategy : Strategy :=
  {| exposure_sets_dict := None; start_time := None; stop_time := None;
     rank := None; cadence_dict := None; constraints_dict := None;
     on_grid := None; tile_limit := None; prob_limit := None |}.

Definition sample_expsets : list ExpData :=
  [ {| num_exp := 2; exptime := 60; filt := "L"; binning := 1; imgtype := "SCIENCE" |};
    {| num_exp := 1; exptime := 10; filt := "R"; binning := 1; imgtype := "SCIENCE" |} ].

Definition sample_mp_data : MpData :=
  {| too := true; min_time := Float 220; valid_time := -1;
     mp_start_time := "2019-04-25 08:18:05";
     mp_stop_time := "2019-04-28 08:18:05";
     start_rank := 2; num_todo := 3; wait_time := WaitFloat 60;
     max_sunalt := (-12)%float; min_alt := 30; min_moonsep := 10;
     max_moon := "B" |}.

Definition sample_tile (name : string) (p : float) (contours : list float) : Tile :=
  {| tile_row := {| tilename := name; tile_ra := 0; tile_dec := 0; prob := p |};
     tile_contours := contours |}.

(** A wide localisation: two tiles inside the 90% contour, one outside. *)
Definition wide_skymap : Skymap :=
  {| skymap_tiles :=
       [ sample_tile "T0001" 0.25 [0.5; 0.75];
         sample_tile "T0002" 0.5 [0.125; 0.25];
         sample_tile "T0003" 0.015625 [0.9375; 1] ]%float |}.

(** A sharp localisation: no tile has a mean contour below 0.9, one tile
    holds nearly all of the probability. *)
Definition sharp_skymap : Skymap :=
  {| skymap_tiles :=
       [ sample_tile "T0001" 0.03125 [0.96875; 1];
         sample_tile "T0002" 0.9375 [0.9375; 1] ]%float |}.

Definition sample_event (type : string) (ivorn : string) (sm : Skymap)
    (strategy : Strategy) : Event :=
  {| event_name := "S190425z";
     event_ivorn := ivorn;
     event_source := "LVC";
     event_type := type;
     event_time := "2019-04-25 08:18:05";
     event_skymap_url := None;
     event_coord := {| ra := 241.5; dec := 22.25 |};
     event_skymap := None;
     event_remote_skymap := sm;
     event_strategy := strategy;
     event_full_table := None;
     event_masked_table := None;
     event_tile_table := None |}.

Definition sample_grid : db.Grid :=
  {| db.grid_id := 1; db.grid_name := "GOTO-4"; db.ra_fov := 3.75; db.dec_fov := 4.875;
     db.ra_overlap := 0.125; db.dec_overlap := 0.125; db.algorithm := "NEW" |}.

(** A database with a grid and its tiles, and nothing scheduled. *)
Definition sample_database : db.Database :=
  {| db.events := [];
     db.grids := [sample_grid];
     db.grid_tiles :=
       [ {| db.gt_id := 2; db.gt_name := "T0001"; db.gt_grid := Some 1 |};
         {| db.gt_id := 3; db.gt_name := "T0002"; db.gt_grid := Some 1 |};
         {| db.gt_id := 4; db.gt_name := "T0003"; db.gt_grid := Some 1 |} ];
     db.surveys := []; db.survey_tiles := []; db.users := [];
     db.mpointings := []; db.exposure_sets := []; db.pointings := [] |}.

Definition sample_world : World :=
  {| database := sample_database; oid_supply := 100; records := [] |}.

(** The first notice of an event, stored, with a scheduled MetaPointing, a
    pending Pointing and a running Pointing. *)
Definition stored_event : db.Event :=
  {| db.ev_id := 10; db.ev_name := "S190425z"; db.ev_ivorn := "ivo://gwnet/LVC#S190425z-1";
     db.ev_source := "LVC"; db.ev_event_type := "GW_CBC";
     db.ev_time := "2019-04-25 08:18:05"; db.ev_skymap := None |}.

Definition stored_mpointing (status : string) : db.Mpointing :=
  {| db.mp_id := 11; db.mp_object_name := "S190425z_T0002";
     db.mp_ra := None; db.mp_dec := None; db.mp_data := sample_mp_data;
     db.mp_status := status; db.mp_user := None; db.mp_event := Some 10;
     db.mp_grid_tile := Some 3; db.mp_survey_tile := None |}.

Definition stored_pointing (id : oid) (status : string) : db.Pointing :=
  {| db.pt_id := id; db.pt_status := status; db.pt_mpointing := Some 11;
     db.pt_event := Some 10; db.pt_grid_tile := Some 3; db.pt_survey_tile := None |}.

Definition stored_database : db.Database :=
  {| db.events := [stored_event];
     db.grids := [sample_grid];
     db.grid_tiles := db.grid_tiles sample_database;
     db.surveys := []; db.survey_tiles := []; db.users := [];
     db.mpointings := [stored_mpointing "scheduled"];
     db.exposure_sets := [];
     db.pointings := [stored_pointing 12 "running"; stored_pointing 13 "pending"] |}.

Definition stored_world : World :=
  {| database := stored_database; oid_supply := 100; records := [] |}.

Definition tiled_event : Event :=
  sample_event "GW_CBC" "ivo://gwnet/LVC#S190425z-1" wide_skymap
    (sample_strategy true 5 0).

(** The second notice of the stored event. *)
Definition update_event : Event :=
  sample_event "GW_CBC" "ivo://gwnet/LVC#S190425z-2" wide_skymap
    (sample_strategy true 5 0).

(** The same event under a floor that no tile can pass. *)
Definition floored_event : Event :=
  sample_event "GW_CBC" "ivo://gwnet/LVC#S190425z-1" wide_skymap
    (sample_strategy true 5 1).

Definition untiled_event : Event :=
  sample_event "GRB" "ivo://nasa.gsfc.gcn/SWIFT#BAT_GRB_Pos_532871-729" wide_skymap
    (sample_strategy false 5 0).

Definition sharp_event : Event :=
  sample_event "GRB" "ivo://nasa.gsfc.gcn/SWIFT#BAT_GRB_Pos_532871-729" sharp_skymap
    (sample_strategy true 5 0).

Definition retraction_event : Event :=
  sample_event "GW_RETRACTION" "ivo://gwnet/LVC#S190425z-3" wide_skymap
    (sample_strategy true 5 0).

(** A retraction whose strategy mapping holds nothing. *)
Definition bare_retraction : Event :=
  sample_event "GW_RETRACTION" "ivo://gwnet/LVC#S190425z-3" wide_skymap
    empty_strategy.

Definition sample_user : db.User :=
  {| db.user_id := 101; db.username := DEFAULT_USER; db.password := DEFAULT_PW;
     db.full_name := DEFAULT_NAME |}.

(** ** States and predicates of the proofs *)

(** A change of the view of the session. *)
Definition on_view (f : db.Database -> db.Database) (s : State) : State :=
  {| committed := committed s; view := f (view s);
     next_oid := next_oid s; log := log s |}.

(** The filters of the two queries of [delete_previous]. *)
Definition queued_mpointing (db_event : db.Event) (m : db.Mpointing) : bool :=
  refers_to (db.mp_event m) (db.ev_id db_event)
  && in_ (db.mp_status m) ["scheduled"; "unscheduled"].

Definition pending_pointing (db_event : db.Event) (p : db.Pointing) : bool :=
  refers_to (db.pt_event p) (db.ev_id db_event)
  && String.eqb (db.pt_status p) "pending".

(** What the loops of [delete_previous] do to the view, row by row. *)
Definition mark_mpointings (l : list db.Mpointing) (d : db.Database) : db.Database :=
  with_mpointings d
    (map (fun m => if existsb (fun x => Nat.eqb (db.mp_id m) (db.mp_id x)) l
                   then with_status_mp m "deleted" else m)
         (db.mpointings d)).

Definition mark_pointings (l : list db.Pointing) (d : db.Database) : db.Database :=
  with_pointings d
    (map (fun p => if existsb (fun x => Nat.eqb (db.pt_id p) (db.pt_id x)) l
                   then with_status_pt p "deleted" else p)
         (db.pointings d)).

(** The view after the pass over one previous event. *)
Definition deleted_for (db_event : db.Event) (d : db.Database) : db.Database :=
  mark_pointings (filter (pending_pointing db_event) (db.pointings d))
    (mark_mpointings (filter (queued_mpointing db_event) (db.mpointings d)) d).

(** The pass over one previous event, row by row. *)
Definition soft_delete_for (db_event : db.Event) (d : db.Database) : db.Database :=
  with_pointings
    (with_mpointings d
       (map (fun m => if queued_mpointing db_event m
                      then with_status_mp m "deleted" else m)
            (db.mpointings d)))
    (map (fun p => if pending_pointing db_event p
                   then with_status_pt p "deleted" else p)
         (db.pointings d)).

(** Whatever the computation does and however it ends, the component [f]
    of the state is afterwards what it was. *)
Definition preserves {X A : Type} (f : State -> X) (c : M A) : Prop :=
  forall s, f (snd (c s)) = f s.

(** Where a step of a transaction may leave the database: as it was, or, if
    the step returned, with everything committed. *)
Definition settled (s : State) (x : Outcome unit * State) : Prop :=
  committed (snd x) = committed s
  \/ (fst x = Return tt /\ view (snd x) = committed (snd x)).

(** The start of the block: the plan is derived, then the Event is added
    to the session. *)
Definition event_added (event : Event) (s : State) : State :=
  {| committed := committed s;
     view := with_events (view s)
               (db.events (view s) ++ [event_row (next_oid s) event]);
     next_oid := S (next_oid s);
     log := log s ++ [{| levelname := DEBUG; msg := "Adding Event to database";
                         args := [] |}] |}.

(** No stored Event carries the ivorn of the event. *)
Definition ivorn_is_new (event : Event) (d : db.Database) : Prop :=
  forall e, In e (db.events d) -> db.ev_ivorn e <> event_ivorn event.

(** A state in which only the supply of object identities has moved. *)
Definition with_oid (s : State) (n : oid) : State :=
  {| committed := committed s; view := view s; next_oid := n; log := log s |}.

(** Run from [s], the computation returns a value that satisfies [Q] and
    has changed nothing but the supply of object identities. *)
Definition allocates {A : Type} (c : M A) (s : State) (Q : A -> Prop) : Prop :=
  exists a n, c s = (Return a, with_oid s n) /\ Q a.

(** Both locals of the loop over the tiles are assigned. *)
Definition bound (locals : Locals) : Prop :=
  exists grid_tile survey_tile,
    locals = {| db_grid_tile := Some grid_tile; db_survey_tile := Some survey_tile |}.

(** What the loop over the MetaPointings makes of one of them: the same
    row, with one exposure set more for each specification and one pending
    Pointing more. *)
Definition with_children (expsets : list ExpData) (o o' : MpointingObject) : Prop :=
  row o' = row o
  /\ user o' = user o
  /\ survey_tile o' = survey_tile o
  /\ map db.es_data (exposure_sets o')
     = map db.es_data (exposure_sets o) ++ expsets
  /\ exists p, pointings o' = pointings o ++ [p]
               /\ db.pt_status p = "pending"
               /\ db.pt_mpointing p = Some (db.mp_id (row o)).

(** What the loop over the tiles makes for one tile: a MetaPointing named
    after the event and the tile, with no coordinates and nothing attached
    yet. *)
Definition for_tile (event : Event) (tile : TableRow) (o : MpointingObject) : Prop :=
  db.mp_object_name (row o) = (event_name event ++ "_" ++ tilename tile)%string
  /\ db.mp_ra (row o) = None
  /\ db.mp_dec (row o) = None
  /\ exposure_sets o = []
  /\ pointings o = [].

(** The grid tiles that the query of the loop over the tiles finds. *)
Definition grid_tiles_named (db_grid : db.Grid) (d : db.Database) (tile : TableRow)
  : list db.GridTile :=
  filter (fun t => refers_to (db.gt_grid t) (db.grid_id db_grid)
                   && String.eqb (db.gt_name t) (tilename tile))
         (db.grid_tiles d).

(** The view after [db.insert_items]. *)
Definition store_all (items : list MpointingObject) (d : db.Database) : db.Database :=
  fold_left (fun d o => store o d) items d.

(** The state in which [prepare_plan] leaves the session when it has made
    the MetaPointings [items]. *)
Definition plan_stored (items : list MpointingObject) (n : oid) (s : State) : State :=
  {| committed := committed s;
     view := store_all items (view s);
     next_oid := n;
     log := log s ++ [{| levelname := DEBUG;
                         msg := "Adding {} Mpointings to database";
                         args := [ArgInt (len items)] |}] |}.

(** Every tile of the table matches at most one tile of the grid. *)
Definition tiles_resolve (db_grid : db.Grid) (d : db.Database) (tiles : list TableRow)
  : Prop :=
  forall tile, In tile tiles ->
    (List.length (grid_tiles_named db_grid d tile) <= 1)%nat.

(** The Survey of the tiled path, and the state once it is added. *)
Definition survey_row (id : oid) (event : Event) (db_event : db.Event)
    (db_grid : db.Grid) : db.Survey :=
  {| db.sv_id := id; db.sv_name := event_name event;
     db.sv_grid := Some (db.grid_id db_grid);
     db.sv_event := Some (db.ev_id db_event) |}.

Definition survey_added (event : Event) (db_event : db.Event) (db_grid : db.Grid)
    (s : State) : State :=
  {| committed := committed s;
     view := with_surveys (view s)
               (db.surveys (view s)
                ++ [survey_row (next_oid s) event db_event db_grid]);
     next_oid := S (next_oid s);
     log := log s ++ [{| levelname := DEBUG; msg := "Adding Survey to database";
                         args := [] |}] |}.

(** The database once the plan for the tiles is committed. *)
Definition plan_committed (items : list MpointingObject) (n : oid)
    (event : Event) (db_event : db.Event) (db_grid : db.Grid) (s : State) : State :=
  {| committed := store_all items (view (survey_added event db_event db_grid s));
     view := store_all items (view (survey_added event db_event db_grid s));
     next_oid := n;
     log := log (plan_stored items n (survey_added event db_event db_grid s)) |}.

(** The state of the tiled path once the final table is there. *)
Definition tiles_listed (event : Event) (db_grid : db.Grid)
    (tile_table : list TableRow) (s : State) : State :=
  {| committed := committed s;
     view := view (event_added event s);
     next_oid := S (next_oid s);
     log := log (event_added event s)
            ++ [{| levelname := INFO; msg := "Applying to Grid {}";
                   args := [ArgStr (db.grid_name db_grid)] |};
                {| levelname := DEBUG; msg := "Masked tile table has {} entries";
                   args := [ArgInt (len tile_table)] |}] |}.

(** ** Strategies that the extractor accepts *)

Definition is_some {A : Type} (o : option A) : bool :=
  match o with
  | Some _ => true
  | None => false
  end.

(** A mapping of an exposure set has its three keys, and its number of
    exposures can be converted to a float. *)
Definition exposure_set_complete (expset_dict : ExposureSetDict) : bool :=
  match esd_num_exp expset_dict with
  | Some n => negb (is_infinity (Z2float n))
  | None => false
  end
  && is_some (esd_exptime expset_dict)
  && is_some (esd_filt expset_dict).


(** The errors of the extractor. *)
Definition is_key_or_overflow (e : Exception) : Prop :=
  match e with
  | KeyError _ | OverflowError _ => True
  | _ => False
  end.

(** ** Ranked tables *)

(** No row of the table has a [prob] that is not a number. *)
Definition probs_are_numbers (table : list TableRow) : Prop :=
  forall r, In r table -> is_nan (prob r) = false.

(** The first row has a [prob] at least as large as that of the second. *)
Definition ranks_before (a b : TableRow) : Prop :=
  (prob b <=? prob a)%float = true.

(** ** What the deduplication pass may change *)

Definition status_only_mp (m m' : db.Mpointing) : Prop :=
  m' = m \/ m' = with_status_mp m "deleted".

Definition status_only_pt (p p' : db.Pointing) : Prop :=
  p' = p \/ p' = with_status_pt p "deleted".

(** The second database is the first one but for rows of the MetaPointings
    and Pointings whose status has become [deleted]. *)
Definition only_deletes (d d' : db.Database) : Prop :=
  db.events d' = db.events d
  /\ db.grids d' = db.grids d
  /\ db.grid_tiles d' = db.grid_tiles d
  /\ db.surveys d' = db.surveys d
  /\ db.survey_tiles d' = db.survey_tiles d
  /\ db.users d' = db.users d
  /\ db.exposure_sets d' = db.exposure_sets d
  /\ Forall2 status_only_mp (db.mpointings d) (db.mpointings d')
  /\ Forall2 status_only_pt (db.pointings d) (db.pointings d').

(** ** What the plan builder may change *)

(** The second table is the first one with rows added at its end. *)
Definition extended {A : Type} (l l' : list A) : Prop := exists added, l' = l ++ added.

(** The second database is the first one with the rows of a plan added:
    the Events, the Grids and the GridTiles are the same, every other table
    has its old rows, in their order, and possibly new ones after them. *)
Definition plan_rows (d d' : db.Database) : Prop :=
  db.events d' = db.events d
  /\ db.grids d' = db.grids d
  /\ db.grid_tiles d' = db.grid_tiles d
  /\ extended (db.surveys d) (db.surveys d')
  /\ extended (db.survey_tiles d) (db.survey_tiles d')
  /\ extended (db.users d) (db.users d')
  /\ extended (db.mpointings d) (db.mpointings d')
  /\ extended (db.exposure_sets d) (db.exposure_sets d')
  /\ extended (db.pointings d) (db.pointings d').

(** The same, the Events being allowed to grow as well. *)
Definition grows (d d' : db.Database) : Prop :=
  db.grids d' = db.grids d
  /\ db.grid_tiles d' = db.grid_tiles d
  /\ extended (db.events d) (db.events d')
  /\ extended (db.surveys d) (db.surveys d')
  /\ extended (db.survey_tiles d) (db.survey_tiles d')
  /\ extended (db.users d) (db.users d')
  /\ extended (db.mpointings d) (db.mpointings d')
  /\ extended (db.exposure_sets d) (db.exposure_sets d')
  /\ extended (db.pointings d) (db.pointings d').

(** When the computation returns, the view of the session is related by
    [R] to what it was. *)
Definition keeps {A : Type} (R : db.Database -> db.Database -> Prop) (c : M A) : Prop :=
  forall s a s', c s = (Return a, s') -> R (view s) (view s').

(** When the computation returns, it has added rows of a plan to the view,
    and either it has committed nothing or a commit has succeeded on a
    session that held the Events of the view. *)
Definition vetted {A : Type} (c : M A) : Prop :=
  forall s a s', c s = (Return a, s') ->
    plan_rows (view s) (view s')
    /\ (committed s' = committed s
        \/ exists s0, committed s0 = committed s
                      /\ db.events (view s0) = db.events (view s)
                      /\ fst (commit s0) = Return tt).

(** No stored Event has the identity that the next object gets. *)
Definition next_oid_is_free (w : World) : Prop :=
  forall e, In e (db.events (database w)) -> db.ev_id e <> oid_supply w.

(** The user that [get_user] makes when none is stored. *)
Definition default_user (id : oid) : db.User :=
  {| db.user_id := id; db.username := DEFAULT_USER;
     db.password := DEFAULT_PW; db.full_name := DEFAULT_NAME |}.

(** One new MetaPointing and its first Pointing. *)
Definition first_pointing_of (m : db.Mpointing) (p : db.Pointing) : Prop :=
  db.pt_mpointing p = Some (db.mp_id m) /\ db.pt_status p = "pending".

(** ** Further sample data *)

(** The sample strategy, with the three keys of the tiles as given. *)
Definition strategy_with (tiled : option bool) (limit : option Z)
    (floor : option float) : Strategy :=
  {| exposure_sets_dict := exposure_sets_dict (sample_strategy true 5 0);
     start_time := start_time (sample_strategy true 5 0);
     stop_time := stop_time (sample_strategy true 5 0);
     rank := rank (sample_strategy true 5 0);
     cadence_dict := cadence_dict (sample_strategy true 5 0);
     constraints_dict := constraints_dict (sample_strategy true 5 0);
     on_grid := tiled;
     tile_limit := limit;
     prob_limit := floor |}.

Definition event_with (tiled : option bool) (limit : option Z)
    (floor : option float) : Event :=
  sample_event "GW_CBC" "ivo://gwnet/LVC#S190425z-1" wide_skymap
    (strategy_with tiled limit floor).

(** The sample database with no grid. *)
Definition gridless_world : World :=
  {| database :=
       {| db.events := []; db.grids := [];
          db.grid_tiles := db.grid_tiles sample_database;
          db.surveys := []; db.survey_tiles := []; db.users := [];
          db.mpointings := []; db.exposure_sets := []; db.pointings := [] |};
     oid_supply := 100; records := [] |}.

(** The sample database with a second tile of the name T0002 on the grid. *)
Definition ambiguous_world : World :=
  {| database :=
       {| db.events := []; db.grids := [sample_grid];
          db.grid_tiles :=
            db.grid_tiles sample_database
            ++ [{| db.gt_id := 5; db.gt_name := "T0002"; db.gt_grid := Some 1 |}];
          db.surveys := []; db.survey_tiles := []; db.users := [];
          db.mpointings := []; db.exposure_sets := []; db.pointings := [] |};
     oid_supply := 100; records := [] |}.

(** ** The place of a binary64 number in the order *)

(** The order of the numbers is that of these triples, read from the
    left: the sign, then the exponent and the mantissa. *)
Definition SFkey (x : spec_float) : Z * (Z * Z) :=
  match x with
  | S754_zero _ => (0, (0, 0))
  | S754_infinity false => (2, (0, 0))
  | S754_infinity true => (-2, (0, 0))
  | S754_nan => (0, (0, 0))
  | S754_finite false m e => (1, (e, Zpos m))
  | S754_finite true m e => (-1, (- e, Zneg m))
  end%Z.

Definition key_lt (a b : Z * (Z * Z)) : Prop :=
  (fst a < fst b
   \/ (fst a = fst b
       /\ (fst (snd a) < fst (snd b)
           \/ (fst (snd a) = fst (snd b) /\ snd (snd a) < snd (snd b)))))%Z.

(** ** The links of the first Pointings *)

(** The Pointing has the links to a GridTile and to a SurveyTile that the
    MetaPointing [m] has. *)
Definition linked_like (m : db.Mpointing) (p : db.Pointing) : Prop :=
  db.pt_grid_tile p = db.mp_grid_tile m
  /\ db.pt_survey_tile p = db.mp_survey_tile m.

(** The locals of the loop over the tiles hold the tiles that the
    MetaPointing [m] is linked to. *)
Definition locals_of (m : db.Mpointing) (locals : Locals) : Prop :=
  exists grid_tile survey_tile,
    locals = {| db_grid_tile := Some grid_tile; db_survey_tile := Some survey_tile |}
    /\ db.mp_grid_tile m = option_map db.gt_id grid_tile
    /\ db.mp_survey_tile m = Some (db.st_id survey_tile).

(** The loop over the MetaPointings has given the second object one
    Pointing more, linked like [m]. *)
Definition gets_pointing (m : db.Mpointing) (o o' : MpointingObject) : Prop :=
  exists p, pointings o' = pointings o ++ [p] /\ linked_like m p.

(** ** The owner of the rows of a plan *)

(** A new MetaPointing of the Event with the identity [id]. *)
Definition owned_mpointing (id : oid) (m : db.Mpointing) : Prop :=
  db.mp_event m = Some id /\ db.mp_status m = "unscheduled".

(** A first Pointing of the Event with the identity [id]. *)
Definition owned_pointing (id : oid) (p : db.Pointing) : Prop :=
  db.pt_event p = Some id /\ db.pt_status p = "pending".

(** The loop over the MetaPointings has given the second object one
    Pointing more, of the Event with the identity [id]. *)
Definition gets_owned_pointing (id : oid) (o o' : MpointingObject) : Prop :=
  exists p, pointings o' = pointings o ++ [p] /\ owned_pointing id p.

(** * Properties *)

(** ** The strategy extractor *)

Lemma obind_Return {A B : Type} (c : Outcome A) (k : A -> Outcome B) (b : B) :
  obind c k = Return b -> exists a, c = Return a /\ k a = Return b.
Proof.
  destruct c as [a|e]; simpl; intros H; [exists a; auto | discriminate].
Qed.

Ltac obind_inv H :=
  let a := fresh "v" in
  let Ha := fresh "E" in
  apply obind_Return in H; destruct H as (a & Ha & H).

Lemma getitem_Return {A : Type} (key : string) (o : option A) (v : A) :
  getitem key o = Return v -> o = Some v.
Proof. destruct o; simpl; congruence. Qed.

Lemma float_of_int_Return (z : Z) (f : float) :
  float_of_int z = Return f -> f = Z2float z.
Proof.
  unfold float_of_int. destruct (is_infinity (Z2float z)); congruence.
Qed.

Lemma visit_time_Return (exp_data : ExpData) (t : float) :
  visit_time exp_data = Return t ->
  t = ((exptime exp_data + 30) * Z2float (num_exp exp_data))%float.
Proof.
  unfold visit_time, float_add_int, float_mul_int. intros H.
  change (float_of_int 30) with (Return 30%float) in H. simpl in H.
  obind_inv H. apply float_of_int_Return in E. congruence.
Qed.

Lemma omap_visit_time (expsets : list ExpData) :
  forall terms, omap visit_time expsets = Return terms ->
  terms = map (fun e => ((exptime e + 30) * Z2float (num_exp e))%float) expsets.
Proof.
  induction expsets as [|e l IH]; simpl; intros terms H.
  - congruence.
  - obind_inv H. obind_inv H. apply visit_time_Return in E.
    rewrite (IH _ E0) in H. congruence.
Qed.

Lemma omap_get_exp_data (dicts : list ExposureSetDict) :
  forall expsets, omap get_exp_data dicts = Return expsets ->
  Forall2 holds_values dicts expsets.
Proof.
  induction dicts as [|d l IH]; simpl; intros expsets H.
  - inversion H. constructor.
  - obind_inv H. obind_inv H. inversion H; subst. constructor; [|now apply IH].
    unfold get_exp_data in E. obind_inv E. obind_inv E. obind_inv E.
    apply getitem_Return in E1, E2, E3. inversion E; subst.
    unfold holds_values; simpl. auto.
Qed.

Lemma sum_from_Float (l : list float) :
  forall a, sum_from (Float a) l = Return (Float (fold_left PrimFloat.add l a)).
Proof.
  induction l as [|x l IH]; simpl; intros a; [reflexivity | apply IH].
Qed.

Lemma py_sum_value (l : list float) :
  py_sum l = Return (match l with
                     | [] => Int 0
                     | _ :: _ => Float (fold_left PrimFloat.add l 0%float)
                     end).
Proof.
  destruct l as [|x l]; [reflexivity|].
  unfold py_sum. simpl. change (float_of_int 0) with (Return 0%float).
  simpl. apply sum_from_Float.
Qed.

Lemma fold_left_map_add (expsets : list ExpData) :
  forall a,
    fold_left PrimFloat.add
      (map (fun e => ((exptime e + 30) * Z2float (num_exp e))%float) expsets) a
    = fold_left
        (fun acc e => (acc + (exptime e + 30) * Z2float (num_exp e))%float)
        expsets a.
Proof.
  induction expsets as [|e l IH]; simpl; intros a; [reflexivity | apply IH].
Qed.

Lemma get_mpointing_info_min_time (event : Event) (mp_data : MpData)
    (expsets : list ExpData) :
  get_mpointing_info event = Return (mp_data, expsets) ->
  (exists dicts,
      exposure_sets_dict (event_strategy event) = Some dicts
      /\ Forall2 holds_values dicts expsets)
  /\ min_time mp_data =
     match expsets with
     | [] => Int 0
     | _ :: _ => Float (readout_sum expsets)
     end.
Proof.
  unfold get_mpointing_info. intros H.
  obind_inv H. apply getitem_Return in E.
  obind_inv H. apply omap_get_exp_data in E0.
  obind_inv H. apply omap_visit_time in E1.
  obind_inv H. rewrite py_sum_value in E2.
  repeat obind_inv H.
  inversion H; subst; clear H. simpl.
  split; [exists v; auto|].
  inversion E2; subst; clear E2.
  destruct expsets as [|e l]; [reflexivity|].
  cbn [map]. unfold readout_sum. now rewrite <- fold_left_map_add.
Qed.

(** C10.  The extractor computes [min_time] as the sum over the exposure
    sets of [(exptime + 30) * num_exp]: whenever it returns, the exposure
    sets it returns hold the values of the mappings of the strategy, and
    [min_time] is that sum over them.  In particular the exposure sets
    (num_exp=2, exptime=60) and (num_exp=1, exptime=10) give 220. *)
Theorem min_time_readout_sum :
  (forall event mp_data expsets,
      get_mpointing_info event = Return (mp_data, expsets) ->
      (exists dicts,
          exposure_sets_dict (event_strategy event) = Some dicts
          /\ Forall2 holds_values dicts expsets)
      /\ min_time mp_data =
         match expsets with
         | [] => Int 0
         | _ :: _ => Float (readout_sum expsets)
         end)
  /\ (forall event mp_data expsets filt1 filt2,
         exposure_sets_dict (event_strategy event)
         = Some [ {| esd_num_exp := Some 2%Z; esd_exptime := Some 60%float;
                     esd_filt := Some filt1 |};
                  {| esd_num_exp := Some 1%Z; esd_exptime := Some 10%float;
                     esd_filt := Some filt2 |} ] ->
         get_mpointing_info event = Return (mp_data, expsets) ->
         min_time mp_data = Float 220%float).
Proof.
  split; [exact get_mpointing_info_min_time|].
  intros event mp_data expsets filt1 filt2 Hd H.
  destruct (get_mpointing_info_min_time _ _ _ H) as [_ Hm].
  unfold get_mpointing_info in H. rewrite Hd in H. simpl in H.
  repeat obind_inv H. inversion H; subst; clear H.
  inversion E; subst; clear E. exact Hm.
Qed.

(** ** The tile resolver *)

Lemma getitem_mask_map {A B : Type} (f : A -> B) (p : A -> bool) (l : list A) :
  getitem_mask (map f l) (map p l) = map f (filter p l).
Proof.
  unfold getitem_mask. induction l as [|x l IH]; simpl; [reflexivity|].
  destruct (p x); simpl; now rewrite IH.
Qed.

Lemma getitem_mask_filter {A : Type} (p : A -> bool) (l : list A) :
  getitem_mask l (map p l) = filter p l.
Proof.
  rewrite <- (map_id l) at 1. rewrite getitem_mask_map. apply map_id.
Qed.

Lemma sum_mask_lt_1 {A : Type} (p : A -> bool) (l : list A) :
  (sum_mask (map p l) <? 1)%Z = negb (existsb p l).
Proof.
  unfold sum_mask, len. induction l as [|x l IH]; simpl; [reflexivity|].
  destruct (p x); simpl.
  - apply Z.ltb_ge. lia.
  - exact IH.
Qed.

Lemma get_grid_tiles_masked (np_mean : list float -> float) (event : Event)
    (db_grid : db.Grid) :
  fst (get_grid_tiles np_mean event db_grid)
  = sort_reverse
      (if existsb (mean_below_level np_mean) (skymap_tiles (loaded_skymap event))
       then map tile_row
              (filter (mean_below_level np_mean) (skymap_tiles (loaded_skymap event)))
       else filter prob_above_level
              (map tile_row (skymap_tiles (loaded_skymap event)))).
Proof.
  unfold get_grid_tiles. fold (loaded_skymap event). cbn [fst].
  fold (mean_below_level np_mean). fold prob_above_level.
  rewrite sum_mask_lt_1.
  destruct (existsb (mean_below_level np_mean) (skymap_tiles (loaded_skymap event)));
    cbn [negb].
  - now rewrite getitem_mask_map.
  - now rewrite getitem_mask_filter.
Qed.

Lemma existsb_false_iff {A : Type} (p : A -> bool) (l : list A) :
  existsb p l = false <-> forall x, In x l -> p x = false.
Proof.
  split.
  - intros H x Hx. destruct (p x) eqn:E; [|reflexivity].
    rewrite <- H. symmetry. apply existsb_exists. eauto.
  - intros H. apply not_true_is_false. intros E. apply existsb_exists in E.
    destruct E as (x & Hx & Hp). rewrite (H x Hx) in Hp. discriminate.
Qed.

(** C8.  The table that the resolver returns is, sorted by descending
    [prob], the rows of the tiles whose mean contour value is below 0.9
    or, when no tile passes that test, the rows whose [prob] exceeds 0.9.
    So for a skymap where no tile has a mean contour below 0.9 and exactly
    one row has a [prob] above 0.9, it returns exactly that row. *)
Theorem containment_mask_fallback (np_mean : list float -> float) (event : Event)
    (db_grid : db.Grid) :
  let tiles := skymap_tiles (loaded_skymap event) in
  fst (get_grid_tiles np_mean event db_grid)
  = sort_reverse
      (if existsb (mean_below_level np_mean) tiles
       then map tile_row (filter (mean_below_level np_mean) tiles)
       else filter prob_above_level (map tile_row tiles))
  /\ (forall r,
         (forall tile, In tile tiles -> mean_below_level np_mean tile = false) ->
         filter prob_above_level (map tile_row tiles) = [r] ->
         fst (get_grid_tiles np_mean event db_grid) = [r]).
Proof.
  intros tiles. split; [apply get_grid_tiles_masked|].
  intros r Hmean Hprob. rewrite get_grid_tiles_masked. fold tiles.
  apply existsb_false_iff in Hmean. rewrite Hmean, Hprob. reflexivity.
Qed.

(** ** Sessions *)

Lemma for_each_pure {A : Type} (body : A -> M unit) (f : A -> State -> State) :
  (forall x s, body x s = (Return tt, f x s)) ->
  forall l s, for_each l body s = (Return tt, fold_left (fun s x => f x s) l s).
Proof.
  intros Hb l. induction l as [|x l IH]; intros s; simpl.
  - reflexivity.
  - unfold bind. rewrite Hb. apply IH.
Qed.

Lemma fold_left_on_view {A : Type} (g : A -> db.Database -> db.Database) (l : list A) :
  forall s,
    fold_left (fun s x => on_view (g x) s) l s
    = on_view (fun d => fold_left (fun d x => g x d) l d) s.
Proof.
  induction l as [|x l IH]; intros s; simpl.
  - destruct s; reflexivity.
  - rewrite IH. reflexivity.
Qed.

Lemma filter_known_ids (l l' : list db.Event) :
  incl l' l ->
  filter (fun e => negb (existsb (fun e0 => Nat.eqb (db.ev_id e0) (db.ev_id e)) l)) l'
  = [].
Proof.
  induction l' as [|e l' IH]; intros Hin; simpl; [reflexivity|].
  assert (E : existsb (fun e0 => Nat.eqb (db.ev_id e0) (db.ev_id e)) l = true).
  { apply existsb_exists. exists e. split; [apply Hin; now left | apply Nat.eqb_refl]. }
  rewrite E. simpl. apply IH. intros x Hx. apply Hin. now right.
Qed.

Lemma inserted_events_nil (s : State) :
  db.events (view s) = db.events (committed s) -> inserted_events s = [].
Proof.
  intros H. unfold inserted_events. rewrite H.
  apply filter_known_ids, incl_refl.
Qed.

Lemma commit_no_insert (s : State) :
  db.events (view s) = db.events (committed s) ->
  commit s = (Return tt, {| committed := view s; view := view s;
                            next_oid := next_oid s; log := log s |}).
Proof.
  intros H. unfold commit. now rewrite (inserted_events_nil s H).
Qed.

(** ** The deduplication pass *)

Lemma with_mpointings_same (d : db.Database) : with_mpointings d (db.mpointings d) = d.
Proof. destruct d; reflexivity. Qed.

Lemma with_pointings_same (d : db.Database) : with_pointings d (db.pointings d) = d.
Proof. destruct d; reflexivity. Qed.

Lemma fold_set_mpointing_status (l : list db.Mpointing) :
  forall d,
    fold_left
      (fun d x =>
         with_mpointings d
           (map (fun m => if Nat.eqb (db.mp_id m) (db.mp_id x)
                          then with_status_mp m "deleted" else m)
                (db.mpointings d)))
      l d
    = mark_mpointings l d.
Proof.
  unfold mark_mpointings.
  induction l as [|x l IH]; intros d; simpl.
  - rewrite map_id. symmetry. apply with_mpointings_same.
  - rewrite IH. destruct d; simpl. unfold with_mpointings; simpl. f_equal.
    rewrite map_map. apply map_ext. intros m.
    destruct (Nat.eqb (db.mp_id m) (db.mp_id x)) eqn:E; simpl.
    + now destruct (existsb _ l).
    + reflexivity.
Qed.

Lemma fold_set_pointing_status (l : list db.Pointing) :
  forall d,
    fold_left
      (fun d x =>
         with_pointings d
           (map (fun p => if Nat.eqb (db.pt_id p) (db.pt_id x)
                          then with_status_pt p "deleted" else p)
                (db.pointings d)))
      l d
    = mark_pointings l d.
Proof.
  unfold mark_pointings.
  induction l as [|x l IH]; intros d; simpl.
  - rewrite map_id. symmetry. apply with_pointings_same.
  - rewrite IH. destruct d; simpl. unfold with_pointings; simpl. f_equal.
    rewrite map_map. apply map_ext. intros p.
    destruct (Nat.eqb (db.pt_id p) (db.pt_id x)) eqn:E; simpl.
    + now destruct (existsb _ l).
    + reflexivity.
Qed.

Lemma delete_mpointings_run (l : list db.Mpointing) (s : State) :
  for_each l (fun db_mpointing => set_mpointing_status db_mpointing "deleted") s
  = (Return tt, on_view (mark_mpointings l) s).
Proof.
  rewrite (for_each_pure _
             (fun x => on_view (fun d =>
                with_mpointings d
                  (map (fun m => if Nat.eqb (db.mp_id m) (db.mp_id x)
                                 then with_status_mp m "deleted" else m)
                       (db.mpointings d))))) by reflexivity.
  rewrite (fold_left_on_view
             (fun x d => with_mpointings d
                (map (fun m => if Nat.eqb (db.mp_id m) (db.mp_id x)
                               then with_status_mp m "deleted" else m)
                     (db.mpointings d)))).
  unfold on_view. now rewrite fold_set_mpointing_status.
Qed.

Lemma delete_pointings_run (l : list db.Pointing) (s : State) :
  for_each l (fun db_pointing => set_pointing_status db_pointing "deleted") s
  = (Return tt, on_view (mark_pointings l) s).
Proof.
  rewrite (for_each_pure _
             (fun x => on_view (fun d =>
                with_pointings d
                  (map (fun p => if Nat.eqb (db.pt_id p) (db.pt_id x)
                                 then with_status_pt p "deleted" else p)
                       (db.pointings d))))) by reflexivity.
  rewrite (fold_left_on_view
             (fun x d => with_pointings d
                (map (fun p => if Nat.eqb (db.pt_id p) (db.pt_id x)
                               then with_status_pt p "deleted" else p)
                     (db.pointings d)))).
  unfold on_view. now rewrite fold_set_pointing_status.
Qed.

Lemma deleted_for_events (db_event : db.Event) (d : db.Database) :
  db.events (deleted_for db_event d) = db.events d.
Proof. reflexivity. Qed.

Lemma delete_previous_run (db_event : db.Event) (s : State) :
  db.events (view s) = db.events (committed s) ->
  exists lg,
    delete_previous db_event s
    = (Return tt, {| committed := deleted_for db_event (view s);
                     view := deleted_for db_event (view s);
                     next_oid := next_oid s; log := log s ++ lg |}).
Proof.
  intros Hev. unfold delete_previous.
  unfold bind at 1. unfold query_all at 1. unfold bind at 1. simpl.
  unfold bind at 1. rewrite delete_mpointings_run.
  unfold bind at 1. unfold query_all at 1. unfold bind at 1. simpl.
  unfold bind at 1. rewrite delete_pointings_run.
  unfold bind at 1. rewrite commit_no_insert by (simpl; exact Hev).
  fold (queued_mpointing db_event) (pending_pointing db_event). simpl.
  fold (deleted_for db_event (view s)).
  match goal with |- context [if ?c then _ else _] => destruct c end.
  - eexists. unfold emit. simpl. reflexivity.
  - exists []. unfold ret. now rewrite app_nil_r.
Qed.

Lemma delete_all_previous_run (l : list db.Event) :
  forall s,
    view s = committed s ->
    exists lg,
      for_each l delete_previous s
      = (Return tt,
         {| committed := fold_left (fun d e => deleted_for e d) l (view s);
            view := fold_left (fun d e => deleted_for e d) l (view s);
            next_oid := next_oid s; log := log s ++ lg |}).
Proof.
  induction l as [|e l IH]; intros s Hs; simpl.
  - exists []. unfold ret. destruct s; simpl in *. subst. now rewrite app_nil_r.
  - unfold bind.
    destruct (delete_previous_run e s) as [lg1 ->]; [now rewrite Hs|].
    destruct (IH {| committed := deleted_for e (view s);
                    view := deleted_for e (view s);
                    next_oid := next_oid s; log := log s ++ lg1 |} eq_refl)
      as [lg2 ->].
    simpl. exists (lg1 ++ lg2). now rewrite app_assoc.
Qed.

(** The three ways through [remove_previous_events]. *)

Lemma remove_previous_events_new (event : Event) (w : World) :
  filter (is_previous event) (db.events (database w)) = [] ->
  exists lg,
    remove_previous_events event w
    = (Return tt, {| database := database w; oid_supply := oid_supply w;
                     records := records w ++ lg |}).
Proof.
  intros H. unfold remove_previous_events, open_session, try_except.
  unfold bind at 1. unfold remove_previous_events_block.
  unfold bind at 1. unfold query_all, bind at 1. simpl.
  fold (is_previous event). rewrite H. unfold emit. simpl.
  rewrite commit_no_insert by reflexivity. simpl.
  eexists. reflexivity.
Qed.

Lemma remove_previous_events_duplicate (event : Event) (w : World) :
  existsb (fun e => String.eqb (db.ev_ivorn e) (event_ivorn event))
          (filter (is_previous event) (db.events (database w))) = true ->
  remove_previous_events event w = (Raise (duplicate_ivorn (event_ivorn event)), w).
Proof.
  intros H. unfold remove_previous_events, open_session, try_except.
  unfold bind at 1. unfold remove_previous_events_block.
  unfold bind at 1. unfold query_all, bind at 1. simpl.
  fold (is_previous event).
  destruct (filter (is_previous event) (db.events (database w))) as [|e l] eqn:E;
    [discriminate|].
  rewrite H. unfold raise. simpl. destruct w; reflexivity.
Qed.

Lemma remove_previous_events_update (event : Event) (w : World) :
  filter (is_previous event) (db.events (database w)) <> [] ->
  existsb (fun e => String.eqb (db.ev_ivorn e) (event_ivorn event))
          (filter (is_previous event) (db.events (database w))) = false ->
  exists lg,
    remove_previous_events event w
    = (Return tt,
       {| database :=
            fold_left (fun d e => deleted_for e d)
              (filter (is_previous event) (db.events (database w))) (database w);
          oid_supply := oid_supply w; records := records w ++ lg |}).
Proof.
  intros Hne H. unfold remove_previous_events, open_session, try_except.
  unfold bind at 1. unfold remove_previous_events_block.
  unfold bind at 1. unfold query_all, bind at 1. simpl.
  fold (is_previous event).
  destruct (filter (is_previous event) (db.events (database w))) as [|e l] eqn:E;
    [congruence|].
  rewrite H. unfold bind at 1. unfold emit at 1.
  match goal with
  | |- context [for_each ?l delete_previous ?s] =>
      destruct (delete_all_previous_run l s eq_refl) as [lg ->]
  end.
  cbn [view next_oid log committed].
  rewrite commit_no_insert by reflexivity. cbn [view next_oid log committed leave].
  eexists. rewrite <- app_assoc. reflexivity.
Qed.

Lemma existsb_same_ivorn (event : Event) (l : list db.Event) :
  existsb (fun e => String.eqb (db.ev_ivorn e) (event_ivorn event))
          (filter (is_previous event) l) = true
  <-> exists e, In e l
                /\ db.ev_name e = event_name event
                /\ db.ev_source e = event_source event
                /\ db.ev_ivorn e = event_ivorn event.
Proof.
  rewrite existsb_exists. split.
  - intros (e & Hin & Hiv). apply filter_In in Hin. destruct Hin as [Hin Hp].
    unfold is_previous in Hp. apply andb_true_iff in Hp. destruct Hp as [Hn Hs].
    apply String.eqb_eq in Hn, Hs, Hiv. exists e. auto.
  - intros (e & Hin & Hn & Hs & Hiv). exists e. split.
    + apply filter_In. split; [assumption|]. unfold is_previous.
      rewrite Hn, Hs, !String.eqb_refl. reflexivity.
    + rewrite Hiv. apply String.eqb_refl.
Qed.

(** C3.  [remove_previous_events] raises the duplicate-identifier error
    exactly when a stored Event with the name and source of the incoming
    event also carries its ivorn; it raises no other error; and when it
    raises, the database, the log and everything else are as they were. *)
Theorem duplicate_ivorn_raised (event : Event) (w : World) :
  (fst (remove_previous_events event w) = Raise (duplicate_ivorn (event_ivorn event))
   <-> exists e, In e (db.events (database w))
                 /\ db.ev_name e = event_name event
                 /\ db.ev_source e = event_source event
                 /\ db.ev_ivorn e = event_ivorn event)
  /\ (forall x, fst (remove_previous_events event w) = Raise x ->
                x = duplicate_ivorn (event_ivorn event)
                /\ snd (remove_previous_events event w) = w).
Proof.
  rewrite <- existsb_same_ivorn.
  destruct (existsb (fun e => String.eqb (db.ev_ivorn e) (event_ivorn event))
              (filter (is_previous event) (db.events (database w)))) eqn:Hdup.
  - rewrite (remove_previous_events_duplicate event w Hdup). simpl.
    split; [tauto|]. intros x Hx. split; congruence.
  - assert (G : exists w', remove_previous_events event w = (Return tt, w')).
    { destruct (filter (is_previous event) (db.events (database w))) as [|e l] eqn:E.
      - destruct (remove_previous_events_new event w E) as [lg ->]. eauto.
      - destruct (remove_previous_events_update event w) as [lg ->];
          [rewrite E; discriminate | now rewrite E | eauto]. }
    destruct G as [w' ->]. simpl. split; [split; discriminate|]. discriminate.
Qed.

(** Rows with distinct primary keys *)

Lemma NoDup_key_inj {A : Type} (key : A -> oid) (l : list A) :
  NoDup (map key l) ->
  forall x y, In x l -> In y l -> key x = key y -> x = y.
Proof.
  induction l as [|a l IH]; simpl; intros Hnd x y Hx Hy Hk; [contradiction|].
  inversion Hnd as [|? ? Hnotin Hnd']; subst.
  destruct Hx as [->|Hx], Hy as [->|Hy].
  - reflexivity.
  - exfalso. apply Hnotin. rewrite Hk. now apply in_map.
  - exfalso. apply Hnotin. rewrite <- Hk. now apply in_map.
  - now apply IH.
Qed.

Lemma existsb_key_filter {A : Type} (key : A -> oid) (p : A -> bool) (l : list A) :
  NoDup (map key l) ->
  forall x, In x l ->
    existsb (fun y => Nat.eqb (key x) (key y)) (filter p l) = p x.
Proof.
  intros Hnd x Hx. destruct (p x) eqn:Hp.
  - apply existsb_exists. exists x. split; [|apply Nat.eqb_refl].
    apply filter_In. auto.
  - apply not_true_is_false. intros H. apply existsb_exists in H.
    destruct H as (y & Hy & Hk). apply filter_In in Hy. destruct Hy as [Hy Hpy].
    apply Nat.eqb_eq in Hk.
    rewrite (NoDup_key_inj key l Hnd x y Hx Hy Hk) in Hp. congruence.
Qed.

Lemma deleted_for_rows (db_event : db.Event) (d : db.Database) :
  NoDup (map db.mp_id (db.mpointings d)) ->
  NoDup (map db.pt_id (db.pointings d)) ->
  deleted_for db_event d = soft_delete_for db_event d.
Proof.
  intros Hm Hp. unfold deleted_for, soft_delete_for, mark_pointings, mark_mpointings.
  destruct d; simpl in *. unfold with_pointings, with_mpointings; simpl. f_equal.
  - apply map_ext_in. intros m Hin.
    now rewrite (existsb_key_filter db.mp_id _ _ Hm m Hin).
  - apply map_ext_in. intros p Hin.
    now rewrite (existsb_key_filter db.pt_id _ _ Hp p Hin).
Qed.

Lemma soft_delete_for_keys (db_event : db.Event) (d : db.Database) :
  map db.mp_id (db.mpointings (soft_delete_for db_event d)) = map db.mp_id (db.mpointings d)
  /\ map db.pt_id (db.pointings (soft_delete_for db_event d)) = map db.pt_id (db.pointings d).
Proof.
  destruct d; simpl. rewrite !map_map. split; apply map_ext; intros x.
  - now destruct (queued_mpointing db_event x).
  - now destruct (pending_pointing db_event x).
Qed.

Lemma soft_delete_mpointing_cons (e : db.Event) (l : list db.Event) (m : db.Mpointing) :
  soft_delete_mpointing l
    (if queued_mpointing e m then with_status_mp m "deleted" else m)
  = soft_delete_mpointing (e :: l) m.
Proof.
  unfold soft_delete_mpointing, queued_mpointing, belongs_to. cbn [existsb].
  destruct (refers_to (db.mp_event m) (db.ev_id e)) eqn:Hr;
    destruct (in_ (db.mp_status m) ["scheduled"; "unscheduled"]) eqn:Hs;
    cbn [andb orb]; rewrite ?Hs, ?andb_false_r; try reflexivity.
Qed.

Lemma soft_delete_pointing_cons (e : db.Event) (l : list db.Event) (p : db.Pointing) :
  soft_delete_pointing l
    (if pending_pointing e p then with_status_pt p "deleted" else p)
  = soft_delete_pointing (e :: l) p.
Proof.
  unfold soft_delete_pointing, pending_pointing, belongs_to. cbn [existsb].
  destruct (refers_to (db.pt_event p) (db.ev_id e)) eqn:Hr;
    destruct (String.eqb (db.pt_status p) "pending") eqn:Hs;
    cbn [andb orb]; rewrite ?Hs, ?andb_false_r; try reflexivity.
Qed.

Lemma soft_delete_nil (d : db.Database) : soft_delete [] d = d.
Proof.
  destruct d. unfold soft_delete, with_pointings, with_mpointings; simpl.
  now rewrite !map_id.
Qed.

Lemma soft_delete_cons (e : db.Event) (l : list db.Event) (d : db.Database) :
  soft_delete l (soft_delete_for e d) = soft_delete (e :: l) d.
Proof.
  destruct d. unfold soft_delete, soft_delete_for, with_pointings, with_mpointings; simpl.
  rewrite !map_map. f_equal; apply map_ext; intros x.
  - apply soft_delete_mpointing_cons.
  - apply soft_delete_pointing_cons.
Qed.

Lemma fold_deleted_for (l : list db.Event) :
  forall d,
    NoDup (map db.mp_id (db.mpointings d)) ->
    NoDup (map db.pt_id (db.pointings d)) ->
    fold_left (fun d e => deleted_for e d) l d = soft_delete l d.
Proof.
  induction l as [|e l IH]; intros d Hm Hp; simpl.
  - symmetry. apply soft_delete_nil.
  - rewrite (deleted_for_rows e d Hm Hp).
    destruct (soft_delete_for_keys e d) as [Km Kp].
    rewrite IH by (rewrite ?Km, ?Kp; assumption).
    apply soft_delete_cons.
Qed.

(** C6.  When earlier notices of the event are stored and none carries
    its ivorn, [remove_previous_events] returns, and the database it leaves
    is the one it found with, for every such earlier Event, each of its
    MetaPointings that was [scheduled] or [unscheduled] now [deleted], each
    of its Pointings that was [pending] now [deleted], and every other row
    (a Pointing that is running, completed, aborted, interrupted or
    expired among them) as it was.  The rows of both tables are the same
    rows in the same order: none is removed. *)
Theorem previous_events_soft_deleted (event : Event) (w : World) :
  let d := database w in
  let previous := filter (is_previous event) (db.events d) in
  previous <> [] ->
  (forall e, In e previous -> db.ev_ivorn e <> event_ivorn event) ->
  NoDup (map db.mp_id (db.mpointings d)) ->
  NoDup (map db.pt_id (db.pointings d)) ->
  (exists lg,
      remove_previous_events event w
      = (Return tt, {| database := soft_delete previous d;
                       oid_supply := oid_supply w;
                       records := records w ++ lg |}))
  /\ map db.mp_id (db.mpointings (soft_delete previous d)) = map db.mp_id (db.mpointings d)
  /\ map db.pt_id (db.pointings (soft_delete previous d)) = map db.pt_id (db.pointings d).
Proof.
  intros d previous Hne Hiv Hm Hp. split.
  - destruct (remove_previous_events_update event w Hne) as [lg ->].
    + apply not_true_is_false. intros H. apply existsb_exists in H.
      destruct H as (e & Hin & He). apply String.eqb_eq in He.
      exact (Hiv e Hin He).
    + exists lg. fold d previous. now rewrite (fold_deleted_for previous d Hm Hp).
  - destruct d as [? ? ? ? ? ? ms ? ps]; simpl. rewrite !map_map.
    split; apply map_ext; intros x.
    + unfold soft_delete_mpointing. now destruct (_ && _).
    + unfold soft_delete_pointing. now destruct (_ && _).
Qed.

(** ** What a computation leaves alone

    [preserves f c]: whatever [c] does and however it ends, the component
    [f] of the state is afterwards what it was. *)

Section Preserves.

Context {X : Type} (f : State -> X).

Lemma preserves_bind {A B : Type} (c : M A) (k : A -> M B) :
  preserves f c -> (forall a, preserves f (k a)) -> preserves f (bind c k).
Proof.
  intros Hc Hk s. unfold bind. specialize (Hc s).
  destruct (c s) as [[a|e] s']; simpl in *.
  - rewrite Hk. exact Hc.
  - exact Hc.
Qed.

Lemma preserves_try_except {A : Type} (c : M A) (h : Exception -> M A) :
  preserves f c -> (forall e, preserves f (h e)) -> preserves f (try_except c h).
Proof.
  intros Hc Hh s. unfold try_except. specialize (Hc s).
  destruct (c s) as [[a|e] s']; simpl in *.
  - exact Hc.
  - rewrite Hh. exact Hc.
Qed.

Lemma preserves_ret {A : Type} (a : A) : preserves f (ret a).
Proof. intros s. reflexivity. Qed.

Lemma preserves_raise {A : Type} (e : Exception) : preserves f (@raise A e).
Proof. intros s. reflexivity. Qed.

Lemma preserves_lift {A : Type} (o : Outcome A) : preserves f (lift o).
Proof. intros s. reflexivity. Qed.

Lemma preserves_get_view : preserves f get_view.
Proof. intros s. reflexivity. Qed.

Lemma preserves_for_each {A : Type} (l : list A) (body : A -> M unit) :
  (forall x, preserves f (body x)) -> preserves f (for_each l body).
Proof.
  intros Hb. induction l as [|x l IH]; simpl.
  - apply preserves_ret.
  - apply preserves_bind; auto.
Qed.

Lemma preserves_for_fold {A L : Type} (l : list A) (body : L -> A -> M L) :
  (forall locals x, preserves f (body locals x)) ->
  forall locals, preserves f (for_fold l body locals).
Proof.
  intros Hb. induction l as [|x l IH]; simpl; intros locals.
  - apply preserves_ret.
  - apply preserves_bind; auto.
Qed.

Lemma preserves_for_update {A : Type} (l : list A) (body : A -> M A) :
  (forall x, preserves f (body x)) -> preserves f (for_update l body).
Proof.
  intros Hb. induction l as [|x l IH]; simpl.
  - apply preserves_ret.
  - apply preserves_bind; [auto|]. intros y.
    apply preserves_bind; [auto|]. intros ys. apply preserves_ret.
Qed.

Lemma preserves_read_local {A : Type} (var : string) (v : option A) :
  preserves f (read_local var v).
Proof. destruct v; intros s; reflexivity. Qed.

Lemma preserves_one_or_none {A : Type} (l : list A) : preserves f (one_or_none l).
Proof. destruct l as [|x [|y l]]; intros s; reflexivity. Qed.

Lemma preserves_query_all {A : Type} (table : db.Database -> list A) (p : A -> bool) :
  preserves f (query_all table p).
Proof. intros s. reflexivity. Qed.

End Preserves.

(** The structure of a computation, taken apart as far as it goes; what is
    left are the steps that write the component. *)
Ltac preserve_step :=
  first
    [ apply preserves_ret
    | apply preserves_raise
    | apply preserves_lift
    | apply preserves_get_view
    | apply preserves_query_all
    | apply preserves_one_or_none
    | apply preserves_read_local
    | apply preserves_bind; [|intro]
    | apply preserves_try_except; [|intro]
    | apply preserves_for_each; intro
    | apply preserves_for_fold; intros ? ?
    | apply preserves_for_update; intro
    | match goal with
      | |- preserves _ (match ?x with _ => _ end) => destruct x
      end
    | solve [intro; reflexivity] ].

Ltac preserve := repeat preserve_step.

Lemma new_oid_keeps_database :
  preserves committed new_oid /\ preserves view new_oid.
Proof. split; intro; reflexivity. Qed.

Lemma get_user_reads : preserves committed get_user /\ preserves view get_user.
Proof. split; unfold get_user, db_get_user; preserve. Qed.

Lemma get_grid_reads : preserves committed get_grid /\ preserves view get_grid.
Proof. split; unfold get_grid; preserve. Qed.

Lemma new_mpointing_reads (object_name : string) (ra dec : option float) (mp_data : MpData) :
  preserves committed (new_mpointing object_name ra dec mp_data)
  /\ preserves view (new_mpointing object_name ra dec mp_data).
Proof. split; unfold new_mpointing; preserve. Qed.

Lemma create_exposure_sets_reads (expsets : list ExpData) (o : MpointingObject) :
  preserves committed (create_exposure_sets expsets o)
  /\ preserves view (create_exposure_sets expsets o).
Proof. split; unfold create_exposure_sets; preserve. Qed.

Lemma create_children_reads (expsets : list ExpData) (db_event : db.Event)
    (locals : Locals) (o : MpointingObject) :
  preserves committed (create_children expsets db_event locals o)
  /\ preserves view (create_children expsets db_event locals o).
Proof.
  split; unfold create_children, create_exposure_sets, get_next_pointing; preserve.
Qed.

Lemma create_single_mpointing_reads (event : Event) (mp_data : MpData)
    (expsets : list ExpData) (db_event : db.Event) (db_user : db.User) :
  preserves committed (create_single_mpointing event mp_data expsets db_event db_user)
  /\ preserves view (create_single_mpointing event mp_data expsets db_event db_user).
Proof.
  split; unfold create_single_mpointing, new_mpointing, create_exposure_sets; preserve.
Qed.

Lemma create_tile_mpointing_reads (event : Event) (mp_data : MpData)
    (db_event : db.Event) (db_grid : db.Grid) (db_survey : db.Survey)
    (db_user : db.User) (state : list MpointingObject * Locals) (tile : TableRow) :
  preserves committed
    (create_tile_mpointing event mp_data db_event db_grid db_survey db_user state tile)
  /\ preserves view
    (create_tile_mpointing event mp_data db_event db_grid db_survey db_user state tile).
Proof. split; unfold create_tile_mpointing, new_mpointing; preserve. Qed.

Lemma insert_items_keeps_committed (items : list MpointingObject) :
  preserves committed (insert_items items).
Proof. unfold insert_items; preserve. Qed.

Lemma prepare_plan_keeps_committed (event : Event) (mp_data : MpData)
    (expsets : list ExpData) (db_event : db.Event)
    (tiled : option (db.Grid * db.Survey * list TableRow)) :
  preserves committed (prepare_plan event mp_data expsets db_event tiled).
Proof.
  unfold prepare_plan.
  apply preserves_bind; [apply get_user_reads|]. intros db_user.
  apply preserves_bind.
  - destruct tiled as [[[g sv] tt]|].
    + apply preserves_for_fold. intros. apply create_tile_mpointing_reads.
    + apply preserves_bind; [apply create_single_mpointing_reads|].
      intros. apply preserves_ret.
  - intros [ms loc]. apply preserves_bind.
    + apply preserves_for_update. intros. apply create_children_reads.
    + intros. apply preserves_bind; [intro; reflexivity|].
      intros. apply insert_items_keeps_committed.
Qed.

(** ** Failure and rollback *)

Lemma settled_preserves (c : M unit) :
  preserves committed c -> forall s, settled s (c s).
Proof. intros H s. left. apply H. Qed.

Lemma settled_bind {A : Type} (c : M A) (k : A -> M unit) :
  preserves committed c ->
  (forall a s, settled s (k a s)) ->
  forall s, settled s (bind c k s).
Proof.
  intros Hc Hk s. unfold bind. specialize (Hc s).
  destruct (c s) as [[a|e] s']; simpl in Hc.
  - destruct (Hk a s') as [H|H]; [left; congruence | right; exact H].
  - left. exact Hc.
Qed.

Lemma raising_handler (c : M unit) (s : State) :
  fst (try_except c (fun e => rollback ;; raise e) s) = fst (c s).
Proof.
  unfold try_except. destruct (c s) as [[a|e] s']; reflexivity.
Qed.

Lemma commit_outcome (s : State) :
  commit s = (Return tt, {| committed := view s; view := view s;
                            next_oid := next_oid s; log := log s |})
  \/ exists e, commit s = (Raise e, s).
Proof.
  unfold commit. destruct (forallb _ _); [left | right; eexists]; reflexivity.
Qed.

Lemma commit_changes_failure (s : State) (e : Exception) :
  fst (commit s) = Raise e ->
  commit_changes s
  = (Raise e, {| committed := committed s; view := committed s;
                 next_oid := next_oid s; log := log s |}).
Proof.
  unfold commit_changes, try_except. intros H.
  destruct (commit_outcome s) as [E|[e' E]]; rewrite E in *; simpl in H.
  - discriminate.
  - inversion H; subst. reflexivity.
Qed.

Lemma commit_changes_settled (s : State) : settled s (commit_changes s).
Proof.
  destruct (commit_outcome s) as [E|[e E]].
  - right. unfold commit_changes, try_except. rewrite E. simpl. auto.
  - left. rewrite (commit_changes_failure s e) by now rewrite E. reflexivity.
Qed.

Lemma build_plan_settled (event : Event) (mp_data : MpData) (expsets : list ExpData)
    (db_event : db.Event) (tiled : option (db.Grid * db.Survey * list TableRow)) :
  forall s, settled s (build_plan event mp_data expsets db_event tiled s).
Proof.
  unfold build_plan. apply settled_bind.
  - apply prepare_plan_keeps_committed.
  - intros _. apply commit_changes_settled.
Qed.

Lemma add_to_database_block_settled (np_mean : list float -> float) (event : Event) :
  forall s, settled s (add_to_database_block np_mean event s).
Proof.
  unfold add_to_database_block.
  apply settled_bind; [apply preserves_lift|]. intros [mp_data expsets].
  apply settled_bind; [apply new_oid_keeps_database|]. intros id.
  apply settled_bind; [intro; reflexivity|]. intros _.
  apply settled_bind; [intro; reflexivity|]. intros _.
  destruct (String.eqb (event_type event) "GW_RETRACTION").
  { apply settled_preserves, preserves_ret. }
  apply settled_bind; [apply preserves_lift|]. intros tiled.
  destruct tiled; [|apply build_plan_settled].
  apply settled_bind; [apply get_grid_reads|]. intros db_grid.
  apply settled_bind; [intro; reflexivity|]. intros _.
  destruct (get_grid_tiles np_mean event db_grid) as [masked_table event'].
  apply settled_bind; [apply preserves_lift|]. intros limit.
  apply settled_bind; [apply preserves_lift|]. intros floor.
  apply settled_bind; [intro; reflexivity|]. intros _.
  unfold add_tiles.
  destruct (limit_tiles masked_table limit floor) as [|tile tiles].
  - apply settled_preserves. preserve.
  - apply settled_bind; [apply new_oid_keeps_database|]. intros sid.
    apply settled_bind; [intro; reflexivity|]. intros _.
    apply settled_bind; [intro; reflexivity|]. intros _.
    apply build_plan_settled.
Qed.

Lemma open_session_settled (block : M unit) (w : World) :
  (forall s, settled s (block s)) ->
  forall e, fst (open_session block w) = Raise e ->
            database (snd (open_session block w)) = database w.
Proof.
  intros Hb e. unfold open_session, try_except, bind.
  specialize (Hb (enter w)). unfold settled in Hb.
  destruct (block (enter w)) as [[[]|e'] s'] eqn:E; simpl in Hb.
  - destruct (commit_outcome s') as [C|[e'' C]]; rewrite C; simpl.
    + discriminate.
    + intros _. destruct Hb as [H|[_ H]]; [exact H|].
      exfalso. rewrite commit_no_insert in C by now rewrite H. discriminate.
  - simpl. intros _. destruct Hb as [H|[H _]]; [exact H | discriminate].
Qed.

(** C2.  Whenever [add_to_database] raises, wherever the exception comes
    from, the database is afterwards exactly what it was before the call: no
    Event, Survey or MetaPointing row of this call is stored.  The outcome
    of the call is the outcome of its block followed by the commit that
    closes the session: an exception reaches the caller as it was raised.
    In particular when [session.commit()] fails at the end of the block,
    the handler wipes the uncommitted changes off the session and raises
    the same exception again. *)
Theorem failure_rolls_back (np_mean : list float -> float) (event : Event) (w : World) :
  (forall e,
      fst (add_to_database np_mean event w) = Raise e ->
      database (snd (add_to_database np_mean event w)) = database w)
  /\ fst (add_to_database np_mean event w)
     = fst ((add_to_database_block np_mean event ;; commit) (enter w))
  /\ (forall s e,
         fst (commit s) = Raise e ->
         fst (commit_changes s) = Raise e
         /\ view (snd (commit_changes s)) = committed s
         /\ committed (snd (commit_changes s)) = committed s).
Proof.
  split; [|split].
  - apply open_session_settled, add_to_database_block_settled.
  - unfold add_to_database, open_session.
    rewrite <- (raising_handler (add_to_database_block np_mean event ;; commit)).
    now destruct (try_except _ _ (enter w)).
  - intros s e H. rewrite (commit_changes_failure s e H). auto.
Qed.

(** ** Runs of the plan builder *)

Lemma filter_none {A : Type} (p : A -> bool) (l : list A) :
  (forall x, In x l -> p x = false) -> filter p l = [].
Proof.
  induction l as [|x l IH]; simpl; intros H; [reflexivity|].
  rewrite (H x (or_introl eq_refl)). apply IH. intros y Hy. apply H. now right.
Qed.

Lemma commit_new_event (s : State) (db_event : db.Event) :
  db.events (view s) = db.events (committed s) ++ [db_event] ->
  (forall e, In e (db.events (committed s)) ->
             db.ev_ivorn e <> db.ev_ivorn db_event) ->
  commit s = (Return tt, {| committed := view s; view := view s;
                            next_oid := next_oid s; log := log s |}).
Proof.
  intros Hv Hfresh. unfold commit.
  replace (forallb _ (inserted_events s)) with true; [reflexivity|].
  symmetry. apply forallb_forall. intros x Hx.
  unfold inserted_events in Hx. apply filter_In in Hx. destruct Hx as [Hin Hnew].
  rewrite Hv in Hin. apply in_app_or in Hin. destruct Hin as [Hin|[<-|[]]].
  - exfalso. apply negb_true_iff in Hnew.
    rewrite existsb_false_iff in Hnew. specialize (Hnew x Hin).
    now rewrite Nat.eqb_refl in Hnew.
  - apply Nat.eqb_eq. rewrite Hv. unfold ivorn_count.
    rewrite filter_app, length_app. simpl. rewrite String.eqb_refl. simpl.
    rewrite filter_none; [reflexivity|].
    intros e He. apply String.eqb_neq. now apply Hfresh.
Qed.

Lemma block_malformed (np_mean : list float -> float) (event : Event)
    (e : Exception) (s : State) :
  get_mpointing_info event = Raise e ->
  add_to_database_block np_mean event s = (Raise e, s).
Proof.
  intros H. unfold add_to_database_block, bind, lift. now rewrite H.
Qed.

Lemma block_retraction (np_mean : list float -> float) (event : Event)
    (mp_data : MpData) (expsets : list ExpData) (s : State) :
  get_mpointing_info event = Return (mp_data, expsets) ->
  event_type event = "GW_RETRACTION" ->
  add_to_database_block np_mean event s = (Return tt, event_added event s).
Proof.
  intros H Ht. unfold add_to_database_block, bind, lift. rewrite H. simpl.
  rewrite Ht. reflexivity.
Qed.

Lemma leave_rollback_enter (w : World) : leave (snd (rollback (enter w))) = w.
Proof. destruct w; reflexivity. Qed.

Lemma open_session_raises (block : M unit) (w : World) (e : Exception) (s : State) :
  block (enter w) = (Raise e, s) ->
  open_session block w
  = (Raise e, {| database := committed s; oid_supply := next_oid s;
                 records := log s |}).
Proof.
  intros H. unfold open_session, try_except, bind. rewrite H. reflexivity.
Qed.

Lemma open_session_returns (block : M unit) (w : World) (s : State) :
  block (enter w) = (Return tt, s) ->
  commit s = (Return tt, {| committed := view s; view := view s;
                            next_oid := next_oid s; log := log s |}) ->
  open_session block w
  = (Return tt, {| database := view s; oid_supply := next_oid s;
                   records := log s |}).
Proof.
  intros H C. unfold open_session, try_except, bind. rewrite H, C. reflexivity.
Qed.

(** C7, as the code has it.  A retraction never creates a MetaPointing or
    Survey row, whatever its strategy mapping holds: the only table that
    the call can change is that of the Events.  The plan is derived from
    the strategy first.  When that succeeds and no stored Event carries the
    ivorn, the call adds the Event row and returns, and the row is
    committed as the session closes; when the derivation fails, its error
    is raised and nothing at all is stored. *)
Theorem retraction_adds_event_only (np_mean : list float -> float) (event : Event)
    (w : World) :
  event_type event = "GW_RETRACTION" ->
  let d := database w in
  let d' := database (snd (add_to_database np_mean event w)) in
  (db.surveys d' = db.surveys d
   /\ db.mpointings d' = db.mpointings d
   /\ (d' = d \/ d' = with_events d (db.events d ++ [event_row (oid_supply w) event])))
  /\ (forall mp_data expsets,
         get_mpointing_info event = Return (mp_data, expsets) ->
         ivorn_is_new event d ->
         add_to_database np_mean event w
         = (Return tt,
            {| database := with_events d (db.events d ++ [event_row (oid_supply w) event]);
               oid_supply := S (oid_supply w);
               records := records w ++ [{| levelname := DEBUG;
                                           msg := "Adding Event to database";
                                           args := [] |}] |}))
  /\ (forall e,
         get_mpointing_info event = Raise e ->
         add_to_database np_mean event w = (Raise e, w)).
Proof.
  intros Ht d d'. unfold add_to_database in *.
  assert (Hbad : forall e, get_mpointing_info event = Raise e ->
                   open_session (add_to_database_block np_mean event) w = (Raise e, w)).
  { intros e H.
    rewrite (open_session_raises _ w e (enter w)) by now apply block_malformed.
    destruct w; reflexivity. }
  split; [|split; [|exact Hbad]].
  - subst d'. destruct (get_mpointing_info event) as [[mp_data expsets]|e] eqn:H.
    + pose proof (block_retraction np_mean event mp_data expsets (enter w) H Ht) as B.
      destruct (commit_outcome (event_added event (enter w))) as [C|[e C]].
      * rewrite (open_session_returns _ w _ B C). simpl. auto.
      * unfold open_session, try_except, bind. rewrite B, C. simpl. auto.
    + rewrite (Hbad e eq_refl). simpl. auto.
  - intros mp_data expsets H Hnew.
    pose proof (block_retraction np_mean event mp_data expsets (enter w) H Ht) as B.
    rewrite (open_session_returns _ w _ B); [reflexivity|].
    apply (commit_new_event _ (event_row (oid_supply w) event)); [reflexivity|].
    exact Hnew.
Qed.

(** ** Computations that only allocate

    [allocates c s Q]: run from [s], [c] returns a value that satisfies [Q]
    and has changed nothing but the supply of object identities. *)

Lemma with_oid_same (s : State) : with_oid s (next_oid s) = s.
Proof. destruct s; reflexivity. Qed.

Lemma allocates_ret {A : Type} (a : A) (s : State) (Q : A -> Prop) :
  Q a -> allocates (ret a) s Q.
Proof.
  intros H. exists a, (next_oid s). now rewrite with_oid_same.
Qed.

Lemma allocates_bind {A B : Type} (c : M A) (k : A -> M B) (s : State)
    (Q : A -> Prop) (R : B -> Prop) :
  allocates c s Q ->
  (forall a n, Q a -> allocates (k a) (with_oid s n) R) ->
  allocates (bind c k) s R.
Proof.
  intros (a & n & E & Ha) Hk. destruct (Hk a n Ha) as (b & m & E' & Hb).
  exists b, m. unfold bind. rewrite E, E'. auto.
Qed.

Lemma allocates_weaken {A : Type} (c : M A) (s : State) (Q R : A -> Prop) :
  allocates c s Q -> (forall a, Q a -> R a) -> allocates c s R.
Proof. intros (a & n & E & Ha) H. exists a, n. auto. Qed.

Lemma allocates_new_oid (s : State) : allocates new_oid s (fun _ => True).
Proof. exists (next_oid s), (S (next_oid s)). auto. Qed.

Lemma allocates_query_all {A : Type} (table : db.Database -> list A) (p : A -> bool)
    (s : State) :
  allocates (query_all table p) s (fun l => l = filter p (table (view s))).
Proof.
  exists (filter p (table (view s))), (next_oid s). now rewrite with_oid_same.
Qed.

Lemma allocates_one_or_none {A : Type} (l : list A) (s : State) :
  (List.length l <= 1)%nat -> allocates (one_or_none l) s (fun o => o = hd_error l).
Proof.
  intros H. destruct l as [|x [|y l]]; simpl in H; [| |lia];
    apply allocates_ret; reflexivity.
Qed.

Lemma allocates_read_local {A : Type} (var : string) (v : A) (s : State) :
  allocates (read_local var (Some v)) s (fun a => a = v).
Proof. now apply allocates_ret. Qed.

Lemma allocates_get_user (s : State) : allocates get_user s (fun _ => True).
Proof.
  unfold allocates, get_user, try_except, db_get_user, bind, query_all, get_view, ret.
  simpl.
  match goal with |- context [filter ?p ?t] => destruct (filter p t) as [|u us] end.
  - simpl. eexists _, (S (next_oid s)). split; [reflexivity | exact I].
  - eexists _, (next_oid s). rewrite with_oid_same. split; [reflexivity | exact I].
Qed.

Lemma allocates_new_mpointing (object_name : string) (ra dec : option float)
    (mp_data : MpData) (s : State) :
  allocates (new_mpointing object_name ra dec mp_data) s
    (fun o => db.mp_object_name (row o) = object_name
              /\ db.mp_ra (row o) = ra /\ db.mp_dec (row o) = dec
              /\ exposure_sets o = [] /\ pointings o = []).
Proof.
  unfold new_mpointing. eapply allocates_bind; [apply allocates_new_oid|].
  intros id n _. apply allocates_ret. simpl. auto.
Qed.

Lemma allocates_exposure_set (exp_data : ExpData) (o : MpointingObject) (s : State) :
  allocates
    (id <- new_oid ;;
     ret (append_exposure_set o
            {| db.es_id := id; db.es_data := exp_data; db.es_mpointing := None |}))
    s
    (fun o' => row o' = row o
               /\ pointings o' = pointings o
               /\ map db.es_data (exposure_sets o')
                  = map db.es_data (exposure_sets o) ++ [exp_data]
               /\ user o' = user o /\ survey_tile o' = survey_tile o).
Proof.
  eapply allocates_bind; [apply allocates_new_oid|].
  intros id n _. apply allocates_ret. simpl. rewrite map_app. auto.
Qed.

Lemma allocates_create_exposure_sets (expsets : list ExpData) :
  forall (o : MpointingObject) (s : State),
    allocates (create_exposure_sets expsets o) s
      (fun o' => row o' = row o
                 /\ pointings o' = pointings o
                 /\ map db.es_data (exposure_sets o')
                    = map db.es_data (exposure_sets o) ++ expsets
                 /\ user o' = user o /\ survey_tile o' = survey_tile o).
Proof.
  unfold create_exposure_sets.
  induction expsets as [|x l IH]; intros o s; simpl.
  - apply allocates_ret. now rewrite app_nil_r.
  - eapply allocates_bind; [apply allocates_exposure_set|].
    intros o1 n (Hr & Hp & He & Hu & Ht). eapply allocates_weaken; [apply IH|].
    simpl. intros o' (Hr' & Hp' & He' & Hu' & Ht').
    rewrite Hr', Hp', He', Hu', Ht', Hr, Hp, He, Hu, Ht, <- app_assoc. auto.
Qed.

Lemma allocates_get_next_pointing (o : MpointingObject) (s : State) :
  allocates (get_next_pointing o) s (fun p => db.pt_status p = "pending").
Proof.
  unfold get_next_pointing. eapply allocates_bind; [apply allocates_new_oid|].
  intros id m _. now apply allocates_ret.
Qed.

Lemma allocates_create_children (expsets : list ExpData) (db_event : db.Event)
    (locals : Locals) (o : MpointingObject) (s : State) :
  bound locals ->
  allocates (create_children expsets db_event locals o) s (with_children expsets o).
Proof.
  intros (gt0 & st0 & ->). unfold create_children.
  eapply allocates_bind; [apply allocates_create_exposure_sets|].
  intros o1 n (Hr & Hp & He & Hu & Ht).
  eapply allocates_bind; [apply allocates_get_next_pointing|].
  intros p m Hs. cbn [db_grid_tile db_survey_tile].
  eapply allocates_bind; [apply allocates_read_local|]. intros gt k ->.
  eapply allocates_bind; [apply allocates_read_local|]. intros st j ->.
  apply allocates_ret. unfold with_children. cbn [append_pointing row user
    survey_tile exposure_sets pointings].
  rewrite Hp. repeat split; auto.
  eexists. split; [reflexivity|]. simpl. rewrite Hr. auto.
Qed.

Lemma allocates_children_loop (expsets : list ExpData) (db_event : db.Event)
    (locals : Locals) :
  bound locals ->
  forall (l : list MpointingObject) (s : State),
    allocates (for_update l (create_children expsets db_event locals)) s
      (Forall2 (with_children expsets) l).
Proof.
  intros Hb. induction l as [|o l IH]; intros s; simpl.
  - apply allocates_ret. constructor.
  - eapply allocates_bind; [now apply allocates_create_children|].
    intros o' n Ho. eapply allocates_bind; [apply IH|].
    intros l' m Hl. apply allocates_ret. now constructor.
Qed.

Lemma allocates_create_tile_mpointing (event : Event) (mp_data : MpData)
    (db_event : db.Event) (db_grid : db.Grid) (db_survey : db.Survey)
    (db_user : db.User) (acc : list MpointingObject) (locals : Locals)
    (tile : TableRow) (s : State) :
  (List.length (grid_tiles_named db_grid (view s) tile) <= 1)%nat ->
  allocates
    (create_tile_mpointing event mp_data db_event db_grid db_survey db_user
       (acc, locals) tile)
    s
    (fun r => (exists o, fst r = acc ++ [o] /\ for_tile event tile o)
              /\ bound (snd r)).
Proof.
  intros Hone. unfold create_tile_mpointing.
  eapply allocates_bind; [apply allocates_query_all|]. intros found n ->.
  eapply allocates_bind; [apply allocates_one_or_none; exact Hone|].
  intros grid_tile m ->.
  eapply allocates_bind; [apply allocates_new_oid|]. intros id k _.
  eapply allocates_bind; [apply allocates_new_mpointing|].
  intros o j (Hn & Hra & Hdec & Hes & Hpt).
  apply allocates_ret. cbn [fst snd]. split.
  - eexists. split; [reflexivity|]. unfold for_tile. simpl. auto.
  - eexists _, _. reflexivity.
Qed.

Lemma allocates_tile_loop (event : Event) (mp_data : MpData)
    (db_event : db.Event) (db_grid : db.Grid) (db_survey : db.Survey)
    (db_user : db.User) (s : State) :
  forall (tiles : list TableRow) (acc : list MpointingObject) (locals : Locals) (n : oid),
    (forall tile, In tile tiles ->
       (List.length (grid_tiles_named db_grid (view s) tile) <= 1)%nat) ->
    allocates
      (for_fold tiles
         (create_tile_mpointing event mp_data db_event db_grid db_survey db_user)
         (acc, locals))
      (with_oid s n)
      (fun r => (exists l, fst r = acc ++ l /\ Forall2 (for_tile event) tiles l)
                /\ (tiles <> [] \/ bound locals -> bound (snd r))).
Proof.
  induction tiles as [|tile tiles IH]; intros acc locals n Hone; simpl.
  - apply allocates_ret. simpl. split.
    + exists []. rewrite app_nil_r. split; [reflexivity | constructor].
    + intros [H|H]; [congruence | exact H].
  - eapply allocates_bind.
    + apply allocates_create_tile_mpointing. apply Hone. now left.
    + intros [acc' locals'] m [(o & Hacc & Ho) Hb]. simpl in Hacc, Hb. subst acc'.
      eapply allocates_weaken.
      * apply (IH (acc ++ [o]) locals' m). intros t Ht. apply Hone. now right.
      * intros r [(l & Hl & Hf) Hb']. split.
        -- exists (o :: l). rewrite Hl, <- app_assoc. split; [reflexivity|].
           now constructor.
        -- intros _. apply Hb'. now right.
Qed.

(** ** Storing the plan *)

Lemma insert_items_run (items : list MpointingObject) (s : State) :
  insert_items items s = (Return tt, on_view (store_all items) s).
Proof.
  unfold insert_items.
  rewrite (for_each_pure _ (fun o => on_view (store o))) by reflexivity.
  apply f_equal. apply (fold_left_on_view (fun o d => store o d)).
Qed.

Lemma store_all_tables (items : list MpointingObject) :
  forall d,
    db.events (store_all items d) = db.events d
    /\ db.grids (store_all items d) = db.grids d
    /\ db.grid_tiles (store_all items d) = db.grid_tiles d
    /\ db.surveys (store_all items d) = db.surveys d
    /\ db.mpointings (store_all items d) = db.mpointings d ++ map row items
    /\ db.exposure_sets (store_all items d)
       = db.exposure_sets d ++ List.concat (map exposure_sets items)
    /\ db.pointings (store_all items d)
       = db.pointings d ++ List.concat (map pointings items).
Proof.
  unfold store_all. induction items as [|o l IH]; intros d; simpl.
  - rewrite !app_nil_r. repeat split.
  - destruct (IH (store o d)) as (He & Hg & Hgt & Hs & Hm & Hes & Hp).
    rewrite He, Hg, Hgt, Hs, Hm, Hes, Hp. simpl. rewrite <- !app_assoc.
    repeat split.
Qed.

Lemma prepare_plan_tiled (event : Event) (mp_data : MpData) (expsets : list ExpData)
    (db_event : db.Event) (db_grid : db.Grid) (db_survey : db.Survey)
    (tiles : list TableRow) (s : State) :
  tiles <> [] ->
  (forall tile, In tile tiles ->
     (List.length (grid_tiles_named db_grid (view s) tile) <= 1)%nat) ->
  exists made items n,
    prepare_plan event mp_data expsets db_event (Some (db_grid, db_survey, tiles)) s
    = (Return tt, plan_stored items n s)
    /\ Forall2 (for_tile event) tiles made
    /\ Forall2 (with_children expsets) made items.
Proof.
  intros Hne Hone. unfold prepare_plan.
  destruct (allocates_get_user s) as (db_user & n1 & E1 & _).
  unfold bind at 1. rewrite E1.
  destruct (allocates_tile_loop event mp_data db_event db_grid db_survey db_user s
              tiles [] {| db_grid_tile := None; db_survey_tile := None |} n1 Hone)
    as ([made locals] & n2 & E2 & (l & Hl & Hf) & Hb).
  simpl in Hl. subst l. cbn [snd] in Hb.
  unfold bind at 1. rewrite E2.
  destruct (allocates_children_loop expsets db_event locals (Hb (or_introl Hne))
              made (with_oid (with_oid s n1) n2))
    as (items & n3 & E3 & Hc).
  unfold bind at 1. rewrite E3.
  unfold bind at 1. unfold emit at 1. rewrite insert_items_run.
  exists made, items, n3. repeat split; assumption.
Qed.

Lemma build_plan_tiled (event : Event) (mp_data : MpData) (expsets : list ExpData)
    (db_event : db.Event) (db_grid : db.Grid) (db_survey : db.Survey)
    (tiles : list TableRow) (s : State) :
  tiles <> [] ->
  (forall tile, In tile tiles ->
     (List.length (grid_tiles_named db_grid (view s) tile) <= 1)%nat) ->
  db.events (view s) = db.events (committed s) ++ [db_event] ->
  (forall e, In e (db.events (committed s)) ->
             db.ev_ivorn e <> db.ev_ivorn db_event) ->
  exists made items n,
    build_plan event mp_data expsets db_event (Some (db_grid, db_survey, tiles)) s
    = (Return tt, {| committed := store_all items (view s);
                     view := store_all items (view s);
                     next_oid := n;
                     log := log (plan_stored items n s) |})
    /\ Forall2 (for_tile event) tiles made
    /\ Forall2 (with_children expsets) made items.
Proof.
  intros Hne Hone Hev Hnew. unfold build_plan.
  destruct (prepare_plan_tiled event mp_data expsets db_event db_grid db_survey
              tiles s Hne Hone) as (made & items & n & E & Hf & Hc).
  unfold bind. rewrite E. unfold commit_changes, try_except.
  rewrite (commit_new_event (plan_stored items n s) db_event).
  - exists made, items, n. auto.
  - simpl. destruct (store_all_tables items (view s)) as [-> _]. exact Hev.
  - exact Hnew.
Qed.

(** ** When a tile matches several grid tiles *)

Lemma query_all_run {A : Type} (table : db.Database -> list A) (p : A -> bool)
    (s : State) :
  query_all table p s = (Return (filter p (table (view s))), s).
Proof. reflexivity. Qed.

Lemma create_tile_mpointing_raises (event : Event) (mp_data : MpData)
    (db_event : db.Event) (db_grid : db.Grid) (db_survey : db.Survey)
    (db_user : db.User) (state : list MpointingObject * Locals)
    (tile : TableRow) (s : State) :
  (1 < List.length (grid_tiles_named db_grid (view s) tile))%nat ->
  create_tile_mpointing event mp_data db_event db_grid db_survey db_user state tile s
  = (Raise MultipleResultsFound, s).
Proof.
  intros H. unfold create_tile_mpointing. unfold bind at 1.
  rewrite query_all_run. fold (grid_tiles_named db_grid (view s) tile).
  destruct (grid_tiles_named db_grid (view s) tile) as [|x [|y l]];
    simpl in H; try lia. reflexivity.
Qed.

Lemma tile_loop_raises (event : Event) (mp_data : MpData)
    (db_event : db.Event) (db_grid : db.Grid) (db_survey : db.Survey)
    (db_user : db.User) (s : State) :
  forall (tiles : list TableRow) (acc : list MpointingObject) (locals : Locals) (n : oid),
    (exists tile, In tile tiles
                  /\ (1 < List.length (grid_tiles_named db_grid (view s) tile))%nat) ->
    exists s',
      for_fold tiles
        (create_tile_mpointing event mp_data db_event db_grid db_survey db_user)
        (acc, locals) (with_oid s n)
      = (Raise MultipleResultsFound, s')
      /\ committed s' = committed s /\ view s' = view s.
Proof.
  induction tiles as [|tile tiles IH]; intros acc locals n (bad & Hin & Hbad).
  - contradiction.
  - simpl. unfold bind.
    destruct (le_lt_dec (List.length (grid_tiles_named db_grid (view s) tile)) 1)
      as [Hone|Hmany].
    + destruct (allocates_create_tile_mpointing event mp_data db_event db_grid
                  db_survey db_user acc locals tile (with_oid s n) Hone)
        as ([acc' locals'] & m & E & _).
      rewrite E. apply IH. exists bad. split; [|exact Hbad].
      destruct Hin as [<-|Hin]; [lia | exact Hin].
    + rewrite create_tile_mpointing_raises by exact Hmany.
      eexists. repeat split.
Qed.

Lemma tiles_resolve_dec (db_grid : db.Grid) (d : db.Database) (tiles : list TableRow) :
  tiles_resolve db_grid d tiles
  \/ exists tile, In tile tiles
                  /\ (1 < List.length (grid_tiles_named db_grid d tile))%nat.
Proof.
  unfold tiles_resolve. induction tiles as [|tile tiles IH].
  - left. intros tile [].
  - destruct (le_lt_dec (List.length (grid_tiles_named db_grid d tile)) 1) as [H|H].
    + destruct IH as [IH|(bad & Hin & Hbad)].
      * left. intros t [<-|Ht]; auto.
      * right. exists bad. split; [now right | exact Hbad].
    + right. exists tile. split; [now left | exact H].
Qed.

Lemma prepare_plan_ambiguous (event : Event) (mp_data : MpData) (expsets : list ExpData)
    (db_event : db.Event) (db_grid : db.Grid) (db_survey : db.Survey)
    (tiles : list TableRow) (s : State) :
  (exists tile, In tile tiles
                /\ (1 < List.length (grid_tiles_named db_grid (view s) tile))%nat) ->
  exists s',
    prepare_plan event mp_data expsets db_event (Some (db_grid, db_survey, tiles)) s
    = (Raise MultipleResultsFound, s').
Proof.
  intros Hbad. unfold prepare_plan.
  destruct (allocates_get_user s) as (db_user & n1 & E1 & _).
  unfold bind at 1. rewrite E1.
  destruct (tile_loop_raises event mp_data db_event db_grid db_survey db_user s
              tiles [] {| db_grid_tile := None; db_survey_tile := None |} n1 Hbad)
    as (s' & E2 & _).
  unfold bind at 1. rewrite E2. eauto.
Qed.

(** ** The tiled path *)

Lemma add_tiles_survey (event : Event) (mp_data : MpData) (expsets : list ExpData)
    (db_event : db.Event) (db_grid : db.Grid) (tile : TableRow)
    (tiles : list TableRow) (s : State) :
  add_tiles event mp_data expsets db_event db_grid (tile :: tiles) s
  = build_plan event mp_data expsets db_event
      (Some (db_grid, survey_row (next_oid s) event db_event db_grid, tile :: tiles))
      (survey_added event db_event db_grid s).
Proof. reflexivity. Qed.

Lemma add_tiles_cases (event : Event) (mp_data : MpData) (expsets : list ExpData)
    (db_event : db.Event) (db_grid : db.Grid) (tiles : list TableRow) (s : State) :
  tiles <> [] ->
  (exists made items n,
      add_tiles event mp_data expsets db_event db_grid tiles s
      = (Return tt, plan_committed items n event db_event db_grid s)
      /\ Forall2 (for_tile event) tiles made
      /\ Forall2 (with_children expsets) made items)
  \/ (exists e s',
         add_tiles event mp_data expsets db_event db_grid tiles s = (Raise e, s')).
Proof.
  intros Hne. destruct tiles as [|tile tiles]; [congruence|].
  rewrite add_tiles_survey. unfold build_plan.
  set (s1 := survey_added event db_event db_grid s).
  destruct (tiles_resolve_dec db_grid (view s1) (tile :: tiles)) as [Hone|Hbad].
  - destruct (prepare_plan_tiled event mp_data expsets db_event db_grid
                (survey_row (next_oid s) event db_event db_grid)
                (tile :: tiles) s1 Hne Hone) as (made & items & n & E & Hf & Hc).
    unfold bind. rewrite E. unfold commit_changes, try_except.
    destruct (commit_outcome (plan_stored items n s1)) as [C|[e C]]; rewrite C.
    + left. exists made, items, n. auto.
    + right. eexists _, _. reflexivity.
  - destruct (prepare_plan_ambiguous event mp_data expsets db_event db_grid
                (survey_row (next_oid s) event db_event db_grid)
                (tile :: tiles) s1 Hbad) as (s' & E).
    right. unfold bind. rewrite E. eauto.
Qed.

Lemma add_tiles_run (event : Event) (mp_data : MpData) (expsets : list ExpData)
    (db_event : db.Event) (db_grid : db.Grid) (tiles : list TableRow) (s : State) :
  tiles <> [] ->
  tiles_resolve db_grid (view s) tiles ->
  db.events (view s) = db.events (committed s) ++ [db_event] ->
  (forall e, In e (db.events (committed s)) ->
             db.ev_ivorn e <> db.ev_ivorn db_event) ->
  exists made items n,
    add_tiles event mp_data expsets db_event db_grid tiles s
    = (Return tt, plan_committed items n event db_event db_grid s)
    /\ Forall2 (for_tile event) tiles made
    /\ Forall2 (with_children expsets) made items.
Proof.
  intros Hne Hone Hev Hnew. destruct tiles as [|tile tiles]; [congruence|].
  rewrite add_tiles_survey.
  apply build_plan_tiled; assumption.
Qed.

Lemma add_tiles_none (event : Event) (mp_data : MpData) (expsets : list ExpData)
    (db_event : db.Event) (db_grid : db.Grid) (s : State)
    (r : TableRow) (full_table : list TableRow) :
  event_full_table event = Some (r :: full_table) ->
  exists percent,
    add_tiles event mp_data expsets db_event db_grid [] s
    = (Return tt,
       {| committed := committed s; view := view s; next_oid := next_oid s;
          log := log s
                 ++ [{| levelname := WARNING;
                        msg := "No tiles passed filtering, no pointings to add";
                        args := [] |};
                     {| levelname := DEBUG; msg := "Highest tile has {:.2f}%";
                        args := [ArgFloat percent] |}] |}).
Proof.
  intros H. unfold add_tiles, bind, emit, lift. rewrite H. cbn [getattr map py_max].
  unfold float_mul_int. change (float_of_int 100) with (Return 100%float).
  cbn [obind log view committed next_oid]. rewrite <- app_assoc.
  eexists. reflexivity.
Qed.

Lemma add_tiles_none_reads (event : Event) (mp_data : MpData) (expsets : list ExpData)
    (db_event : db.Event) (db_grid : db.Grid) :
  preserves committed (add_tiles event mp_data expsets db_event db_grid [])
  /\ preserves view (add_tiles event mp_data expsets db_event db_grid []).
Proof. split; unfold add_tiles; preserve. Qed.

(** ** The final table of tiles *)

Lemma slice_to_length {A : Type} (stop : Z) (table : list A) :
  (0 <= stop)%Z -> (len (slice_to stop table) <= stop)%Z.
Proof.
  intros H. unfold slice_to, len.
  destruct (0 <=? stop)%Z eqn:E; [|apply Z.leb_gt in E; lia].
  pose proof (firstn_le_length (Z.to_nat stop) table). lia.
Qed.

Lemma slice_to_all {A : Type} (stop : Z) (table : list A) :
  (len table <= stop)%Z -> slice_to stop table = table.
Proof.
  unfold slice_to, len. intros H.
  destruct (0 <=? stop)%Z eqn:E; [|apply Z.leb_gt in E; lia].
  apply firstn_all2. lia.
Qed.

Lemma filter_length_le {A : Type} (p : A -> bool) (l : list A) :
  (List.length (filter p l) <= List.length l)%nat.
Proof.
  induction l as [|x l IH]; simpl; [lia|]. destruct (p x); simpl; lia.
Qed.

Lemma limit_tiles_floor (masked_table : list TableRow) (limit : Z) (floor : float) :
  limit_tiles masked_table limit floor
  = if (0 <? floor)%float
    then filter (fun r => (floor <? prob r)%float) (slice_to limit masked_table)
    else slice_to limit masked_table.
Proof.
  unfold limit_tiles. destruct (0 <? floor)%float; [|reflexivity].
  apply getitem_mask_filter.
Qed.

Lemma limit_tiles_length (masked_table : list TableRow) (limit : Z) (floor : float) :
  (0 <= limit)%Z -> (len (limit_tiles masked_table limit floor) <= limit)%Z.
Proof.
  intros H. rewrite limit_tiles_floor.
  pose proof (slice_to_length limit masked_table H) as Hs.
  destruct (0 <? floor)%float; [|exact Hs].
  unfold len in *.
  pose proof (filter_length_le (fun r => (floor <? prob r)%float)
                (slice_to limit masked_table)).
  lia.
Qed.

(** ** The tiled path of the block *)

Lemma filter_all {A : Type} (l : list A) : filter (fun _ => true) l = l.
Proof. induction l as [|x l IH]; simpl; congruence. Qed.

Section TiledPath.

Variable np_mean : list float -> float.
Variables (event : Event) (mp_data : MpData) (expsets : list ExpData).
Variables (limit : Z) (floor : float).

Hypothesis Hinfo : get_mpointing_info event = Return (mp_data, expsets).
Hypothesis Htype : event_type event <> "GW_RETRACTION".
Hypothesis Hgrid : on_grid (event_strategy event) = Some true.
Hypothesis Hlimit : tile_limit (event_strategy event) = Some limit.
Hypothesis Hfloor : prob_limit (event_strategy event) = Some floor.

Lemma block_tiled (s : State) (g0 : db.Grid) (gs : list db.Grid) :
  db.grids (view s) = g0 :: gs ->
  let db_grid := last gs g0 in
  let resolved := get_grid_tiles np_mean event db_grid in
  let tile_table := limit_tiles (fst resolved) limit floor in
  add_to_database_block np_mean event s
  = add_tiles (with_tile_table (snd resolved) tile_table) mp_data expsets
      (event_row (next_oid s) event) db_grid tile_table
      (tiles_listed event db_grid tile_table s).
Proof.
  intros Hg db_grid resolved tile_table.
  unfold add_to_database_block. unfold bind at 1. unfold lift at 1. rewrite Hinfo.
  unfold bind at 1. unfold new_oid at 1.
  unfold bind at 1. unfold emit at 1.
  unfold bind at 1. unfold session_add_event at 1.
  unfold bind at 1. unfold get_view at 1. unfold set_view at 1.
  cbn [view committed next_oid log].
  apply String.eqb_neq in Htype. rewrite Htype.
  unfold bind at 1. unfold lift at 1. rewrite Hgrid. cbn [getitem].
  unfold bind at 1. unfold get_grid at 1. unfold bind at 1.
  rewrite query_all_run. cbn [view with_events db.grids].
  rewrite filter_all, Hg. unfold ret at 1.
  unfold bind at 1. unfold emit at 1. cbn [view committed next_oid log].
  fold db_grid. fold resolved.
  assert (Hs : event_strategy (snd resolved) = event_strategy event) by reflexivity.
  destruct resolved as [masked_table event'] eqn:R. cbn [fst snd] in *.
  rewrite Hs, Hlimit, Hfloor. cbn [getitem].
  unfold bind at 1. unfold lift at 1.
  unfold bind at 1. unfold lift at 1.
  unfold bind at 1. unfold emit at 1. cbn [view committed next_oid log].
  unfold tiles_listed, event_added. cbn [view committed next_oid log].
  fold tile_table. rewrite <- app_assoc. reflexivity.
Qed.

End TiledPath.

Lemma open_session_commit_fails (block : M unit) (w : World) (e : Exception)
    (s : State) :
  block (enter w) = (Return tt, s) ->
  commit s = (Raise e, s) ->
  open_session block w
  = (Raise e, {| database := committed s; oid_supply := next_oid s;
                 records := log s |}).
Proof.
  intros H C. unfold open_session, try_except, bind. rewrite H, C. reflexivity.
Qed.

Lemma plan_names (event : Event) (expsets : list ExpData) (tiles : list TableRow)
    (made items : list MpointingObject) :
  Forall2 (for_tile event) tiles made ->
  Forall2 (with_children expsets) made items ->
  map db.mp_object_name (map row items)
  = map (fun tile => (event_name event ++ "_" ++ tilename tile)%string) tiles.
Proof.
  intros Hf. revert items. induction Hf as [|tile o tiles made Ho Hf IH];
    intros items Hc; inversion Hc as [|? o' ? items' Ho' Hc']; subst; simpl.
  - reflexivity.
  - destruct Ho as (Hn & _). destruct Ho' as (Hr & _).
    rewrite Hr, Hn. f_equal. now apply IH.
Qed.

(** C9.  On the tiled path the final table is the resolved table cut to
    its first [tile_limit] rows and then, when [prob_limit] is positive,
    to the rows whose [prob] exceeds it; so it has at most [tile_limit]
    rows, and it is the whole resolved table when that has no more than
    [tile_limit] rows and no floor is set.  A call that returns has created
    exactly one MetaPointing for each row of the final table, named after
    the event and the tile; a call that raises has created none.  The call
    does return when the final table is not empty, each of its tiles
    matches at most one tile of the grid and the ivorn is new.  When the
    final table is empty (the grid having tiles, the ivorn being new), the
    call logs the warning and returns, and no Survey or MetaPointing row is
    added. *)
Theorem tiles_capped_and_floored (np_mean : list float -> float) (event : Event)
    (w : World) (mp_data : MpData) (expsets : list ExpData)
    (limit : Z) (floor : float) (g0 : db.Grid) (gs : list db.Grid) :
  get_mpointing_info event = Return (mp_data, expsets) ->
  event_type event <> "GW_RETRACTION" ->
  on_grid (event_strategy event) = Some true ->
  tile_limit (event_strategy event) = Some limit ->
  prob_limit (event_strategy event) = Some floor ->
  (0 <= limit)%Z ->
  db.grids (database w) = g0 :: gs ->
  let d := database w in
  let db_grid := last gs g0 in
  let masked_table := fst (get_grid_tiles np_mean event db_grid) in
  let tile_table := limit_tiles masked_table limit floor in
  let result := add_to_database np_mean event w in
  let d' := database (snd result) in
  (len tile_table <= limit)%Z
  /\ ((len masked_table <= limit)%Z -> (0 <? floor)%float = false ->
      tile_table = masked_table)
  /\ ((0 <? floor)%float = true ->
      tile_table
      = filter (fun r => (floor <? prob r)%float) (slice_to limit masked_table))
  /\ (fst result = Return tt ->
      exists ms,
        db.mpointings d' = db.mpointings d ++ ms
        /\ List.length ms = List.length tile_table
        /\ map db.mp_object_name ms
           = map (fun tile => (event_name event ++ "_" ++ tilename tile)%string)
               tile_table)
  /\ (forall e, fst result = Raise e -> d' = d)
  /\ (tile_table <> [] -> tiles_resolve db_grid d tile_table ->
      ivorn_is_new event d -> fst result = Return tt)
  /\ (tile_table = [] -> skymap_tiles (loaded_skymap event) <> [] ->
      ivorn_is_new event d ->
      fst result = Return tt
      /\ In {| levelname := WARNING;
               msg := "No tiles passed filtering, no pointings to add";
               args := [] |} (records (snd result))
      /\ db.surveys d' = db.surveys d
      /\ db.mpointings d' = db.mpointings d).
Proof.
  intros Hinfo Htype Hgrid Hlimit Hfloor Hpos Hg d db_grid masked_table tile_table
    result d'.
  pose proof (block_tiled np_mean event mp_data expsets limit floor
                Hinfo Htype Hgrid Hlimit Hfloor (enter w) g0 gs Hg) as B.
  cbv zeta in B. fold db_grid masked_table tile_table in B.
  set (event' := with_tile_table (snd (get_grid_tiles np_mean event db_grid)) tile_table)
    in B.
  set (db_event := event_row (next_oid (enter w)) event) in B.
  set (s2 := tiles_listed event db_grid tile_table (enter w)) in B.
  split; [now apply limit_tiles_length|].
  split.
  { intros Hk Hoff. subst tile_table. rewrite limit_tiles_floor, Hoff.
    now apply slice_to_all. }
  split.
  { intros Hon. subst tile_table. now rewrite limit_tiles_floor, Hon. }
  split.
  { subst result d'. unfold add_to_database.
    destruct tile_table as [|tile tiles] eqn:T.
    - destruct (add_tiles event' mp_data expsets db_event db_grid [] s2)
        as [[[]|e] s'] eqn:A.
      + pose proof (proj2 (add_tiles_none_reads event' mp_data expsets db_event db_grid)
                      s2) as Hv.
        rewrite A in Hv. cbn [snd] in Hv.
        destruct (commit_outcome s') as [C|[e C]].
        * rewrite (open_session_returns _ w s' B C). cbn [fst snd database].
          intros _. exists []. rewrite Hv, app_nil_r. auto.
        * rewrite (open_session_commit_fails _ w e s' B C). discriminate.
      + rewrite (open_session_raises _ w e s' B). discriminate.
    - destruct (add_tiles_cases event' mp_data expsets db_event db_grid
                  (tile :: tiles) s2)
        as [(made & items & n & A & Hf & Hc)|(e & s' & A)]; [discriminate| |].
      + rewrite <- B in A.
        rewrite (open_session_returns _ w _ A) by (now apply commit_no_insert).
        cbn [fst snd database plan_committed view]. intros _.
        exists (map row items).
        destruct (store_all_tables items (view (survey_added event' db_event db_grid s2)))
          as (_ & _ & _ & _ & -> & _).
        split; [reflexivity|].
        pose proof (plan_names event' expsets _ made items Hf Hc) as Hn.
        split; [|exact Hn].
        rewrite <- (length_map db.mp_object_name), Hn. apply length_map.
      + rewrite <- B in A. rewrite (open_session_raises _ w e s' A). discriminate. }
  split.
  { subst result d'. unfold add_to_database.
    apply open_session_settled, add_to_database_block_settled. }
  split.
  { intros Hne Hone Hnew. subst result. unfold add_to_database.
    destruct (add_tiles_run event' mp_data expsets db_event db_grid tile_table s2
                Hne Hone eq_refl Hnew) as (made & items & n & A & _).
    rewrite <- B in A.
    rewrite (open_session_returns _ w _ A) by (now apply commit_no_insert).
    reflexivity. }
  intros Hempty Hfull Hnew. subst result d'. unfold add_to_database.
  assert (Hft : exists r full, event_full_table event' = Some (r :: full)).
  { subst event'. cbn. unfold sort_reverse.
    destruct (skymap_tiles (loaded_skymap event)) as [|t ts] eqn:Et; [congruence|].
    fold (loaded_skymap event). rewrite Et.
    destruct (rev (sort_by_prob (map tile_row (t :: ts)))) as [|r full] eqn:Er; eauto.
    exfalso. apply (f_equal (@List.length TableRow)) in Er.
    rewrite length_rev in Er. simpl in Er.
    assert (L : forall r l, List.length (insert_by_prob r l) = S (List.length l)).
    { intros r l. induction l as [|x l IH]; simpl; [reflexivity|].
      destruct (np_less (prob x) (prob r)); simpl; congruence. }
    rewrite L in Er. discriminate. }
  destruct Hft as (r & full & Hft).
  rewrite Hempty in B.
  destruct (add_tiles_none event' mp_data expsets db_event db_grid s2 r full Hft)
    as (percent & A).
  rewrite <- B in A.
  rewrite (open_session_returns _ w _ A).
  - cbn [fst snd database records view log]. split; [reflexivity|].
    split; [|split; reflexivity].
    apply in_or_app. right. now left.
  - apply (commit_new_event _ db_event); [reflexivity | exact Hnew].
Qed.

(** ** The untiled path *)

Lemma create_children_unbound (expsets : list ExpData) (db_event : db.Event)
    (o : MpointingObject) (s : State) :
  exists s',
    create_children expsets db_event
      {| db_grid_tile := None; db_survey_tile := None |} o s
    = (Raise (UnboundLocalError "db_grid_tile"), s').
Proof.
  unfold create_children.
  destruct (allocates_create_exposure_sets expsets o s) as (o1 & n1 & E1 & _).
  unfold bind at 1. rewrite E1.
  destruct (allocates_get_next_pointing o1 (with_oid s n1)) as (p & n2 & E2 & _).
  unfold bind at 1. rewrite E2.
  eexists. reflexivity.
Qed.

Lemma allocates_create_single_mpointing (event : Event) (mp_data : MpData)
    (expsets : list ExpData) (db_event : db.Event) (db_user : db.User) (s : State) :
  allocates (create_single_mpointing event mp_data expsets db_event db_user) s
    (fun mpointings =>
       exists o, mpointings = [o]
                 /\ db.mp_ra (row o) = Some (ra (event_coord event))
                 /\ db.mp_dec (row o) = Some (dec (event_coord event))
                 /\ map db.es_data (exposure_sets o) = expsets).
Proof.
  unfold create_single_mpointing.
  eapply allocates_bind; [apply allocates_new_mpointing|].
  intros o n (_ & Hra & Hdec & Hes & _).
  eapply allocates_bind; [apply allocates_create_exposure_sets|].
  intros o' m (Hr & _ & He & _). apply allocates_ret.
  exists o'. rewrite Hr, He. simpl. rewrite Hra, Hdec, Hes. auto.
Qed.

(** The MetaPointing of the untiled path gets its exposure sets when it is
    created and once more in the loop over the MetaPointings. *)
Lemma single_mpointing_exposure_sets_twice (event : Event) (mp_data : MpData)
    (expsets : list ExpData) (db_event : db.Event) (db_user : db.User) (s : State) :
  allocates
    (mpointings <- create_single_mpointing event mp_data expsets db_event db_user ;;
     for_update mpointings (create_exposure_sets expsets))
    s
    (fun mpointings =>
       exists o, mpointings = [o]
                 /\ map db.es_data (exposure_sets o) = expsets ++ expsets).
Proof.
  eapply allocates_bind; [apply allocates_create_single_mpointing|].
  intros ms n (o & -> & _ & _ & He). simpl.
  eapply allocates_bind; [apply allocates_create_exposure_sets|].
  intros o' m (_ & _ & He' & _). apply allocates_ret.
  exists o'. rewrite He', He. auto.
Qed.

(** Every event that takes the untiled path ends in the same error, with
    nothing stored. *)
Lemma untiled_path_raises (np_mean : list float -> float) (event : Event)
    (mp_data : MpData) (expsets : list ExpData) (w : World) :
  get_mpointing_info event = Return (mp_data, expsets) ->
  event_type event <> "GW_RETRACTION" ->
  on_grid (event_strategy event) = Some false ->
  fst (add_to_database np_mean event w) = Raise (UnboundLocalError "db_grid_tile")
  /\ database (snd (add_to_database np_mean event w)) = database w.
Proof.
  intros Hinfo Htype Hgrid.
  assert (B : exists s', add_to_database_block np_mean event (enter w)
                         = (Raise (UnboundLocalError "db_grid_tile"), s')).
  { unfold add_to_database_block. unfold bind at 1. unfold lift at 1. rewrite Hinfo.
    unfold bind at 1. unfold new_oid at 1.
    unfold bind at 1. unfold emit at 1.
    unfold bind at 1. unfold session_add_event at 1.
    unfold bind at 1. unfold get_view at 1. unfold set_view at 1.
    cbn [view committed next_oid log].
    apply String.eqb_neq in Htype. rewrite Htype.
    unfold bind at 1. unfold lift at 1. rewrite Hgrid. cbn [getitem].
    unfold build_plan, prepare_plan.
    match goal with |- exists s', _ ?s = _ => set (s1 := s) end.
    destruct (allocates_get_user s1) as (db_user & n1 & E1 & _).
    unfold bind at 1. unfold bind at 1. rewrite E1.
    set (db_event := event_row (next_oid (enter w)) event).
    destruct (allocates_create_single_mpointing event mp_data expsets
                db_event db_user (with_oid s1 n1))
      as (ms & n2 & E2 & o & -> & _).
    unfold bind at 1. unfold bind at 1. unfold bind at 1. rewrite E2.
    unfold ret at 1. cbn [for_update].
    destruct (create_children_unbound expsets db_event o
                (with_oid (with_oid s1 n1) n2)) as (s' & E3).
    unfold bind at 1. unfold bind at 1. rewrite E3. eauto. }
  destruct B as (s' & B). split.
  - unfold add_to_database. now rewrite (open_session_raises _ w _ s' B).
  - apply (open_session_settled _ w (add_to_database_block_settled np_mean event)
             (UnboundLocalError "db_grid_tile")).
    unfold add_to_database. now rewrite (open_session_raises _ w _ s' B).
Qed.

(** ** The plan builder on the sample events *)

(** C1.  The call on [tiled_event], whose final table has the tiles T0002
    and T0001 in that order: the MetaPointing of T0002 is linked to the grid
    tile 3 and to its own survey tile 103, but its first Pointing is linked
    to the grid tile 2 and the survey tile 105, those of T0001, the last
    tile of the loop.  Only the Pointing of the last tile agrees with its
    MetaPointing. *)
Theorem first_pointing_takes_last_tile :
  let result := add_to_database sequential_mean tiled_event sample_world in
  fst result = Return tt
  /\ map (fun m => (db.mp_id m, db.mp_object_name m,
                    db.mp_grid_tile m, db.mp_survey_tile m))
         (db.mpointings (database (snd result)))
     = [ (104, "S190425z_T0002", Some 3, Some 103);
         (106, "S190425z_T0001", Some 2, Some 105) ]
  /\ map (fun p => (db.pt_mpointing p, db.pt_grid_tile p, db.pt_survey_tile p))
         (db.pointings (database (snd result)))
     = [ (Some 104, Some 2, Some 105);
         (Some 106, Some 2, Some 105) ].
Proof. vm_compute. repeat split. Qed.

(** C4.  The call on [untiled_event]: it raises [UnboundLocalError] for
    the local [db_grid_tile], which only the loop over the tiles assigns;
    the Pointing is never attached, and neither the MetaPointing nor
    anything else is stored. *)
Theorem untiled_event_raises :
  add_to_database sequential_mean untiled_event sample_world
  = (Raise (UnboundLocalError "db_grid_tile"),
     {| database := sample_database;
        oid_supply := 108;
        records := [{| levelname := DEBUG; msg := "Adding Event to database";
                       args := [] |}] |}).
Proof. vm_compute. reflexivity. Qed.

(** C5.  The untiled path on [untiled_event], up to the exposure sets of
    the loop over the MetaPointings: the single MetaPointing holds four
    exposure sets for the two specifications, each specification twice.
    The call itself then raises, so that none of them is stored. *)
Theorem untiled_exposure_sets_duplicated :
  (exists o s,
      (mpointings <- create_single_mpointing untiled_event sample_mp_data
                       sample_expsets (event_row 100 untiled_event) sample_user ;;
       for_update mpointings (create_exposure_sets sample_expsets))
        (enter sample_world)
      = (Return [o], s)
      /\ map db.es_data (exposure_sets o) = sample_expsets ++ sample_expsets
      /\ map db.es_id (exposure_sets o) = [101; 102; 103; 104])
  /\ get_mpointing_info untiled_event = Return (sample_mp_data, sample_expsets)
  /\ db.exposure_sets
       (database (snd (add_to_database sequential_mean untiled_event sample_world)))
     = [].
Proof.
  split; [|split; vm_compute; reflexivity].
  eexists _, _. split; [vm_compute; reflexivity|]. split; reflexivity.
Qed.

(** C7, as it is stated, fails on a retraction whose strategy mapping
    holds nothing: the derivation of the plan raises before the Event is
    created, and no Event row is stored. *)
Lemma bare_retraction_not_stored :
  event_type bare_retraction = "GW_RETRACTION"
  /\ add_to_database sequential_mean bare_retraction sample_world
     = (Raise (KeyError "exposure_sets_dict"), sample_world)
  /\ db.events
       (database (snd (add_to_database sequential_mean bare_retraction sample_world)))
     = [].
Proof. vm_compute. repeat split. Qed.

(** ** The theorems at work *)

(** Two exposure sets, (2, 60 s) and (1, 10 s): 220 seconds. *)
Lemma min_time_readout_sum_witness :
  get_mpointing_info tiled_event = Return (sample_mp_data, sample_expsets)
  /\ min_time sample_mp_data = Float 220.
Proof.
  split; [reflexivity|].
  apply (proj2 min_time_readout_sum tiled_event sample_mp_data sample_expsets "L" "R");
    reflexivity.
Defined.

(** The sharp skymap: no tile passes the test on the mean, one row has a
    [prob] above 0.9, and that row is the table. *)
Lemma containment_mask_fallback_witness :
  fst (get_grid_tiles sequential_mean sharp_event sample_grid)
  = [ {| tilename := "T0002"; tile_ra := 0; tile_dec := 0; prob := 0.9375 |} ].
Proof.
  apply (proj2 (containment_mask_fallback sequential_mean sharp_event sample_grid)).
  - intros tile [<-|[<-|[]]]; reflexivity.
  - reflexivity.
Defined.

(** The first notice sent twice: the error, and the world as it was. *)
Lemma duplicate_ivorn_raised_witness :
  fst (remove_previous_events tiled_event stored_world)
  = Raise (duplicate_ivorn "ivo://gwnet/LVC#S190425z-1")
  /\ snd (remove_previous_events tiled_event stored_world) = stored_world.
Proof.
  destruct (duplicate_ivorn_raised tiled_event stored_world) as [[_ Hraise] Hsame].
  assert (H : fst (remove_previous_events tiled_event stored_world)
              = Raise (duplicate_ivorn (event_ivorn tiled_event))).
  { apply Hraise. exists stored_event. simpl. auto. }
  split; [exact H | exact (proj2 (Hsame _ H))].
Defined.

(** The second notice of the stored event: its scheduled MetaPointing and
    its pending Pointing are deleted, its running Pointing is not. *)
Lemma previous_events_soft_deleted_witness :
  exists lg,
    remove_previous_events update_event stored_world
    = (Return tt,
       {| database :=
            {| db.events := [stored_event];
               db.grids := [sample_grid];
               db.grid_tiles := db.grid_tiles sample_database;
               db.surveys := []; db.survey_tiles := []; db.users := [];
               db.mpointings := [stored_mpointing "deleted"];
               db.exposure_sets := [];
               db.pointings := [stored_pointing 12 "running";
                                stored_pointing 13 "deleted"] |};
          oid_supply := 100;
          records := lg |}).
Proof.
  destruct (previous_events_soft_deleted update_event stored_world) as [[lg H] _].
  - simpl. discriminate.
  - simpl. intros e [<-|[]]. simpl. discriminate.
  - simpl. repeat constructor. simpl. tauto.
  - simpl. repeat constructor; simpl; intuition discriminate.
  - exists lg. exact H.
Defined.

(** An event whose ivorn is stored already: the commit fails, and the
    database is the stored one. *)
Lemma failure_rolls_back_witness :
  fst (add_to_database sequential_mean tiled_event stored_world)
  = Raise (IntegrityError "UNIQUE constraint failed: events.ivorn")
  /\ database (snd (add_to_database sequential_mean tiled_event stored_world))
     = stored_database.
Proof.
  assert (H : fst (add_to_database sequential_mean tiled_event stored_world)
              = Raise (IntegrityError "UNIQUE constraint failed: events.ivorn"))
    by (vm_compute; reflexivity).
  split; [exact H|].
  exact (proj1 (failure_rolls_back sequential_mean tiled_event stored_world) _ H).
Defined.

(** A retraction with a full strategy: the Event row, and nothing else. *)
Lemma retraction_adds_event_only_witness :
  add_to_database sequential_mean retraction_event sample_world
  = (Return tt,
     {| database :=
          with_events sample_database [event_row 100 retraction_event];
        oid_supply := 101;
        records := [{| levelname := DEBUG; msg := "Adding Event to database";
                       args := [] |}] |}).
Proof.
  destruct (retraction_adds_event_only sequential_mean retraction_event sample_world)
    as (_ & H & _); [reflexivity|].
  apply (H sample_mp_data sample_expsets); [reflexivity|].
  intros e [].
Defined.

(** A limit of five tiles with two tiles resolved: two MetaPointings.  A
    floor of 1: none, and no error. *)
Lemma tiles_capped_and_floored_witness :
  (fst (add_to_database sequential_mean tiled_event sample_world) = Return tt
   /\ exists ms,
        db.mpointings
          (database (snd (add_to_database sequential_mean tiled_event sample_world)))
        = ms
        /\ List.length ms = 2%nat)
  /\ (fst (add_to_database sequential_mean floored_event sample_world) = Return tt
      /\ db.mpointings
           (database (snd (add_to_database sequential_mean floored_event sample_world)))
         = []).
Proof.
  assert (Htype : "GW_CBC" <> "GW_RETRACTION") by discriminate.
  assert (Hpos : (0 <= 5)%Z) by lia.
  split.
  - pose proof (tiles_capped_and_floored sequential_mean tiled_event sample_world
                  sample_mp_data sample_expsets 5 0 sample_grid []
                  eq_refl Htype eq_refl eq_refl eq_refl Hpos eq_refl) as H.
    cbv zeta in H. destruct H as (_ & _ & _ & Hmade & _ & Hreturns & _).
    assert (R : fst (add_to_database sequential_mean tiled_event sample_world)
                = Return tt).
    { apply Hreturns.
      - vm_compute. discriminate.
      - intros tile [<-|[<-|[]]]; vm_compute; lia.
      - intros e []. }
    split; [exact R|].
    destruct (Hmade R) as (ms & Hms & Hlen & _).
    exists ms. split; [exact Hms | exact Hlen].
  - pose proof (tiles_capped_and_floored sequential_mean floored_event sample_world
                  sample_mp_data sample_expsets 5 1 sample_grid []
                  eq_refl Htype eq_refl eq_refl eq_refl Hpos eq_refl) as H.
    cbv zeta in H. destruct H as (_ & _ & _ & _ & _ & _ & Hnone).
    destruct Hnone as (R & _ & _ & Hm).
    + reflexivity.
    + vm_compute. discriminate.
    + intros e [].
    + split; [exact R | exact Hm].
Defined.

(** * Further properties *)

(** ** The strategy extractor *)

Lemma obind_Raise {A B : Type} (c : Outcome A) (k : A -> Outcome B) (e : Exception) :
  obind c k = Raise e -> c = Raise e \/ exists a, c = Return a /\ k a = Raise e.
Proof.
  destruct c as [a|e']; simpl; intros H; [right; eauto | left; congruence].
Qed.

Lemma getitem_Raise {A : Type} (key : string) (o : option A) (e : Exception) :
  getitem key o = Raise e -> o = None /\ e = KeyError key.
Proof. destruct o; simpl; intros H; inversion H; auto. Qed.

Lemma get_exp_data_outcome (expset_dict : ExposureSetDict) :
  match get_exp_data expset_dict with
  | Return exp_data =>
      holds_values expset_dict exp_data
      /\ binning exp_data = 1%Z /\ imgtype exp_data = "SCIENCE"
  | Raise e => is_key_or_overflow e
               /\ (esd_num_exp expset_dict = None \/ esd_exptime expset_dict = None
                   \/ esd_filt expset_dict = None)
  end.
Proof.
  unfold get_exp_data, holds_values.
  destruct expset_dict as [[n|] [t|] [f|]]; simpl; auto 6.
Qed.


Lemma omap_outcome {A B : Type} (f : A -> Outcome B) (l : list A) :
  match omap f l with
  | Return ys => Forall2 (fun x y => f x = Return y) l ys
  | Raise e => exists x, In x l /\ f x = Raise e
  end.
Proof.
  induction l as [|x l IH]; simpl; [constructor|].
  destruct (f x) as [y|e] eqn:E; simpl.
  - destruct (omap f l) as [ys|e]; simpl.
    + now constructor.
    + destruct IH as (x' & Hin & Hx'). eauto.
  - eauto.
Qed.

Lemma omap_get_exp_data_complete (dicts : list ExposureSetDict) :
  match omap get_exp_data dicts with
  | Return expsets =>
      Forall2 holds_values dicts expsets
      /\ Forall (fun e => binning e = 1%Z /\ imgtype e = "SCIENCE") expsets
  | Raise e => is_key_or_overflow e /\ forallb exposure_set_complete dicts = false
  end.
Proof.
  induction dicts as [|d l IH]; simpl; [split; constructor|].
  pose proof (get_exp_data_outcome d) as Hd.
  destruct (get_exp_data d) as [x|e]; simpl.
  - destruct (omap get_exp_data l) as [xs|e]; simpl.
    + destruct Hd as (Hv & Hb), IH as (Hvs & Hbs). split; constructor; auto.
    + destruct IH as (He & Hc). split; [exact He|]. rewrite Hc. apply andb_false_r.
  - destruct Hd as (He & Hnone). split; [exact He|].
    unfold exposure_set_complete.
    destruct Hnone as [->|[->| ->]]; simpl; rewrite ?andb_false_r; reflexivity.
Qed.




(** X2.  What the extractor returns: every MetaPointing is a target of
    opportunity that never expires; the window, the rank, the cadence and
    the constraints are those of the strategy; there is one exposure set
    for each mapping of the strategy, in the same order and with its values,
    and each is a science frame without binning. *)
Theorem get_mpointing_info_copies (event : Event) (mp_data : MpData)
    (expsets : list ExpData) :
  get_mpointing_info event = Return (mp_data, expsets) ->
  let strategy := event_strategy event in
  too mp_data = true
  /\ valid_time mp_data = (-1)%Z
  /\ start_time strategy = Some (mp_start_time mp_data)
  /\ stop_time strategy = Some (mp_stop_time mp_data)
  /\ rank strategy = Some (start_rank mp_data)
  /\ (exists cadence,
         cadence_dict strategy = Some cadence
         /\ cd_num_todo cadence = Some (num_todo mp_data)
         /\ cd_wait_time cadence = Some (wait_time mp_data))
  /\ (exists constraints,
         constraints_dict strategy = Some constraints
         /\ cs_max_sunalt constraints = Some (max_sunalt mp_data)
         /\ cs_min_alt constraints = Some (min_alt mp_data)
         /\ cs_min_moonsep constraints = Some (min_moonsep mp_data)
         /\ cs_max_moon constraints = Some (max_moon mp_data))
  /\ (exists dicts,
         exposure_sets_dict strategy = Some dicts
         /\ Forall2 holds_values dicts expsets)
  /\ Forall (fun e => binning e = 1%Z /\ imgtype e = "SCIENCE") expsets.
Proof.
  intros H strategy. subst strategy. unfold get_mpointing_info in H.
  obind_inv H. apply getitem_Return in E.
  obind_inv H. pose proof (omap_get_exp_data_complete v) as Hd.
  rewrite E0 in Hd. destruct Hd as (Hv & Hb).
  obind_inv H. obind_inv H.
  obind_inv H. apply getitem_Return in E3.
  obind_inv H. apply getitem_Return in E4.
  obind_inv H. apply getitem_Return in E5.
  obind_inv H. apply getitem_Return in E6.
  obind_inv H. apply getitem_Return in E7.
  obind_inv H. apply getitem_Return in E8.
  obind_inv H. apply getitem_Return in E9.
  obind_inv H. apply getitem_Return in E10.
  obind_inv H. apply getitem_Return in E11.
  obind_inv H. apply getitem_Return in E12.
  obind_inv H. apply getitem_Return in E13.
  inversion H; subst; clear H. simpl.
  repeat split; auto.
  - exists v6. auto.
  - exists v9. auto.
  - exists v. auto.
Qed.

(** ** The order of binary64 numbers *)

Lemma SFcompare_antisym (x y : spec_float) :
  SFcompare y x = option_map CompOpp (SFcompare x y).
Proof.
  destruct x as [sx|sx| |sx mx ex], y as [sy|sy| |sy my ey]; simpl;
    try reflexivity;
    try (destruct sx; reflexivity);
    try (destruct sy; reflexivity);
    try (destruct sx, sy; reflexivity).
  pose proof (Pos.compare_cont_antisym mx my Eq) as H. simpl in H.
  destruct sx, sy; simpl; try reflexivity;
    rewrite (Z.compare_antisym ex ey);
    destruct (ex ?= ey)%Z; simpl; try reflexivity;
    rewrite <- H; now rewrite ?CompOpp_involutive.
Qed.

Lemma is_nan_compare (a : float) :
  is_nan a = false -> SFcompare (Prim2SF a) (Prim2SF a) = Some Eq.
Proof.
  unfold is_nan. rewrite eqb_spec. unfold SFeqb.
  destruct (SFcompare (Prim2SF a) (Prim2SF a)) as [[| |]|]; simpl; congruence.
Qed.

Lemma compare_numbers (a b : float) :
  is_nan a = false -> is_nan b = false ->
  exists c, SFcompare (Prim2SF a) (Prim2SF b) = Some c.
Proof.
  intros Ha Hb. apply is_nan_compare in Ha, Hb.
  destruct (Prim2SF a), (Prim2SF b); simpl in *; try discriminate; eauto.
Qed.

Lemma ltb_leb (a b : float) : (a <? b)%float = true -> (a <=? b)%float = true.
Proof.
  rewrite ltb_spec, leb_spec. unfold SFltb, SFleb.
  now destruct (SFcompare (Prim2SF a) (Prim2SF b)) as [[| |]|].
Qed.

Lemma not_ltb_leb (a b : float) :
  is_nan a = false -> is_nan b = false ->
  (a <? b)%float = false -> (b <=? a)%float = true.
Proof.
  intros Ha Hb. rewrite ltb_spec, leb_spec. unfold SFltb, SFleb.
  rewrite (SFcompare_antisym (Prim2SF a) (Prim2SF b)).
  destruct (compare_numbers a b Ha Hb) as (c & ->). now destruct c.
Qed.

Lemma np_less_number (a b : float) :
  is_nan b = false -> np_less a b = (a <? b)%float.
Proof. intros H. unfold np_less. rewrite H. apply orb_false_r. Qed.

(** ** Sorting the table *)

Lemma insert_by_prob_permutation (r : TableRow) (l : list TableRow) :
  Permutation (insert_by_prob r l) (r :: l).
Proof.
  induction l as [|x l IH]; simpl; [reflexivity|].
  destruct (np_less (prob x) (prob r)); [|reflexivity].
  rewrite IH. apply perm_swap.
Qed.

Lemma sort_by_prob_permutation (table : list TableRow) :
  Permutation (sort_by_prob table) table.
Proof.
  induction table as [|r l IH]; simpl; [reflexivity|].
  rewrite insert_by_prob_permutation. now constructor.
Qed.

Lemma sort_reverse_permutation (table : list TableRow) :
  Permutation (sort_reverse table) table.
Proof.
  unfold sort_reverse. rewrite <- Permutation_rev. apply sort_by_prob_permutation.
Qed.

Lemma insert_by_prob_hd (a r : TableRow) (l : list TableRow) :
  HdRel (fun x y => ranks_before y x) a l ->
  ranks_before r a ->
  HdRel (fun x y => ranks_before y x) a (insert_by_prob r l).
Proof.
  intros Hl Hr. destruct l as [|x l]; simpl.
  - now constructor.
  - destruct (np_less (prob x) (prob r)); constructor; [|exact Hr].
    now inversion Hl.
Qed.

Lemma insert_by_prob_sorted (r : TableRow) (l : list TableRow) :
  is_nan (prob r) = false ->
  probs_are_numbers l ->
  Sorted (fun x y => ranks_before y x) l ->
  Sorted (fun x y => ranks_before y x) (insert_by_prob r l).
Proof.
  intros Hr Hl Hs. induction Hs as [|x l Hs IH Hhd]; simpl.
  - repeat constructor.
  - assert (Hx : is_nan (prob x) = false) by (apply Hl; now left).
    rewrite np_less_number by exact Hr.
    destruct (prob x <? prob r)%float eqn:E.
    + constructor.
      * apply IH. intros y Hy. apply Hl. now right.
      * apply insert_by_prob_hd; [exact Hhd|]. unfold ranks_before. now apply ltb_leb.
    + constructor; [now constructor|]. constructor.
      unfold ranks_before. now apply not_ltb_leb.
Qed.

Lemma sort_by_prob_sorted (table : list TableRow) :
  probs_are_numbers table ->
  Sorted (fun x y => ranks_before y x) (sort_by_prob table).
Proof.
  induction table as [|r l IH]; intros H; simpl; [constructor|].
  apply insert_by_prob_sorted.
  - apply H. now left.
  - intros y Hy. apply H. right.
    apply (Permutation_in _ (sort_by_prob_permutation l) Hy).
  - apply IH. intros y Hy. apply H. now right.
Qed.

Lemma Sorted_snoc {A : Type} (R : A -> A -> Prop) (l : list A) (a : A) :
  Sorted R l ->
  (forall x, In x (firstn 1 (rev l)) -> R x a) ->
  Sorted R (l ++ [a]).
Proof.
  intros Hs. induction Hs as [|x l Hs IH Hhd]; simpl; intros Hlast.
  - repeat constructor.
  - constructor.
    + apply IH. intros y Hy. apply Hlast.
      destruct l as [|z l]; [contradiction|].
      simpl in Hy |- *.
      destruct (rev l ++ [z]) as [|w ws] eqn:E.
      * destruct (rev l); discriminate.
      * simpl in Hy |- *. exact Hy.
    + destruct l as [|z l]; simpl.
      * constructor. apply Hlast. simpl. now left.
      * constructor. now inversion Hhd.
Qed.

Lemma Sorted_rev {A : Type} (R : A -> A -> Prop) (l : list A) :
  Sorted (fun x y => R y x) l -> Sorted R (rev l).
Proof.
  intros Hs. induction Hs as [|x l Hs IH Hhd]; simpl; [constructor|].
  apply Sorted_snoc; [exact IH|].
  rewrite rev_involutive. intros y Hy.
  destruct l as [|z l]; [contradiction|].
  simpl in Hy. destruct Hy as [<-|[]]. now inversion Hhd.
Qed.

Lemma sort_reverse_sorted (table : list TableRow) :
  probs_are_numbers table -> Sorted ranks_before (sort_reverse table).
Proof.
  intros H. unfold sort_reverse. apply Sorted_rev. now apply sort_by_prob_sorted.
Qed.

(** X3.  The resolver neither drops nor invents a tile: the full table that it
    stores on the event holds the rows of the grid, each once, in another
    order; every row that it returns is a row of the grid; the returned
    table is the masked table that it stores; and the event is otherwise
    what it was, with its skymap loaded. *)
Theorem resolver_keeps_rows (np_mean : list float -> float) (event : Event)
    (db_grid : db.Grid) :
  let table := map tile_row (skymap_tiles (loaded_skymap event)) in
  let result := get_grid_tiles np_mean event db_grid in
  (exists full, event_full_table (snd result) = Some full /\ Permutation full table)
  /\ event_masked_table (snd result) = Some (fst result)
  /\ incl (fst result) table
  /\ (List.length (fst result) <= List.length table)%nat
  /\ event_skymap (snd result) = Some (loaded_skymap event)
  /\ event_name (snd result) = event_name event
  /\ event_ivorn (snd result) = event_ivorn event
  /\ event_source (snd result) = event_source event
  /\ event_type (snd result) = event_type event
  /\ event_strategy (snd result) = event_strategy event.
Proof.
  intros table result.
  assert (Hincl : exists selected,
            Permutation (fst result) selected /\ incl selected table
            /\ (List.length selected <= List.length table)%nat).
  { subst result. rewrite get_grid_tiles_masked. fold table.
    eexists. split; [apply sort_reverse_permutation|].
    destruct (existsb _ _).
    - split.
      + intros r Hr. apply in_map_iff in Hr. destruct Hr as (t & <- & Ht).
        apply in_map. apply filter_In in Ht. tauto.
      + subst table. rewrite !length_map. apply filter_length_le.
    - split; [|apply filter_length_le].
      intros r Hr. apply filter_In in Hr. tauto. }
  destruct Hincl as (selected & Hp & Hi & Hl).
  split.
  { eexists. split; [reflexivity|]. apply sort_reverse_permutation. }
  split; [reflexivity|].
  split.
  { intros r Hr. apply Hi. apply (Permutation_in _ Hp Hr). }
  split.
  { rewrite (Permutation_length Hp). exact Hl. }
  repeat split.
Qed.

Lemma resolved_table_ranked (np_mean : list float -> float) (event : Event)
    (db_grid : db.Grid) :
  probs_are_numbers (map tile_row (skymap_tiles (loaded_skymap event))) ->
  Sorted ranks_before (fst (get_grid_tiles np_mean event db_grid)).
Proof.
  intros H. rewrite get_grid_tiles_masked. apply sort_reverse_sorted.
  intros r Hr. apply H.
  destruct (existsb _ _).
  - apply in_map_iff in Hr. destruct Hr as (t & <- & Ht).
    apply in_map. apply filter_In in Ht. tauto.
  - apply filter_In in Hr. tauto.
Qed.

(** X4.  When every [prob] of the grid table is a number, both tables are ranked:
    no row has a smaller [prob] than the row after it. *)
Theorem resolver_ranks_rows (np_mean : list float -> float) (event : Event)
    (db_grid : db.Grid) :
  probs_are_numbers (map tile_row (skymap_tiles (loaded_skymap event))) ->
  let result := get_grid_tiles np_mean event db_grid in
  Sorted ranks_before (fst result)
  /\ exists full, event_full_table (snd result) = Some full
                  /\ Sorted ranks_before full.
Proof.
  intros H result. split.
  - now apply resolved_table_ranked.
  - eexists. split; [reflexivity|]. now apply sort_reverse_sorted.
Qed.


(** ** The most probable tiles *)

Lemma SFcompare_key (x y : spec_float) :
  match SFcompare x y with
  | None => x = S754_nan \/ y = S754_nan
  | Some Lt => key_lt (SFkey x) (SFkey y)
  | Some Eq => SFkey x = SFkey y
  | Some Gt => key_lt (SFkey y) (SFkey x)
  end.
Proof.
  destruct x as [sx|sx| |sx mx ex], y as [sy|sy| |sy my ey]; simpl; auto;
    try (destruct sx; unfold key_lt; simpl; try reflexivity; lia);
    try (destruct sy; unfold key_lt; simpl; try reflexivity; lia);
    try (destruct sx, sy; unfold key_lt; simpl; try reflexivity; lia).
  change (Pos.compare_cont Eq mx my) with (Pos.compare mx my).
  destruct sx, sy; unfold key_lt; simpl; try lia;
    destruct (Z.compare_spec ex ey); try lia;
    destruct (Pos.compare_spec mx my); simpl; subst; try reflexivity; lia.
Qed.

Lemma ltb_leb_trans (a b c : float) :
  (a <? b)%float = true -> (b <=? c)%float = true -> (a <? c)%float = true.
Proof.
  rewrite !ltb_spec, leb_spec. unfold SFltb, SFleb.
  pose proof (SFcompare_key (Prim2SF a) (Prim2SF b)) as Hab.
  pose proof (SFcompare_key (Prim2SF b) (Prim2SF c)) as Hbc.
  pose proof (SFcompare_key (Prim2SF a) (Prim2SF c)) as Hac.
  destruct (SFcompare (Prim2SF a) (Prim2SF b)) as [[| |]|] eqn:Eab; try discriminate.
  destruct (SFcompare (Prim2SF b) (Prim2SF c)) as [[| |]|] eqn:Ebc; try discriminate;
    intros _ _;
    (destruct (SFcompare (Prim2SF a) (Prim2SF c)) as [[| |]|] eqn:Eac;
     [ | reflexivity | | ]; exfalso;
     [ | | destruct Hac as [H|H]; rewrite H in *;
           [ destruct (Prim2SF b); discriminate
           | destruct (Prim2SF b) as [?|[]| |[]]; discriminate ] ];
     revert Hab Hbc Hac; unfold key_lt;
     destruct (SFkey (Prim2SF a)) as [a1 [a2 a3]],
              (SFkey (Prim2SF b)) as [b1 [b2 b3]],
              (SFkey (Prim2SF c)) as [c1 [c2 c3]]; simpl;
     intros; try (injection Hbc as -> -> ->); try (injection Hac as -> -> ->); lia).
Qed.

Lemma leb_trans (a b c : float) :
  (a <=? b)%float = true -> (b <=? c)%float = true -> (a <=? c)%float = true.
Proof.
  rewrite !leb_spec. unfold SFleb.
  pose proof (SFcompare_key (Prim2SF a) (Prim2SF b)) as Hab.
  pose proof (SFcompare_key (Prim2SF b) (Prim2SF c)) as Hbc.
  pose proof (SFcompare_key (Prim2SF a) (Prim2SF c)) as Hac.
  destruct (SFcompare (Prim2SF a) (Prim2SF b)) as [[| |]|] eqn:Eab; try discriminate;
  destruct (SFcompare (Prim2SF b) (Prim2SF c)) as [[| |]|] eqn:Ebc; try discriminate;
    intros _ _;
    (destruct (SFcompare (Prim2SF a) (Prim2SF c)) as [[| |]|] eqn:Eac;
     [ reflexivity | reflexivity | | ]; exfalso;
     [ | destruct Hac as [H|H]; rewrite H in *;
           [ destruct (Prim2SF b); discriminate
           | destruct (Prim2SF b) as [?|[]| |[]]; discriminate ] ];
     revert Hab Hbc Hac; unfold key_lt;
     destruct (SFkey (Prim2SF a)) as [a1 [a2 a3]],
              (SFkey (Prim2SF b)) as [b1 [b2 b3]],
              (SFkey (Prim2SF c)) as [c1 [c2 c3]]; simpl;
     intros; try (injection Hab as -> -> ->); try (injection Hbc as -> -> ->); lia).
Qed.

Lemma ranks_before_trans (a b c : TableRow) :
  ranks_before a b -> ranks_before b c -> ranks_before a c.
Proof. unfold ranks_before. intros Hab Hbc. exact (leb_trans _ _ _ Hbc Hab). Qed.

Lemma Sorted_ranked (l : list TableRow) :
  Sorted ranks_before l -> StronglySorted ranks_before l.
Proof. apply Sorted_StronglySorted. exact ranks_before_trans. Qed.

Lemma StronglySorted_app {A : Type} (R : A -> A -> Prop) (l1 l2 : list A) :
  StronglySorted R (l1 ++ l2) ->
  StronglySorted R l1
  /\ forall x y, In x l1 -> In y l2 -> R x y.
Proof.
  induction l1 as [|a l1 IH]; simpl; intros H.
  - split; [constructor | intros x y []].
  - apply StronglySorted_inv in H. destruct H as [Hs Hf].
    destruct (IH Hs) as [Hs1 Hx]. rewrite Forall_forall in Hf. split.
    + constructor; [exact Hs1|]. apply Forall_forall. intros x Hin.
      apply Hf. apply in_or_app. now left.
    + intros x y [<-|Hin] Hy; [|now apply Hx].
      apply Hf. apply in_or_app. now right.
Qed.

Lemma filter_ranked_head (floor : float) (l : list TableRow) :
  StronglySorted ranks_before l ->
  exists n, filter (fun r => (floor <? prob r)%float) l = firstn n l.
Proof.
  induction 1 as [|x l Hs IH Hf]; simpl.
  - now exists 0%nat.
  - destruct (floor <? prob x)%float eqn:E.
    + destruct IH as [n ->]. now exists (S n).
    + exists 0%nat. apply filter_none. intros y Hy.
      rewrite Forall_forall in Hf. specialize (Hf y Hy). unfold ranks_before in Hf.
      destruct (floor <? prob y)%float eqn:Ey; [|reflexivity].
      rewrite (ltb_leb_trans _ _ _ Ey Hf) in E. discriminate.
Qed.

Lemma limit_tiles_head (masked_table : list TableRow) (limit : Z) (floor : float) :
  StronglySorted ranks_before masked_table ->
  exists n, limit_tiles masked_table limit floor = firstn n masked_table.
Proof.
  intros Hs. rewrite limit_tiles_floor.
  assert (Hslice : exists k, slice_to limit masked_table = firstn k masked_table).
  { unfold slice_to. destruct (0 <=? limit)%Z; eauto. }
  destruct Hslice as [k ->].
  destruct (0 <? floor)%float; [|eauto].
  assert (Hk : StronglySorted ranks_before (firstn k masked_table)).
  { rewrite <- (firstn_skipn k masked_table) in Hs.
    now apply StronglySorted_app in Hs. }
  destruct (filter_ranked_head floor _ Hk) as [n ->].
  rewrite firstn_firstn. eauto.
Qed.

(** X6.  The plan takes the most probable tiles.  When every [prob] of the grid
    table is a number, the final table is a head of the ranked table that
    the resolver returns: the rows that the limit on the number of tiles
    and the floor on the probability leave out all come after the rows
    that are kept, and none of them has a higher [prob] than a row that is
    kept. *)
Theorem plan_takes_best_tiles (np_mean : list float -> float) (event : Event)
    (db_grid : db.Grid) (limit : Z) (floor : float) :
  probs_are_numbers (map tile_row (skymap_tiles (loaded_skymap event))) ->
  let masked_table := fst (get_grid_tiles np_mean event db_grid) in
  let tile_table := limit_tiles masked_table limit floor in
  exists dropped,
    masked_table = tile_table ++ dropped
    /\ forall kept r, In kept tile_table -> In r dropped -> ranks_before kept r.
Proof.
  intros Hn masked_table tile_table.
  assert (Hs : StronglySorted ranks_before masked_table).
  { apply Sorted_ranked. now apply resolved_table_ranked. }
  destruct (limit_tiles_head masked_table limit floor Hs) as [n Hhead].
  fold tile_table in Hhead.
  exists (skipn n masked_table). rewrite Hhead. split.
  - symmetry. apply firstn_skipn.
  - rewrite <- (firstn_skipn n masked_table) in Hs.
    now apply StronglySorted_app in Hs.
Qed.

(** ** The deduplication pass, further *)

Lemma Forall2_refl {A : Type} (R : A -> A -> Prop) (l : list A) :
  (forall x, R x x) -> Forall2 R l l.
Proof. intros H. induction l; constructor; auto. Qed.

Lemma Forall2_trans {A : Type} (R : A -> A -> Prop) :
  (forall x y z, R x y -> R y z -> R x z) ->
  forall l1 l2 l3, Forall2 R l1 l2 -> Forall2 R l2 l3 -> Forall2 R l1 l3.
Proof.
  intros Ht l1 l2 l3 H12. revert l3.
  induction H12 as [|x y l1 l2 Hxy H12 IH]; intros l3 H23; inversion H23; subst.
  - constructor.
  - constructor; eauto.
Qed.

Lemma Forall2_map_right {A : Type} (R : A -> A -> Prop) (f : A -> A) (l : list A) :
  (forall x, R x (f x)) -> Forall2 R l (map f l).
Proof. intros H. induction l; simpl; constructor; auto. Qed.

Lemma status_only_mp_trans (x y z : db.Mpointing) :
  status_only_mp x y -> status_only_mp y z -> status_only_mp x z.
Proof.
  unfold status_only_mp. intros [->| ->] [->| ->]; auto.
Qed.

Lemma status_only_pt_trans (x y z : db.Pointing) :
  status_only_pt x y -> status_only_pt y z -> status_only_pt x z.
Proof.
  unfold status_only_pt. intros [->| ->] [->| ->]; auto.
Qed.

Lemma only_deletes_refl (d : db.Database) : only_deletes d d.
Proof.
  unfold only_deletes. repeat split; apply Forall2_refl; intros x; now left.
Qed.

Lemma only_deletes_trans (d1 d2 d3 : db.Database) :
  only_deletes d1 d2 -> only_deletes d2 d3 -> only_deletes d1 d3.
Proof.
  unfold only_deletes.
  intros (E1 & G1 & T1 & S1 & ST1 & U1 & X1 & M1 & P1)
         (E2 & G2 & T2 & S2 & ST2 & U2 & X2 & M2 & P2).
  repeat split; try congruence.
  - exact (Forall2_trans _ status_only_mp_trans _ _ _ M1 M2).
  - exact (Forall2_trans _ status_only_pt_trans _ _ _ P1 P2).
Qed.

Lemma deleted_for_only_deletes (db_event : db.Event) (d : db.Database) :
  only_deletes d (deleted_for db_event d).
Proof.
  unfold only_deletes, deleted_for, mark_pointings, mark_mpointings.
  destruct d; simpl. repeat split.
  - apply Forall2_map_right. intros m. unfold status_only_mp.
    destruct (existsb _ _); auto.
  - apply Forall2_map_right. intros p. unfold status_only_pt.
    destruct (existsb _ _); auto.
Qed.

Lemma fold_deleted_for_only_deletes (l : list db.Event) :
  forall d, only_deletes d (fold_left (fun d e => deleted_for e d) l d).
Proof.
  induction l as [|e l IH]; intros d; simpl.
  - apply only_deletes_refl.
  - eapply only_deletes_trans; [apply deleted_for_only_deletes | apply IH].
Qed.

(** X7.  Whatever the database holds and however the call ends, the
    deduplication pass adds no row and removes none, changes no table but
    those of the MetaPointings and the Pointings, and changes there nothing
    but a status, to [deleted]; it creates no object; and it only adds to
    the log. *)
Theorem remove_previous_events_only_deletes (event : Event) (w : World) :
  let w' := snd (remove_previous_events event w) in
  only_deletes (database w) (database w')
  /\ oid_supply w' = oid_supply w
  /\ exists lg, records w' = records w ++ lg.
Proof.
  destruct (existsb (fun e => String.eqb (db.ev_ivorn e) (event_ivorn event))
              (filter (is_previous event) (db.events (database w)))) eqn:Hdup.
  - rewrite (remove_previous_events_duplicate event w Hdup). simpl.
    split; [apply only_deletes_refl|]. split; [reflexivity|].
    exists []. now rewrite app_nil_r.
  - destruct (filter (is_previous event) (db.events (database w))) as [|e l] eqn:E.
    + destruct (remove_previous_events_new event w E) as [lg ->]. simpl.
      split; [apply only_deletes_refl|]. eauto.
    + destruct (remove_previous_events_update event w) as [lg ->];
        [rewrite E; discriminate | now rewrite E |].
      simpl. split; [apply fold_deleted_for_only_deletes|]. eauto.
Qed.

(** X8.  For an event that the database has not seen (no stored Event with its
    name and source), the call returns, leaves the database as it is and
    logs one line. *)
Theorem remove_previous_events_new_event (event : Event) (w : World) :
  (forall e, In e (db.events (database w)) ->
             db.ev_name e = event_name event -> db.ev_source e <> event_source event) ->
  remove_previous_events event w
  = (Return tt,
     {| database := database w; oid_supply := oid_supply w;
        records := records w
                   ++ [{| levelname := INFO;
                          msg := "Event {} has no previous entry in the database";
                          args := [ArgStr (event_name event)] |}] |}).
Proof.
  intros H.
  assert (E : filter (is_previous event) (db.events (database w)) = []).
  { apply filter_none. intros e He. unfold is_previous.
    destruct (String.eqb (db.ev_name e) (event_name event)) eqn:En; [|reflexivity].
    apply String.eqb_eq in En. simpl. apply String.eqb_neq. now apply H. }
  unfold remove_previous_events, open_session, try_except.
  unfold bind at 1. unfold remove_previous_events_block.
  unfold bind at 1. unfold query_all, bind at 1. simpl.
  fold (is_previous event). rewrite E. unfold emit. simpl.
  rewrite commit_no_insert by reflexivity. reflexivity.
Qed.

Lemma soft_delete_keys (previous : list db.Event) (d : db.Database) :
  map db.mp_id (db.mpointings (soft_delete previous d)) = map db.mp_id (db.mpointings d)
  /\ map db.pt_id (db.pointings (soft_delete previous d)) = map db.pt_id (db.pointings d).
Proof.
  destruct d; simpl. rewrite !map_map. split; apply map_ext; intros x.
  - unfold soft_delete_mpointing. now destruct (_ && _).
  - unfold soft_delete_pointing. now destruct (_ && _).
Qed.

Lemma soft_delete_idempotent (previous : list db.Event) (d : db.Database) :
  soft_delete previous (soft_delete previous d) = soft_delete previous d.
Proof.
  destruct d. unfold soft_delete, with_pointings, with_mpointings; simpl.
  rewrite !map_map. f_equal; apply map_ext; intros x.
  - unfold soft_delete_mpointing.
    destruct (belongs_to previous (db.mp_event x)
              && in_ (db.mp_status x) ["scheduled"; "unscheduled"]) eqn:E.
    + simpl. now rewrite andb_false_r.
    + now rewrite E.
  - unfold soft_delete_pointing.
    destruct (belongs_to previous (db.pt_event x)
              && String.eqb (db.pt_status x) "pending") eqn:E.
    + simpl. now rewrite andb_false_r.
    + now rewrite E.
Qed.

Lemma remove_previous_events_soft_delete (event : Event) (w : World) :
  filter (is_previous event) (db.events (database w)) <> [] ->
  existsb (fun e => String.eqb (db.ev_ivorn e) (event_ivorn event))
          (filter (is_previous event) (db.events (database w))) = false ->
  NoDup (map db.mp_id (db.mpointings (database w))) ->
  NoDup (map db.pt_id (db.pointings (database w))) ->
  fst (remove_previous_events event w) = Return tt
  /\ database (snd (remove_previous_events event w))
     = soft_delete (filter (is_previous event) (db.events (database w))) (database w).
Proof.
  intros Hne Hdup Hm Hp.
  destruct (remove_previous_events_update event w Hne Hdup) as [lg ->]. simpl.
  split; [reflexivity|]. now apply fold_deleted_for.
Qed.

(** X9.  The pass is idempotent: run a second time for the same event on the
    database that the first run left, it returns again and changes nothing
    in the database. *)
Theorem remove_previous_events_twice (event : Event) (w : World) :
  let previous := filter (is_previous event) (db.events (database w)) in
  previous <> [] ->
  (forall e, In e previous -> db.ev_ivorn e <> event_ivorn event) ->
  NoDup (map db.mp_id (db.mpointings (database w))) ->
  NoDup (map db.pt_id (db.pointings (database w))) ->
  let w1 := snd (remove_previous_events event w) in
  fst (remove_previous_events event w1) = Return tt
  /\ database (snd (remove_previous_events event w1)) = database w1.
Proof.
  intros previous Hne Hiv Hm Hp w1.
  assert (Hdup : existsb (fun e => String.eqb (db.ev_ivorn e) (event_ivorn event))
                   previous = false).
  { apply not_true_is_false. intros H. apply existsb_exists in H.
    destruct H as (e & Hin & He). apply String.eqb_eq in He. exact (Hiv e Hin He). }
  destruct (remove_previous_events_soft_delete event w Hne Hdup Hm Hp) as [_ H1].
  fold w1 previous in H1.
  assert (Hev : db.events (database w1) = db.events (database w)).
  { rewrite H1. now destruct (database w). }
  destruct (soft_delete_keys previous (database w)) as [Km Kp].
  destruct (remove_previous_events_soft_delete event w1) as [R2 H2].
  - now rewrite Hev.
  - now rewrite Hev.
  - now rewrite H1, Km.
  - now rewrite H1, Kp.
  - split; [exact R2|]. rewrite H2, Hev. fold previous.
    rewrite H1. apply soft_delete_idempotent.
Qed.

(** ** The lookups of the user and of the grid *)

(** X10.  [get_user] never fails and never writes: it returns a user named
    [goto], either a stored one, in which case the session is left exactly
    as it was, or, when no stored user has that name, a new object with the
    default credentials, which costs one object identity and is not added
    to the session. *)
Theorem get_user_finds_or_creates (s : State) :
  exists db_user n,
    get_user s = (Return db_user, with_oid s n)
    /\ db.username db_user = DEFAULT_USER
    /\ ((In db_user (db.users (view s)) /\ n = next_oid s)
        \/ ((forall u, In u (db.users (view s)) -> db.username u <> DEFAULT_USER)
            /\ db_user = default_user (next_oid s)
            /\ n = S (next_oid s))).
Proof.
  unfold get_user, try_except, db_get_user. unfold bind at 1.
  rewrite query_all_run.
  destruct (filter (fun u => String.eqb (db.username u) DEFAULT_USER)
              (db.users (view s))) as [|u l] eqn:E.
  - exists (default_user (next_oid s)), (S (next_oid s)).
    split; [reflexivity|]. split; [reflexivity|]. right.
    split; [|split; reflexivity].
    intros u Hu Hn.
    assert (Hin : In u (filter (fun u => String.eqb (db.username u) DEFAULT_USER)
                          (db.users (view s)))).
    { apply filter_In. split; [exact Hu|]. now apply String.eqb_eq. }
    now rewrite E in Hin.
  - assert (Hin : In u (filter (fun u => String.eqb (db.username u) DEFAULT_USER)
                          (db.users (view s)))) by (rewrite E; now left).
    apply filter_In in Hin. destruct Hin as [Hin Hn]. apply String.eqb_eq in Hn.
    exists u, (next_oid s). rewrite with_oid_same.
    split; [reflexivity|]. split; [exact Hn|]. left. auto.
Qed.

Lemma last_cons {A : Type} (l : list A) :
  forall x d, last (x :: l) d = last l x.
Proof.
  induction l as [|y l IH]; intros x d; [reflexivity|].
  change (last (x :: y :: l) d) with (last (y :: l) d).
  now rewrite !IH.
Qed.

(** X11.  [get_grid] reads and never writes: with no Grid stored it raises
    [ValueError]; otherwise it returns the Grid that was stored last. *)
Theorem get_grid_takes_latest (s : State) :
  (db.grids (view s) = []
   /\ get_grid s = (Raise (ValueError "No defined Grids found!"), s))
  \/ (exists earlier db_grid,
         db.grids (view s) = earlier ++ [db_grid]
         /\ get_grid s = (Return db_grid, s)).
Proof.
  assert (H : get_grid s
              = match db.grids (view s) with
                | [] => (Raise (ValueError "No defined Grids found!"), s)
                | g :: l => (Return (last l g), s)
                end).
  { unfold get_grid. unfold bind at 1. rewrite query_all_run. rewrite filter_all.
    now destruct (db.grids (view s)). }
  rewrite H. clear H.
  destruct (db.grids (view s)) as [|g l] eqn:E.
  - left. split; reflexivity.
  - right. exists (removelast (g :: l)), (last l g). split; [|reflexivity].
    assert (Hne : g :: l <> []) by discriminate.
    rewrite (app_removelast_last g Hne) at 1.
    f_equal. f_equal. apply last_cons.
Qed.

(** ** What the plan builder stores *)

Lemma extended_refl {A : Type} (l : list A) : extended l l.
Proof. exists []. now rewrite app_nil_r. Qed.

Lemma extended_trans {A : Type} (l1 l2 l3 : list A) :
  extended l1 l2 -> extended l2 l3 -> extended l1 l3.
Proof.
  intros [a ->] [b ->]. exists (a ++ b). now rewrite app_assoc.
Qed.

Lemma extended_app {A : Type} (l added : list A) : extended l (l ++ added).
Proof. now exists added. Qed.

Lemma plan_rows_refl (d : db.Database) : plan_rows d d.
Proof. unfold plan_rows. repeat split; apply extended_refl. Qed.

Lemma plan_rows_trans (d1 d2 d3 : db.Database) :
  plan_rows d1 d2 -> plan_rows d2 d3 -> plan_rows d1 d3.
Proof.
  unfold plan_rows.
  intros (E1 & G1 & T1 & S1 & ST1 & U1 & M1 & X1 & P1)
         (E2 & G2 & T2 & S2 & ST2 & U2 & M2 & X2 & P2).
  repeat split; try congruence; eapply extended_trans; eassumption.
Qed.

Lemma store_plan_rows (o : MpointingObject) (d : db.Database) : plan_rows d (store o d).
Proof.
  unfold plan_rows, store. cbn.
  repeat split; try apply extended_refl; try apply extended_app.
  - destruct (survey_tile o) as [t|]; [|apply extended_refl].
    destruct (existsb _ _); [apply extended_refl | apply extended_app].
  - destruct (user o) as [u|]; [|apply extended_refl].
    destruct (existsb _ _); [apply extended_refl | apply extended_app].
Qed.

Lemma store_all_plan_rows (items : list MpointingObject) :
  forall d, plan_rows d (store_all items d).
Proof.
  unfold store_all. induction items as [|o l IH]; intros d; simpl.
  - apply plan_rows_refl.
  - eapply plan_rows_trans; [apply store_plan_rows | apply IH].
Qed.

Lemma plan_rows_grows (d d' : db.Database) (db_event : db.Event) :
  plan_rows (with_events d (db.events d ++ [db_event])) d' -> grows d d'.
Proof.
  unfold plan_rows, grows. destruct d; cbn.
  intros (E & G & T & S & ST & U & M & X & P).
  repeat split; try assumption. rewrite E. apply extended_app.
Qed.

Lemma grows_refl (d : db.Database) : grows d d.
Proof. unfold grows. repeat split; apply extended_refl. Qed.

Section Keeps.

Variable R : db.Database -> db.Database -> Prop.
Hypothesis R_refl : forall d, R d d.
Hypothesis R_trans : forall d1 d2 d3, R d1 d2 -> R d2 d3 -> R d1 d3.

Lemma keeps_preserves {A : Type} (c : M A) : preserves view c -> keeps R c.
Proof.
  intros H s a s' E. specialize (H s). rewrite E in H. simpl in H.
  rewrite H. apply R_refl.
Qed.

Lemma keeps_bind {A B : Type} (c : M A) (k : A -> M B) :
  keeps R c -> (forall a, keeps R (k a)) -> keeps R (bind c k).
Proof.
  intros Hc Hk s b s'. unfold bind.
  destruct (c s) as [[a|e] s1] eqn:E; [|discriminate].
  intros Ek. eapply R_trans; [exact (Hc s a s1 E) | exact (Hk a s1 b s' Ek)].
Qed.

End Keeps.

Lemma insert_items_keeps (items : list MpointingObject) :
  keeps plan_rows (insert_items items).
Proof.
  intros s a s'. rewrite insert_items_run. intros E. inversion E; subst.
  apply store_all_plan_rows.
Qed.

Lemma session_add_survey_keeps (db_survey : db.Survey) :
  keeps plan_rows (session_add_survey db_survey).
Proof.
  intros s a s' E. inversion E; subst. cbn.
  unfold plan_rows. destruct (view s); cbn.
  repeat split; try apply extended_refl. apply extended_app.
Qed.

Lemma prepare_plan_reads_until_insert (event : Event) (mp_data : MpData)
    (expsets : list ExpData) (db_event : db.Event)
    (tiled : option (db.Grid * db.Survey * list TableRow)) :
  keeps plan_rows (prepare_plan event mp_data expsets db_event tiled).
Proof.
  unfold prepare_plan.
  apply (keeps_bind _ plan_rows_trans).
  { apply (keeps_preserves _ plan_rows_refl), get_user_reads. }
  intros db_user. apply (keeps_bind _ plan_rows_trans).
  { apply (keeps_preserves _ plan_rows_refl).
    destruct tiled as [[[g sv] tt]|].
    - apply preserves_for_fold. intros. apply create_tile_mpointing_reads.
    - apply preserves_bind; [apply create_single_mpointing_reads|].
      intros. apply preserves_ret. }
  intros [ms loc]. apply (keeps_bind _ plan_rows_trans).
  { apply (keeps_preserves _ plan_rows_refl).
    apply preserves_for_update. intros. apply create_children_reads. }
  intros items. apply (keeps_bind _ plan_rows_trans).
  { apply (keeps_preserves _ plan_rows_refl). intro; reflexivity. }
  intros _. apply insert_items_keeps.
Qed.

Lemma vetted_reads {A : Type} (c : M A) :
  preserves committed c -> preserves view c -> vetted c.
Proof.
  intros Hc Hv s a s' E. specialize (Hc s). specialize (Hv s).
  rewrite E in Hc, Hv. simpl in Hc, Hv. rewrite Hv. split.
  - apply plan_rows_refl.
  - now left.
Qed.

Lemma vetted_bind {A B : Type} (c : M A) (k : A -> M B) :
  preserves committed c -> keeps plan_rows c -> (forall a, vetted (k a)) ->
  vetted (bind c k).
Proof.
  intros Hc Hv Hk s b s'. unfold bind.
  destruct (c s) as [[a|e] s1] eqn:E; [|discriminate].
  intros Ek. specialize (Hc s). rewrite E in Hc. simpl in Hc.
  pose proof (Hv s a s1 E) as Hrows.
  destruct (Hk a s1 b s' Ek) as [Hrows' Hcommit].
  split; [exact (plan_rows_trans _ _ _ Hrows Hrows')|].
  rewrite Hc in Hcommit. destruct Hcommit as [H|(s0 & H0 & Hev & C)]; [now left|].
  right. exists s0. split; [exact H0|]. split; [|exact C].
  rewrite Hev. apply Hrows.
Qed.

Lemma vetted_bind_reads {A B : Type} (c : M A) (k : A -> M B) :
  preserves committed c /\ preserves view c -> (forall a, vetted (k a)) ->
  vetted (bind c k).
Proof.
  intros [Hc Hv] Hk. apply vetted_bind; [exact Hc | | exact Hk].
  now apply (keeps_preserves _ plan_rows_refl).
Qed.

Lemma vetted_build_plan (event : Event) (mp_data : MpData) (expsets : list ExpData)
    (db_event : db.Event) (tiled : option (db.Grid * db.Survey * list TableRow)) :
  vetted (build_plan event mp_data expsets db_event tiled).
Proof.
  intros s a s'. unfold build_plan, bind.
  destruct (prepare_plan event mp_data expsets db_event tiled s) as [[[]|e] s0] eqn:E;
    [|discriminate].
  pose proof (prepare_plan_reads_until_insert _ _ _ _ _ s tt s0 E) as Hrows.
  pose proof (prepare_plan_keeps_committed event mp_data expsets db_event tiled s) as Hc.
  rewrite E in Hc. simpl in Hc.
  unfold commit_changes, try_except.
  destruct (commit_outcome s0) as [C|[e C]]; rewrite C; [|discriminate].
  intros H. inversion H; subst. cbn. split; [exact Hrows|].
  right. exists s0. split; [exact Hc|]. split; [apply Hrows|]. now rewrite C.
Qed.

Lemma vetted_after_event (np_mean : list float -> float) (event : Event)
    (s : State) (a : unit) (s' : State) :
  add_to_database_block np_mean event s = (Return a, s') ->
  plan_rows (view (event_added event s)) (view s')
  /\ (committed s' = committed s
      \/ exists s0, committed s0 = committed s
                    /\ db.events (view s0) = db.events (view (event_added event s))
                    /\ fst (commit s0) = Return tt).
Proof.
  unfold add_to_database_block. unfold bind at 1. unfold lift at 1.
  destruct (get_mpointing_info event) as [[mp_data expsets]|e]; [|discriminate].
  unfold bind at 1. unfold new_oid at 1.
  unfold bind at 1. unfold emit at 1.
  unfold bind at 1. unfold session_add_event at 1.
  unfold bind at 1. unfold get_view at 1. unfold set_view at 1.
  cbn [view committed next_oid log].
  match goal with
  | |- ?K ?s1 = _ -> _ => assert (V : vetted K)
  end.
  { destruct (String.eqb (event_type event) "GW_RETRACTION").
    { apply vetted_reads; apply preserves_ret. }
    apply vetted_bind_reads; [split; apply preserves_lift|]. intros tiled.
    destruct tiled; [|apply vetted_build_plan].
    apply vetted_bind_reads; [apply get_grid_reads|]. intros db_grid.
    apply vetted_bind_reads; [split; intro; reflexivity|]. intros _.
    destruct (get_grid_tiles np_mean event db_grid) as [masked_table event'].
    apply vetted_bind_reads; [split; apply preserves_lift|]. intros limit.
    apply vetted_bind_reads; [split; apply preserves_lift|]. intros floor.
    apply vetted_bind_reads; [split; intro; reflexivity|]. intros _.
    unfold add_tiles.
    destruct (limit_tiles masked_table limit floor) as [|tile tiles].
    - apply vetted_reads; preserve.
    - apply vetted_bind_reads; [apply new_oid_keeps_database|]. intros sid.
      apply vetted_bind_reads; [split; intro; reflexivity|]. intros _.
      apply vetted_bind;
        [intro; reflexivity | apply session_add_survey_keeps |].
      intros _. apply vetted_build_plan. }
  intros H. exact (V _ _ _ H).
Qed.

Lemma open_session_returned (block : M unit) (w : World) :
  fst (open_session block w) = Return tt ->
  exists s', block (enter w) = (Return tt, s')
             /\ fst (commit s') = Return tt
             /\ database (snd (open_session block w)) = view s'.
Proof.
  unfold open_session, try_except, bind.
  destruct (block (enter w)) as [[[]|e] s'] eqn:E; [|discriminate].
  destruct (commit_outcome s') as [C|[e C]]; rewrite C; [|discriminate].
  intros _. exists s'. rewrite C. auto.
Qed.

Lemma commit_vets_ivorn (s : State) (db_event : db.Event) :
  fst (commit s) = Return tt ->
  db.events (view s) = db.events (committed s) ++ [db_event] ->
  (forall e, In e (db.events (committed s)) -> db.ev_id e <> db.ev_id db_event) ->
  forall e, In e (db.events (committed s)) -> db.ev_ivorn e <> db.ev_ivorn db_event.
Proof.
  unfold commit. intros C Hv Hid.
  destruct (forallb _ (inserted_events s)) eqn:F; [|discriminate]. clear C.
  rewrite forallb_forall in F.
  assert (Hin : In db_event (inserted_events s)).
  { unfold inserted_events. apply filter_In. split.
    - rewrite Hv. apply in_or_app. right. now left.
    - apply negb_true_iff. apply existsb_false_iff. intros e He.
      apply Nat.eqb_neq. now apply Hid. }
  specialize (F db_event Hin). apply Nat.eqb_eq in F.
  unfold ivorn_count in F. rewrite Hv, filter_app, length_app in F.
  simpl in F. rewrite String.eqb_refl in F. simpl in F.
  intros e He Heq.
  assert (Hf : In e (filter (fun e0 => String.eqb (db.ev_ivorn e0) (db.ev_ivorn db_event))
                       (db.events (committed s)))).
  { apply filter_In. split; [exact He|]. now apply String.eqb_eq. }
  destruct (filter _ (db.events (committed s))); [exact Hf|].
  simpl in F. lia.
Qed.

(** X12.  Whatever the event, the database and the outcome of the call,
    [add_to_database] only adds rows: afterwards every table has the rows
    that it had, unchanged and in their order, with the new rows after
    them, and the Grids and the GridTiles are exactly what they were. *)
Theorem add_to_database_only_adds (np_mean : list float -> float) (event : Event)
    (w : World) :
  grows (database w) (database (snd (add_to_database np_mean event w))).
Proof.
  unfold add_to_database.
  destruct (fst (open_session (add_to_database_block np_mean event) w)) as [[]|e] eqn:R.
  - destruct (open_session_returned _ w R) as (s' & B & _ & ->).
    destruct (vetted_after_event np_mean event _ _ _ B) as [Hrows _].
    exact (plan_rows_grows _ _ _ Hrows).
  - rewrite (open_session_settled _ w (add_to_database_block_settled np_mean event) e R).
    apply grows_refl.
Qed.

(** X13.  A call that returns has stored one Event, the row made of the fields
    of the event, after the Events that were stored.  And it has returned
    only because no stored Event carried the ivorn of the event (the
    identity given to the new row being one that no stored Event has). *)
Theorem add_to_database_stores_event (np_mean : list float -> float) (event : Event)
    (w : World) :
  fst (add_to_database np_mean event w) = Return tt ->
  db.events (database (snd (add_to_database np_mean event w)))
  = db.events (database w) ++ [event_row (oid_supply w) event]
  /\ (next_oid_is_free w -> ivorn_is_new event (database w)).
Proof.
  unfold add_to_database. intros R.
  destruct (open_session_returned _ w R) as (s' & B & C & ->).
  destruct (vetted_after_event np_mean event _ _ _ B) as [Hrows Hcommit].
  assert (Hev : db.events (view s')
                = db.events (database w) ++ [event_row (oid_supply w) event]).
  { destruct Hrows as [-> _]. reflexivity. }
  split; [exact Hev|].
  intros Hfree. unfold ivorn_is_new.
  change (event_ivorn event) with (db.ev_ivorn (event_row (oid_supply w) event)).
  change (database w) with (committed (enter w)).
  destruct Hcommit as [Hc|(s0 & Hc & Hv & C0)].
  - rewrite <- Hc. apply (commit_vets_ivorn s' _ C).
    + rewrite Hc. exact Hev.
    + rewrite Hc. exact Hfree.
  - rewrite <- Hc. apply (commit_vets_ivorn s0 _ C0).
    + rewrite Hc, Hv. reflexivity.
    + rewrite Hc. exact Hfree.
Qed.

(** X14.  Once [add_to_database] has returned for an event, the deduplication
    pass refuses the same event: [remove_previous_events] raises the error
    of the duplicate ivorn, and leaves the database, the log and the
    identities as they are. *)
Theorem stored_event_is_refused (np_mean : list float -> float) (event : Event)
    (w : World) :
  fst (add_to_database np_mean event w) = Return tt ->
  let w' := snd (add_to_database np_mean event w) in
  remove_previous_events event w' = (Raise (duplicate_ivorn (event_ivorn event)), w').
Proof.
  intros R. cbv zeta. unfold add_to_database in *.
  destruct (open_session_returned _ w R) as (s' & B & C & Hd).
  destruct (vetted_after_event np_mean event _ _ _ B) as [[Hev _] _].
  apply remove_previous_events_duplicate.
  apply existsb_exists. exists (event_row (oid_supply w) event). split.
  - apply filter_In. split.
    + rewrite Hd, Hev. cbn. apply in_or_app. right. now left.
    + unfold is_previous. cbn. now rewrite !String.eqb_refl.
  - cbn. apply String.eqb_refl.
Qed.

(** ** The paths of the plan builder *)

(** The block up to the test on the type of the event, for an event that
    is no retraction and whose strategy the extractor accepts. *)
Ltac run_to_plan Hinfo Htype :=
  unfold add_to_database_block; unfold bind at 1; unfold lift at 1; rewrite Hinfo;
  unfold bind at 1; unfold new_oid at 1;
  unfold bind at 1; unfold emit at 1;
  unfold bind at 1; unfold session_add_event at 1;
  unfold bind at 1; unfold get_view at 1; unfold set_view at 1;
  cbn [view committed next_oid log];
  rewrite (proj2 (String.eqb_neq _ _) Htype).

Lemma block_without_key (np_mean : list float -> float) (event : Event)
    (mp_data : MpData) (expsets : list ExpData) (s : State) :
  get_mpointing_info event = Return (mp_data, expsets) ->
  event_type event <> "GW_RETRACTION" ->
  on_grid (event_strategy event) = None ->
  add_to_database_block np_mean event s
  = (Raise (KeyError "on_grid"), event_added event s).
Proof.
  intros Hinfo Htype Hgrid. run_to_plan Hinfo Htype.
  unfold bind at 1. unfold lift at 1. rewrite Hgrid. reflexivity.
Qed.

Lemma block_without_grid (np_mean : list float -> float) (event : Event)
    (mp_data : MpData) (expsets : list ExpData) (s : State) :
  get_mpointing_info event = Return (mp_data, expsets) ->
  event_type event <> "GW_RETRACTION" ->
  on_grid (event_strategy event) = Some true ->
  db.grids (view s) = [] ->
  add_to_database_block np_mean event s
  = (Raise (ValueError "No defined Grids found!"), event_added event s).
Proof.
  intros Hinfo Htype Hgrid Hg. run_to_plan Hinfo Htype.
  unfold bind at 1. unfold lift at 1. rewrite Hgrid. cbn [getitem].
  unfold bind at 1. unfold get_grid at 1. unfold bind at 1.
  rewrite query_all_run. cbn [view with_events db.grids].
  rewrite filter_all, Hg. reflexivity.
Qed.

(** From there to the reading of [tile_limit], for a tiled plan. *)
Ltac run_to_limits Hgrid Hg :=
  unfold bind at 1; unfold lift at 1; rewrite Hgrid; cbn [getitem];
  unfold bind at 1; unfold get_grid at 1; unfold bind at 1;
  rewrite query_all_run; cbn [view with_events db.grids];
  rewrite filter_all, Hg; unfold ret at 1;
  unfold bind at 1; unfold emit at 1; cbn [view committed next_oid log].

Lemma block_without_tile_limit (np_mean : list float -> float) (event : Event)
    (mp_data : MpData) (expsets : list ExpData) (s : State)
    (g0 : db.Grid) (gs : list db.Grid) :
  get_mpointing_info event = Return (mp_data, expsets) ->
  event_type event <> "GW_RETRACTION" ->
  on_grid (event_strategy event) = Some true ->
  db.grids (view s) = g0 :: gs ->
  tile_limit (event_strategy event) = None ->
  fst (add_to_database_block np_mean event s) = Raise (KeyError "tile_limit").
Proof.
  intros Hinfo Htype Hgrid Hg Hlimit. run_to_plan Hinfo Htype.
  run_to_limits Hgrid Hg.
  assert (Hs : event_strategy (snd (get_grid_tiles np_mean event (last gs g0)))
               = event_strategy event) by reflexivity.
  destruct (get_grid_tiles np_mean event (last gs g0)) as [masked_table event'].
  cbn [snd] in Hs. rewrite Hs, Hlimit. reflexivity.
Qed.

Lemma block_without_prob_limit (np_mean : list float -> float) (event : Event)
    (mp_data : MpData) (expsets : list ExpData) (s : State)
    (g0 : db.Grid) (gs : list db.Grid) (limit : Z) :
  get_mpointing_info event = Return (mp_data, expsets) ->
  event_type event <> "GW_RETRACTION" ->
  on_grid (event_strategy event) = Some true ->
  db.grids (view s) = g0 :: gs ->
  tile_limit (event_strategy event) = Some limit ->
  prob_limit (event_strategy event) = None ->
  fst (add_to_database_block np_mean event s) = Raise (KeyError "prob_limit").
Proof.
  intros Hinfo Htype Hgrid Hg Hlimit Hfloor. run_to_plan Hinfo Htype.
  run_to_limits Hgrid Hg.
  assert (Hs : event_strategy (snd (get_grid_tiles np_mean event (last gs g0)))
               = event_strategy event) by reflexivity.
  destruct (get_grid_tiles np_mean event (last gs g0)) as [masked_table event'].
  cbn [snd] in Hs. rewrite Hs, Hlimit, Hfloor. reflexivity.
Qed.

Lemma raised_and_dropped (np_mean : list float -> float) (event : Event) (w : World)
    (e : Exception) :
  fst (add_to_database_block np_mean event (enter w)) = Raise e ->
  fst (add_to_database np_mean event w) = Raise e
  /\ database (snd (add_to_database np_mean event w)) = database w.
Proof.
  intros H.
  assert (R : fst (add_to_database np_mean event w) = Raise e).
  { unfold add_to_database.
    destruct (add_to_database_block np_mean event (enter w)) as [r s'] eqn:B.
    simpl in H. subst r. now rewrite (open_session_raises _ w e s' B). }
  split; [exact R|].
  exact (open_session_settled _ w (add_to_database_block_settled np_mean event) e R).
Qed.

(** X15.  A tiled plan needs a Grid: when the database holds none, the call
    raises the [ValueError] of [get_grid]; the Event that it had added to
    the session is dropped with the session, so that the database is what
    it was, and what remains of the call is the identity that the Event
    took and one line of the log. *)
Theorem add_to_database_without_grid (np_mean : list float -> float) (event : Event)
    (w : World) (mp_data : MpData) (expsets : list ExpData) :
  get_mpointing_info event = Return (mp_data, expsets) ->
  event_type event <> "GW_RETRACTION" ->
  on_grid (event_strategy event) = Some true ->
  db.grids (database w) = [] ->
  add_to_database np_mean event w
  = (Raise (ValueError "No defined Grids found!"),
     {| database := database w;
        oid_supply := S (oid_supply w);
        records := records w ++ [{| levelname := DEBUG;
                                    msg := "Adding Event to database";
                                    args := [] |}] |}).
Proof.
  intros Hinfo Htype Hgrid Hg. unfold add_to_database.
  rewrite (open_session_raises _ w _ _
             (block_without_grid np_mean event mp_data expsets (enter w)
                Hinfo Htype Hgrid Hg)).
  reflexivity.
Qed.

(** X16.  Beyond the keys of the extractor, the builder reads [on_grid] and, for
    a tiled plan, [tile_limit] and then [prob_limit], the two only once a
    Grid is found.  When the first of them that it reads is missing, the
    call raises [KeyError] with the name of that key, and the database is
    what it was. *)
Theorem add_to_database_missing_key (np_mean : list float -> float) (event : Event)
    (w : World) (mp_data : MpData) (expsets : list ExpData) :
  get_mpointing_info event = Return (mp_data, expsets) ->
  event_type event <> "GW_RETRACTION" ->
  let result := add_to_database np_mean event w in
  let missing key :=
    fst result = Raise (KeyError key) /\ database (snd result) = database w in
  (on_grid (event_strategy event) = None -> missing "on_grid")
  /\ (on_grid (event_strategy event) = Some true -> db.grids (database w) <> [] ->
      (tile_limit (event_strategy event) = None -> missing "tile_limit")
      /\ (tile_limit (event_strategy event) <> None ->
          prob_limit (event_strategy event) = None -> missing "prob_limit")).
Proof.
  intros Hinfo Htype. cbv zeta. split.
  - intros Hgrid. apply raised_and_dropped.
    now rewrite (block_without_key np_mean event mp_data expsets (enter w)).
  - intros Hgrid Hg.
    destruct (db.grids (database w)) as [|g0 gs] eqn:G; [congruence|].
    split.
    + intros H. apply raised_and_dropped.
      exact (block_without_tile_limit np_mean event mp_data expsets (enter w) g0 gs
               Hinfo Htype Hgrid G H).
    + intros H H'. apply raised_and_dropped.
      destruct (tile_limit (event_strategy event)) as [limit|] eqn:L; [|congruence].
      exact (block_without_prob_limit np_mean event mp_data expsets (enter w) g0 gs
               limit Hinfo Htype Hgrid G L H').
Qed.

(** X17.  When a tile of the final table has its name on more than one tile of
    the grid, the query for the GridTile fails: the call raises
    [MultipleResultsFound], and neither the Event nor the Survey nor any
    MetaPointing is stored. *)
Theorem add_to_database_ambiguous_tile (np_mean : list float -> float) (event : Event)
    (w : World) (mp_data : MpData) (expsets : list ExpData)
    (limit : Z) (floor : float) (g0 : db.Grid) (gs : list db.Grid) :
  get_mpointing_info event = Return (mp_data, expsets) ->
  event_type event <> "GW_RETRACTION" ->
  on_grid (event_strategy event) = Some true ->
  tile_limit (event_strategy event) = Some limit ->
  prob_limit (event_strategy event) = Some floor ->
  db.grids (database w) = g0 :: gs ->
  let db_grid := last gs g0 in
  let tile_table :=
    limit_tiles (fst (get_grid_tiles np_mean event db_grid)) limit floor in
  (exists tile,
      In tile tile_table
      /\ (1 < List.length (grid_tiles_named db_grid (database w) tile))%nat) ->
  fst (add_to_database np_mean event w) = Raise MultipleResultsFound
  /\ database (snd (add_to_database np_mean event w)) = database w.
Proof.
  intros Hinfo Htype Hgrid Hlimit Hfloor Hg db_grid tile_table Hbad.
  apply raised_and_dropped.
  pose proof (block_tiled np_mean event mp_data expsets limit floor
                Hinfo Htype Hgrid Hlimit Hfloor (enter w) g0 gs Hg) as B.
  cbv zeta in B. fold db_grid tile_table in B. rewrite B. clear B.
  destruct tile_table as [|tile tiles] eqn:T.
  { destruct Hbad as (t & [] & _). }
  rewrite add_tiles_survey. unfold build_plan.
  match goal with
  | |- fst (bind (prepare_plan ?ev ?mp ?es ?de (Some (?g, ?sv, ?tt))) _ ?s1) = _ =>
      destruct (prepare_plan_ambiguous ev mp es de g sv tt s1) as (s' & E)
  end.
  { destruct Hbad as (t & Hin & Hlen). exists t. split; [exact Hin|].
    exact Hlen. }
  unfold bind. now rewrite E.
Qed.

Lemma plan_children (event : Event) (expsets : list ExpData) (tiles : list TableRow)
    (made items : list MpointingObject) :
  Forall2 (for_tile event) tiles made ->
  Forall2 (with_children expsets) made items ->
  Forall2 first_pointing_of (map row items) (List.concat (map pointings items))
  /\ map db.es_data (List.concat (map exposure_sets items))
     = List.concat (map (fun _ => expsets) tiles)
  /\ Forall (fun m => db.mp_ra m = None /\ db.mp_dec m = None) (map row items).
Proof.
  intros Hf. revert items. induction Hf as [|tile o tiles made Ho Hf IH];
    intros items Hc; inversion Hc as [|? o' ? items' Ho' Hc']; subst; simpl.
  - repeat split; constructor.
  - destruct Ho as (_ & Hra & Hdec & Hes & Hpt).
    destruct Ho' as (Hr & _ & _ & Hes' & p & Hp & Hst & Hmp).
    destruct (IH items' Hc') as (IHp & IHe & IHc).
    rewrite Hpt in Hp. simpl in Hp. rewrite Hes in Hes'. simpl in Hes'.
    split; [|split].
    + rewrite Hp. simpl. constructor; [|exact IHp].
      split; [now rewrite Hr | exact Hst].
    + rewrite map_app, Hes', IHe. reflexivity.
    + constructor; [|exact IHc]. now rewrite Hr.
Qed.

(** X18.  What a tiled call that returns has stored besides the Event, the final
    table not being empty: one Survey, named after the event and linked to
    the Grid and to the new Event; and, as the only new MetaPointings,
    Pointings and ExposureSets, a MetaPointing for each tile, without
    coordinates of its own, exactly one Pointing for each of these
    MetaPointings, pending and linked to it, and for each tile one
    ExposureSet for each specification of the strategy, in their order. *)
Theorem tiled_plan_stored (np_mean : list float -> float) (event : Event)
    (w : World) (mp_data : MpData) (expsets : list ExpData)
    (limit : Z) (floor : float) (g0 : db.Grid) (gs : list db.Grid) :
  get_mpointing_info event = Return (mp_data, expsets) ->
  event_type event <> "GW_RETRACTION" ->
  on_grid (event_strategy event) = Some true ->
  tile_limit (event_strategy event) = Some limit ->
  prob_limit (event_strategy event) = Some floor ->
  db.grids (database w) = g0 :: gs ->
  let d := database w in
  let db_grid := last gs g0 in
  let tile_table :=
    limit_tiles (fst (get_grid_tiles np_mean event db_grid)) limit floor in
  let d' := database (snd (add_to_database np_mean event w)) in
  tile_table <> [] ->
  fst (add_to_database np_mean event w) = Return tt ->
  db.surveys d'
  = db.surveys d
    ++ [survey_row (S (oid_supply w)) event (event_row (oid_supply w) event) db_grid]
  /\ exists ms pts ess,
       db.mpointings d' = db.mpointings d ++ ms
       /\ db.pointings d' = db.pointings d ++ pts
       /\ db.exposure_sets d' = db.exposure_sets d ++ ess
       /\ List.length ms = List.length tile_table
       /\ Forall (fun m => db.mp_ra m = None /\ db.mp_dec m = None) ms
       /\ Forall2 first_pointing_of ms pts
       /\ map db.es_data ess = List.concat (map (fun _ => expsets) tile_table).
Proof.
  intros Hinfo Htype Hgrid Hlimit Hfloor Hg d db_grid tile_table d' Hne.
  pose proof (block_tiled np_mean event mp_data expsets limit floor
                Hinfo Htype Hgrid Hlimit Hfloor (enter w) g0 gs Hg) as B.
  cbv zeta in B. fold db_grid tile_table in B.
  set (event' := with_tile_table (snd (get_grid_tiles np_mean event db_grid)) tile_table)
    in B.
  set (db_event := event_row (next_oid (enter w)) event) in B.
  set (s2 := tiles_listed event db_grid tile_table (enter w)) in B.
  subst d'. unfold add_to_database.
  destruct (add_tiles_cases event' mp_data expsets db_event db_grid tile_table s2 Hne)
    as [(made & items & n & A & Hf & Hc)|(e & s' & A)].
  - rewrite <- B in A.
    rewrite (open_session_returns _ w _ A) by (now apply commit_no_insert).
    cbn [fst snd database plan_committed view]. intros _.
    destruct (store_all_tables items (view (survey_added event' db_event db_grid s2)))
      as (_ & _ & _ & -> & -> & -> & ->).
    destruct (plan_children event' expsets tile_table made items Hf Hc)
      as (Hp & He & Hn).
    split; [reflexivity|].
    exists (map row items), (List.concat (map pointings items)),
      (List.concat (map exposure_sets items)).
    repeat split; try assumption.
    rewrite length_map. rewrite <- (Forall2_length Hc). symmetry.
    exact (Forall2_length Hf).
  - rewrite <- B in A. rewrite (open_session_raises _ w e s' A). discriminate.
Qed.

(** X19.  The plan of a single pointing is never stored: whatever the event and
    the database, when the strategy says [on_grid] false the call ends in
    [UnboundLocalError] for [db_grid_tile], a variable that only the loop
    over the tiles assigns, and the database is what it was. *)
Theorem single_pointing_plan_fails (np_mean : list float -> float) (event : Event)
    (w : World) (mp_data : MpData) (expsets : list ExpData) :
  get_mpointing_info event = Return (mp_data, expsets) ->
  event_type event <> "GW_RETRACTION" ->
  on_grid (event_strategy event) = Some false ->
  fst (add_to_database np_mean event w) = Raise (UnboundLocalError "db_grid_tile")
  /\ database (snd (add_to_database np_mean event w)) = database w.
Proof. apply untiled_path_raises. Qed.

(** ** The links of the first Pointings *)

Lemma last_default {A : Type} (l : list A) (d d' : A) :
  l <> [] -> last l d = last l d'.
Proof.
  induction l as [|x l IH]; [congruence|]. intros _.
  destruct l as [|y l]; [reflexivity|].
  change (last (y :: l) d = last (y :: l) d'). apply IH. discriminate.
Qed.

Lemma allocates_and {A : Type} (c : M A) (s : State) (Q R : A -> Prop) :
  allocates c s Q -> allocates c s R -> allocates c s (fun a => Q a /\ R a).
Proof.
  intros (a & n & E & Ha) (b & m & E' & Hb).
  assert (Hab : a = b) by congruence. subst b.
  exists a, n. auto.
Qed.

Lemma allocates_create_tile_mpointing_links (event : Event) (mp_data : MpData)
    (db_event : db.Event) (db_grid : db.Grid) (db_survey : db.Survey)
    (db_user : db.User) (acc : list MpointingObject) (locals : Locals)
    (tile : TableRow) (s : State) :
  (List.length (grid_tiles_named db_grid (view s) tile) <= 1)%nat ->
  allocates
    (create_tile_mpointing event mp_data db_event db_grid db_survey db_user
       (acc, locals) tile)
    s
    (fun r => exists o, fst r = acc ++ [o] /\ locals_of (row o) (snd r)).
Proof.
  intros Hone. unfold create_tile_mpointing.
  eapply allocates_bind; [apply allocates_query_all|]. intros found n ->.
  eapply allocates_bind; [apply allocates_one_or_none; exact Hone|].
  intros grid_tile m ->.
  eapply allocates_bind; [apply allocates_new_oid|]. intros id k _.
  eapply allocates_bind; [apply allocates_new_mpointing|].
  intros o j _.
  apply allocates_ret. cbn [fst snd].
  eexists. split; [reflexivity|].
  eexists _, _. split; [reflexivity|]. split; reflexivity.
Qed.

Lemma allocates_tile_loop_links (event : Event) (mp_data : MpData)
    (db_event : db.Event) (db_grid : db.Grid) (db_survey : db.Survey)
    (db_user : db.User) (s : State) :
  forall (tiles : list TableRow) (acc : list MpointingObject) (locals : Locals) (n : oid),
    tiles <> [] ->
    (forall tile, In tile tiles ->
       (List.length (grid_tiles_named db_grid (view s) tile) <= 1)%nat) ->
    allocates
      (for_fold tiles
         (create_tile_mpointing event mp_data db_event db_grid db_survey db_user)
         (acc, locals))
      (with_oid s n)
      (fun r => forall m0, locals_of (last (map row (fst r)) m0) (snd r)).
Proof.
  induction tiles as [|tile tiles IH]; intros acc locals n Hne Hone; [congruence|].
  simpl. eapply allocates_bind.
  - apply allocates_create_tile_mpointing_links. apply Hone. now left.
  - intros [acc' locals'] m (o & Hacc & Hl). cbn [fst snd] in Hacc, Hl. subst acc'.
    destruct tiles as [|tile' tiles].
    + simpl. apply allocates_ret. cbn [fst snd]. intros m0.
      rewrite map_app. simpl. now rewrite last_last.
    + apply (IH (acc ++ [o]) locals' m); [discriminate|].
      intros t Ht. apply Hone. now right.
Qed.

Lemma allocates_create_children_links (expsets : list ExpData) (db_event : db.Event)
    (locals : Locals) (m : db.Mpointing) (o : MpointingObject) (s : State) :
  locals_of m locals ->
  allocates (create_children expsets db_event locals o) s (gets_pointing m o).
Proof.
  intros (gt0 & st0 & -> & Hg & Hst). unfold create_children.
  eapply allocates_bind; [apply allocates_create_exposure_sets|].
  intros o1 n (Hr & Hp & He & Hu & Ht).
  eapply allocates_bind; [apply allocates_get_next_pointing|].
  intros p k Hs. cbn [db_grid_tile db_survey_tile].
  eapply allocates_bind; [apply allocates_read_local|]. intros gt i ->.
  eapply allocates_bind; [apply allocates_read_local|]. intros st j ->.
  apply allocates_ret. unfold gets_pointing, linked_like.
  cbn [append_pointing pointings]. rewrite Hp.
  eexists. split; [reflexivity|]. simpl. now rewrite Hg, Hst.
Qed.

Lemma allocates_children_loop_links (expsets : list ExpData) (db_event : db.Event)
    (locals : Locals) (m : db.Mpointing) :
  locals_of m locals ->
  forall (l : list MpointingObject) (s : State),
    allocates (for_update l (create_children expsets db_event locals)) s
      (Forall2 (gets_pointing m) l).
Proof.
  intros Hb. induction l as [|o l IH]; intros s; simpl.
  - apply allocates_ret. constructor.
  - eapply allocates_bind;
      [exact (allocates_create_children_links expsets db_event locals m o s Hb)|].
    intros o' n Ho. eapply allocates_bind; [apply IH|].
    intros l' k Hl. apply allocates_ret. now constructor.
Qed.

Lemma with_children_rows (expsets : list ExpData) (made items : list MpointingObject) :
  Forall2 (with_children expsets) made items -> map row items = map row made.
Proof.
  induction 1 as [|o o' made items Ho Hc IH]; simpl; [reflexivity|].
  destruct Ho as (-> & _). now rewrite IH.
Qed.

Lemma first_pointings_linked (event : Event) (m : db.Mpointing)
    (tiles : list TableRow) (made items : list MpointingObject) :
  Forall2 (for_tile event) tiles made ->
  Forall2 (gets_pointing m) made items ->
  Forall (linked_like m) (List.concat (map pointings items)).
Proof.
  intros Hf. revert items. induction Hf as [|tile o tiles made Ho Hf IH];
    intros items Hg; inversion Hg as [|? o' ? items' Ho' Hg']; subst; simpl.
  - constructor.
  - destruct Ho as (_ & _ & _ & _ & Hpt). destruct Ho' as (p & Hp & Hl).
    rewrite Hpt in Hp. rewrite Hp. simpl. constructor; [exact Hl | now apply IH].
Qed.

Lemma prepare_plan_tiled_links (event : Event) (mp_data : MpData)
    (expsets : list ExpData) (db_event : db.Event) (db_grid : db.Grid)
    (db_survey : db.Survey) (tiles : list TableRow) (s : State) :
  tiles <> [] ->
  (forall tile, In tile tiles ->
     (List.length (grid_tiles_named db_grid (view s) tile) <= 1)%nat) ->
  exists items n,
    prepare_plan event mp_data expsets db_event (Some (db_grid, db_survey, tiles)) s
    = (Return tt, plan_stored items n s)
    /\ forall m0, Forall (linked_like (last (map row items) m0))
                    (List.concat (map pointings items)).
Proof.
  intros Hne Hone. unfold prepare_plan.
  destruct (allocates_get_user s) as (db_user & n1 & E1 & _).
  unfold bind at 1. rewrite E1.
  destruct (allocates_and _ _ _ _
              (allocates_tile_loop event mp_data db_event db_grid db_survey db_user s
                 tiles [] {| db_grid_tile := None; db_survey_tile := None |} n1 Hone)
              (allocates_tile_loop_links event mp_data db_event db_grid db_survey
                 db_user s tiles []
                 {| db_grid_tile := None; db_survey_tile := None |} n1 Hne Hone))
    as ([made locals] & n2 & E2 & ((l & Hl & Hf) & Hb) & Hlast).
  simpl in Hl. subst l. cbn [fst snd] in Hb, Hlast.
  unfold bind at 1. rewrite E2.
  assert (Hmade : map row made <> []).
  { destruct Hf; [congruence | discriminate]. }
  destruct (map row made) as [|r0 rows] eqn:Hrows; [congruence|].
  destruct (allocates_and _ _ _ _
              (allocates_children_loop expsets db_event locals (Hb (or_introl Hne))
                 made (with_oid (with_oid s n1) n2))
              (allocates_children_loop_links expsets db_event locals _
                 (Hlast r0) made (with_oid (with_oid s n1) n2)))
    as (items & n3 & E3 & Hc & Hg).
  unfold bind at 1. rewrite E3.
  unfold bind at 1. unfold emit at 1. rewrite insert_items_run.
  exists items, n3. split; [reflexivity|].
  intros m0. rewrite (with_children_rows _ _ _ Hc), Hrows.
  rewrite (last_default (r0 :: rows) m0 r0) by discriminate.
  exact (first_pointings_linked event _ tiles made items Hf Hg).
Qed.

(** X20.  Every first Pointing of a tiled plan is linked to the tiles of the
    last MetaPointing.  Whenever a tiled call returns, the Pointings that
    it has stored all carry one and the same link to a GridTile and one and
    the same link to a SurveyTile: those of the MetaPointing that was made
    last, for the last tile of the final table, whichever MetaPointing the
    Pointing belongs to. *)
Theorem pointings_linked_to_last_tile (np_mean : list float -> float) (event : Event)
    (w : World) (mp_data : MpData) (expsets : list ExpData)
    (limit : Z) (floor : float) (g0 : db.Grid) (gs : list db.Grid) :
  get_mpointing_info event = Return (mp_data, expsets) ->
  event_type event <> "GW_RETRACTION" ->
  on_grid (event_strategy event) = Some true ->
  tile_limit (event_strategy event) = Some limit ->
  prob_limit (event_strategy event) = Some floor ->
  db.grids (database w) = g0 :: gs ->
  fst (add_to_database np_mean event w) = Return tt ->
  let d := database w in
  let d' := database (snd (add_to_database np_mean event w)) in
  exists ms pts,
    db.mpointings d' = db.mpointings d ++ ms
    /\ db.pointings d' = db.pointings d ++ pts
    /\ forall m0, Forall (linked_like (last ms m0)) pts.
Proof.
  intros Hinfo Htype Hgrid Hlimit Hfloor Hg R d d'.
  pose proof (block_tiled np_mean event mp_data expsets limit floor
                Hinfo Htype Hgrid Hlimit Hfloor (enter w) g0 gs Hg) as B.
  cbv zeta in B.
  set (db_grid := last gs g0) in *.
  set (tile_table :=
         limit_tiles (fst (get_grid_tiles np_mean event db_grid)) limit floor) in *.
  set (event' := with_tile_table (snd (get_grid_tiles np_mean event db_grid)) tile_table)
    in B.
  set (db_event := event_row (next_oid (enter w)) event) in B.
  set (s2 := tiles_listed event db_grid tile_table (enter w)) in B.
  subst d'. unfold add_to_database in *.
  destruct tile_table as [|tile tiles] eqn:T.
  - destruct (add_tiles event' mp_data expsets db_event db_grid [] s2)
      as [[[]|e] s'] eqn:A.
    + pose proof (proj2 (add_tiles_none_reads event' mp_data expsets db_event db_grid)
                    s2) as Hv.
      rewrite A in Hv. cbn [snd] in Hv.
      destruct (commit_outcome s') as [C|[e C]].
      * rewrite (open_session_returns _ w s' B C). cbn [fst snd database].
        exists [], []. rewrite Hv, !app_nil_r. repeat split. constructor.
      * rewrite (open_session_commit_fails _ w e s' B C) in R. discriminate.
    + rewrite (open_session_raises _ w e s' B) in R. discriminate.
  - rewrite add_tiles_survey in B. unfold build_plan in B.
    set (s1 := survey_added event' db_event db_grid s2) in B.
    set (db_survey := survey_row (next_oid s2) event' db_event db_grid) in B.
    destruct (tiles_resolve_dec db_grid (view s1) (tile :: tiles)) as [Hone|Hbad].
    + destruct (prepare_plan_tiled_links event' mp_data expsets db_event db_grid
                  db_survey (tile :: tiles) s1) as (items & n & E & Hl);
        [discriminate | exact Hone |].
      unfold bind in B. rewrite E in B. unfold commit_changes, try_except in B.
      destruct (commit_outcome (plan_stored items n s1)) as [C|[e C]]; rewrite C in B.
      * rewrite (open_session_returns _ w _ B) by (now apply commit_no_insert).
        cbn [fst snd database view plan_stored].
        destruct (store_all_tables items (view s1)) as (_ & _ & _ & _ & -> & _ & ->).
        exists (map row items), (List.concat (map pointings items)).
        repeat split. exact Hl.
      * cbn in B. rewrite (open_session_raises _ w e _ B) in R. discriminate.
    + destruct (prepare_plan_ambiguous event' mp_data expsets db_event db_grid
                  db_survey (tile :: tiles) s1 Hbad) as (s' & E).
      unfold bind in B. rewrite E in B.
      rewrite (open_session_raises _ w _ s' B) in R. discriminate.
Qed.

(** ** The owner of the rows of a plan, and the next notice *)

Lemma allocates_create_tile_mpointing_owned (event : Event) (mp_data : MpData)
    (db_event : db.Event) (db_grid : db.Grid) (db_survey : db.Survey)
    (db_user : db.User) (acc : list MpointingObject) (locals : Locals)
    (tile : TableRow) (s : State) :
  (List.length (grid_tiles_named db_grid (view s) tile) <= 1)%nat ->
  allocates
    (create_tile_mpointing event mp_data db_event db_grid db_survey db_user
       (acc, locals) tile)
    s
    (fun r => exists o, fst r = acc ++ [o]
                        /\ owned_mpointing (db.ev_id db_event) (row o)).
Proof.
  intros Hone. unfold create_tile_mpointing.
  eapply allocates_bind; [apply allocates_query_all|]. intros found n ->.
  eapply allocates_bind; [apply allocates_one_or_none; exact Hone|].
  intros grid_tile m ->.
  eapply allocates_bind; [apply allocates_new_oid|]. intros id k _.
  unfold new_mpointing.
  eapply allocates_bind.
  { eapply allocates_bind; [apply allocates_new_oid|].
    intros id' j _. apply allocates_ret.
    instantiate (1 := fun o => db.mp_status (row o) = "unscheduled"). reflexivity. }
  intros o j Hst.
  apply allocates_ret. cbn [fst snd].
  eexists. split; [reflexivity|]. split; [reflexivity | exact Hst].
Qed.

Lemma allocates_tile_loop_owned (event : Event) (mp_data : MpData)
    (db_event : db.Event) (db_grid : db.Grid) (db_survey : db.Survey)
    (db_user : db.User) (s : State) :
  forall (tiles : list TableRow) (acc : list MpointingObject) (locals : Locals) (n : oid),
    (forall tile, In tile tiles ->
       (List.length (grid_tiles_named db_grid (view s) tile) <= 1)%nat) ->
    allocates
      (for_fold tiles
         (create_tile_mpointing event mp_data db_event db_grid db_survey db_user)
         (acc, locals))
      (with_oid s n)
      (fun r => exists l, fst r = acc ++ l
                          /\ Forall (owned_mpointing (db.ev_id db_event)) (map row l)).
Proof.
  induction tiles as [|tile tiles IH]; intros acc locals n Hone; simpl.
  - apply allocates_ret. exists []. rewrite app_nil_r. split; [reflexivity | constructor].
  - eapply allocates_bind.
    + apply allocates_create_tile_mpointing_owned. apply Hone. now left.
    + intros [acc' locals'] m (o & Hacc & Ho). cbn [fst] in Hacc. subst acc'.
      eapply allocates_weaken.
      * apply (IH (acc ++ [o]) locals' m). intros t Ht. apply Hone. now right.
      * intros r (l & Hl & Hf). exists (o :: l). rewrite Hl, <- app_assoc.
        split; [reflexivity|]. now constructor.
Qed.

Lemma allocates_create_children_owned (expsets : list ExpData) (db_event : db.Event)
    (locals : Locals) (o : MpointingObject) (s : State) :
  bound locals ->
  allocates (create_children expsets db_event locals o) s
    (gets_owned_pointing (db.ev_id db_event) o).
Proof.
  intros (gt0 & st0 & ->). unfold create_children.
  eapply allocates_bind; [apply allocates_create_exposure_sets|].
  intros o1 n (Hr & Hp & He & Hu & Ht).
  eapply allocates_bind; [apply allocates_get_next_pointing|].
  intros p k Hs. cbn [db_grid_tile db_survey_tile].
  eapply allocates_bind; [apply allocates_read_local|]. intros gt i ->.
  eapply allocates_bind; [apply allocates_read_local|]. intros st j ->.
  apply allocates_ret. unfold gets_owned_pointing, owned_pointing.
  cbn [append_pointing pointings]. rewrite Hp.
  eexists. split; [reflexivity|]. simpl. auto.
Qed.

Lemma allocates_children_loop_owned (expsets : list ExpData) (db_event : db.Event)
    (locals : Locals) :
  bound locals ->
  forall (l : list MpointingObject) (s : State),
    allocates (for_update l (create_children expsets db_event locals)) s
      (Forall2 (gets_owned_pointing (db.ev_id db_event)) l).
Proof.
  intros Hb. induction l as [|o l IH]; intros s; simpl.
  - apply allocates_ret. constructor.
  - eapply allocates_bind;
      [exact (allocates_create_children_owned expsets db_event locals o s Hb)|].
    intros o' n Ho. eapply allocates_bind; [apply IH|].
    intros l' k Hl. apply allocates_ret. now constructor.
Qed.

Lemma first_pointings_owned (event : Event) (id : oid)
    (tiles : list TableRow) (made items : list MpointingObject) :
  Forall2 (for_tile event) tiles made ->
  Forall2 (gets_owned_pointing id) made items ->
  Forall (owned_pointing id) (List.concat (map pointings items)).
Proof.
  intros Hf. revert items. induction Hf as [|tile o tiles made Ho Hf IH];
    intros items Hg; inversion Hg as [|? o' ? items' Ho' Hg']; subst; simpl.
  - constructor.
  - destruct Ho as (_ & _ & _ & _ & Hpt). destruct Ho' as (p & Hp & Hl).
    rewrite Hpt in Hp. rewrite Hp. simpl. constructor; [exact Hl | now apply IH].
Qed.

Lemma prepare_plan_tiled_owned (event : Event) (mp_data : MpData)
    (expsets : list ExpData) (db_event : db.Event) (db_grid : db.Grid)
    (db_survey : db.Survey) (tiles : list TableRow) (s : State) :
  tiles <> [] ->
  (forall tile, In tile tiles ->
     (List.length (grid_tiles_named db_grid (view s) tile) <= 1)%nat) ->
  exists items n,
    prepare_plan event mp_data expsets db_event (Some (db_grid, db_survey, tiles)) s
    = (Return tt, plan_stored items n s)
    /\ Forall (owned_mpointing (db.ev_id db_event)) (map row items)
    /\ Forall (owned_pointing (db.ev_id db_event)) (List.concat (map pointings items)).
Proof.
  intros Hne Hone. unfold prepare_plan.
  destruct (allocates_get_user s) as (db_user & n1 & E1 & _).
  unfold bind at 1. rewrite E1.
  destruct (allocates_and _ _ _ _
              (allocates_tile_loop event mp_data db_event db_grid db_survey db_user s
                 tiles [] {| db_grid_tile := None; db_survey_tile := None |} n1 Hone)
              (allocates_tile_loop_owned event mp_data db_event db_grid db_survey
                 db_user s tiles []
                 {| db_grid_tile := None; db_survey_tile := None |} n1 Hone))
    as ([made locals] & n2 & E2 & ((l & Hl & Hf) & Hb) & (l' & Hl' & Ho)).
  simpl in Hl, Hl'. subst l l'. cbn [fst snd] in Hb.
  unfold bind at 1. rewrite E2.
  destruct (allocates_and _ _ _ _
              (allocates_children_loop expsets db_event locals (Hb (or_introl Hne))
                 made (with_oid (with_oid s n1) n2))
              (allocates_children_loop_owned expsets db_event locals
                 (Hb (or_introl Hne)) made (with_oid (with_oid s n1) n2)))
    as (items & n3 & E3 & Hc & Hg).
  unfold bind at 1. rewrite E3.
  unfold bind at 1. unfold emit at 1. rewrite insert_items_run.
  exists items, n3. split; [reflexivity|]. split.
  - now rewrite (with_children_rows _ _ _ Hc).
  - exact (first_pointings_owned event _ tiles made items Hf Hg).
Qed.

Section TiledCall.

Variable np_mean : list float -> float.
Variables (event : Event) (w : World) (mp_data : MpData) (expsets : list ExpData).
Variables (limit : Z) (floor : float) (g0 : db.Grid) (gs : list db.Grid).

Hypothesis Hinfo : get_mpointing_info event = Return (mp_data, expsets).
Hypothesis Htype : event_type event <> "GW_RETRACTION".
Hypothesis Hgrid : on_grid (event_strategy event) = Some true.
Hypothesis Hlimit : tile_limit (event_strategy event) = Some limit.
Hypothesis Hfloor : prob_limit (event_strategy event) = Some floor.
Hypothesis Hg : db.grids (database w) = g0 :: gs.
Hypothesis R : fst (add_to_database np_mean event w) = Return tt.

Lemma tiled_rows_owned :
  let d := database w in
  let d' := database (snd (add_to_database np_mean event w)) in
  exists ms pts,
    db.mpointings d' = db.mpointings d ++ ms
    /\ db.pointings d' = db.pointings d ++ pts
    /\ Forall (owned_mpointing (oid_supply w)) ms
    /\ Forall (owned_pointing (oid_supply w)) pts.
Proof.
  intros d d'.
  pose proof (block_tiled np_mean event mp_data expsets limit floor
                Hinfo Htype Hgrid Hlimit Hfloor (enter w) g0 gs Hg) as B.
  cbv zeta in B.
  set (db_grid := last gs g0) in *.
  set (tile_table :=
         limit_tiles (fst (get_grid_tiles np_mean event db_grid)) limit floor) in *.
  set (event' := with_tile_table (snd (get_grid_tiles np_mean event db_grid)) tile_table)
    in B.
  set (db_event := event_row (next_oid (enter w)) event) in B.
  set (s2 := tiles_listed event db_grid tile_table (enter w)) in B.
  subst d'. unfold add_to_database in *.
  destruct tile_table as [|tile tiles] eqn:T.
  - destruct (add_tiles event' mp_data expsets db_event db_grid [] s2)
      as [[[]|e] s'] eqn:A.
    + pose proof (proj2 (add_tiles_none_reads event' mp_data expsets db_event db_grid)
                    s2) as Hv.
      rewrite A in Hv. cbn [snd] in Hv.
      destruct (commit_outcome s') as [C|[e C]].
      * rewrite (open_session_returns _ w s' B C). cbn [fst snd database].
        exists [], []. rewrite Hv, !app_nil_r. repeat split; constructor.
      * rewrite (open_session_commit_fails _ w e s' B C) in R. discriminate.
    + rewrite (open_session_raises _ w e s' B) in R. discriminate.
  - rewrite add_tiles_survey in B. unfold build_plan in B.
    set (s1 := survey_added event' db_event db_grid s2) in B.
    set (db_survey := survey_row (next_oid s2) event' db_event db_grid) in B.
    destruct (tiles_resolve_dec db_grid (view s1) (tile :: tiles)) as [Hone|Hbad].
    + destruct (prepare_plan_tiled_owned event' mp_data expsets db_event db_grid
                  db_survey (tile :: tiles) s1) as (items & n & E & Hm & Hp);
        [discriminate | exact Hone |].
      unfold bind in B. rewrite E in B. unfold commit_changes, try_except in B.
      destruct (commit_outcome (plan_stored items n s1)) as [C|[e C]]; rewrite C in B.
      * rewrite (open_session_returns _ w _ B) by (now apply commit_no_insert).
        cbn [fst snd database view plan_stored].
        destruct (store_all_tables items (view s1)) as (_ & _ & _ & _ & -> & _ & ->).
        exists (map row items), (List.concat (map pointings items)).
        repeat split; assumption.
      * cbn in B. rewrite (open_session_raises _ w e _ B) in R. discriminate.
    + destruct (prepare_plan_ambiguous event' mp_data expsets db_event db_grid
                  db_survey (tile :: tiles) s1 Hbad) as (s' & E).
      unfold bind in B. rewrite E in B.
      rewrite (open_session_raises _ w _ s' B) in R. discriminate.
Qed.

End TiledCall.


Lemma belongs_to_new_event (event update : Event) (id : oid) (l : list db.Event) :
  event_name update = event_name event ->
  event_source update = event_source event ->
  belongs_to (filter (is_previous update) (l ++ [event_row id event])) (Some id) = true.
Proof.
  intros Hn Hs. unfold belongs_to. apply existsb_exists.
  exists (event_row id event). split.
  - apply filter_In. split; [apply in_or_app; right; now left|].
    unfold is_previous. cbn. now rewrite Hn, Hs, !String.eqb_refl.
  - cbn. apply Nat.eqb_refl.
Qed.

(** X22.  The next notice retires the plan.  After a tiled call has
    returned for an event, the deduplication pass for a later notice of it
    (the same name and source, an ivorn that no stored Event carries; the
    primary keys being distinct) returns, and afterwards every MetaPointing
    and every Pointing that the call had stored is [deleted]: the tables of
    the MetaPointings and of the Pointings are their rows from before the
    call, soft-deleted or not, followed by as many rows as the call had
    added, all with the status [deleted]. *)
Theorem update_retires_plan (np_mean : list float -> float) (event update : Event)
    (w : World) (mp_data : MpData) (expsets : list ExpData)
    (limit : Z) (floor : float) (g0 : db.Grid) (gs : list db.Grid) :
  get_mpointing_info event = Return (mp_data, expsets) ->
  event_type event <> "GW_RETRACTION" ->
  on_grid (event_strategy event) = Some true ->
  tile_limit (event_strategy event) = Some limit ->
  prob_limit (event_strategy event) = Some floor ->
  db.grids (database w) = g0 :: gs ->
  fst (add_to_database np_mean event w) = Return tt ->
  let w' := snd (add_to_database np_mean event w) in
  event_name update = event_name event ->
  event_source update = event_source event ->
  ivorn_is_new update (database w') ->
  NoDup (map db.mp_id (db.mpointings (database w'))) ->
  NoDup (map db.pt_id (db.pointings (database w'))) ->
  let d := database w in
  let d'' := database (snd (remove_previous_events update w')) in
  fst (remove_previous_events update w') = Return tt
  /\ exists old_ms ms old_pts pts,
       db.mpointings d'' = old_ms ++ ms
       /\ db.pointings d'' = old_pts ++ pts
       /\ List.length old_ms = List.length (db.mpointings d)
       /\ List.length old_pts = List.length (db.pointings d)
       /\ List.length (db.mpointings d'') = List.length (db.mpointings (database w'))
       /\ List.length (db.pointings d'') = List.length (db.pointings (database w'))
       /\ Forall (fun m => db.mp_status m = "deleted") ms
       /\ Forall (fun p => db.pt_status p = "deleted") pts.
Proof.
  intros Hinfo Htype Hgrid Hlimit Hfloor Hg R w' Hn Hs Hnew Hkm Hkp d d''.
  destruct (tiled_rows_owned np_mean event w mp_data expsets limit floor g0 gs
              Hinfo Htype Hgrid Hlimit Hfloor Hg R)
    as (ms & pts & Hm & Hp & Hom & Hop).
  fold w' in Hm, Hp.
  assert (Hev : db.events (database w')
                = db.events (database w) ++ [event_row (oid_supply w) event]).
  { subst w'. unfold add_to_database in *.
    destruct (open_session_returned _ w R) as (s' & B & _ & ->).
    destruct (vetted_after_event np_mean event _ _ _ B) as [[-> _] _]. reflexivity. }
  set (previous := filter (is_previous update) (db.events (database w'))).
  assert (Hb : belongs_to previous (Some (oid_supply w)) = true).
  { subst previous. rewrite Hev. now apply belongs_to_new_event. }
  destruct (remove_previous_events_soft_delete update w') as [Hret Hdb].
  - fold previous. intros E. rewrite E in Hb. discriminate.
  - apply existsb_false_iff. intros e He. apply filter_In in He.
    apply String.eqb_neq. apply Hnew. tauto.
  - exact Hkm.
  - exact Hkp.
  - split; [exact Hret|]. subst d''. rewrite Hdb. fold previous.
    assert (Tm : db.mpointings (soft_delete previous (database w'))
                 = map (soft_delete_mpointing previous) (db.mpointings (database w')))
      by reflexivity.
    assert (Tp : db.pointings (soft_delete previous (database w'))
                 = map (soft_delete_pointing previous) (db.pointings (database w')))
      by reflexivity.
    rewrite Tm, Tp, Hm, Hp, !map_app.
    exists (map (soft_delete_mpointing previous) (db.mpointings (database w))),
      (map (soft_delete_mpointing previous) ms),
      (map (soft_delete_pointing previous) (db.pointings (database w))),
      (map (soft_delete_pointing previous) pts).
    rewrite !length_app, !length_map.
    repeat split.
    + apply Forall_map. eapply Forall_impl; [|exact Hom].
      intros m (He & Hst). unfold soft_delete_mpointing.
      rewrite He, Hb, Hst. reflexivity.
    + apply Forall_map. eapply Forall_impl; [|exact Hop].
      intros p (He & Hst). unfold soft_delete_pointing.
      rewrite He, Hb, Hst. reflexivity.
Qed.

(** ** The further properties at work *)

(** The sample strategy: its two exposure sets come out as science frames
    without binning. *)
Lemma get_mpointing_info_copies_witness :
  get_mpointing_info tiled_event = Return (sample_mp_data, sample_expsets)
  /\ Forall (fun e => binning e = 1%Z /\ imgtype e = "SCIENCE") sample_expsets.
Proof.
  split; [reflexivity|].
  pose proof (get_mpointing_info_copies tiled_event sample_mp_data sample_expsets
                eq_refl) as H.
  cbv zeta in H. apply H.
Defined.

(** The wide skymap: the table that the resolver returns is ranked. *)
Lemma resolver_ranks_rows_witness :
  Sorted ranks_before (fst (get_grid_tiles sequential_mean tiled_event sample_grid)).
Proof.
  assert (H : probs_are_numbers
                (map tile_row (skymap_tiles (loaded_skymap tiled_event))))
    by (intros r [<-|[<-|[<-|[]]]]; reflexivity).
  exact (proj1 (resolver_ranks_rows sequential_mean tiled_event sample_grid H)).
Defined.

(** The first notice of an event on a database without events. *)
Lemma remove_previous_events_new_event_witness :
  fst (remove_previous_events tiled_event sample_world) = Return tt
  /\ database (snd (remove_previous_events tiled_event sample_world))
     = sample_database.
Proof.
  assert (H : forall e, In e (db.events (database sample_world)) ->
                db.ev_name e = event_name tiled_event ->
                db.ev_source e <> event_source tiled_event)
    by (intros e []).
  rewrite (remove_previous_events_new_event tiled_event sample_world H).
  split; reflexivity.
Defined.

(** The second notice of the stored event, twice. *)
Lemma remove_previous_events_twice_witness :
  fst (remove_previous_events update_event
         (snd (remove_previous_events update_event stored_world)))
  = Return tt
  /\ database (snd (remove_previous_events update_event
                      (snd (remove_previous_events update_event stored_world))))
     = database (snd (remove_previous_events update_event stored_world)).
Proof.
  apply (remove_previous_events_twice update_event stored_world).
  - simpl. discriminate.
  - simpl. intros e [<-|[]]. simpl. discriminate.
  - simpl. repeat constructor. simpl. tauto.
  - simpl. repeat constructor; simpl; intuition discriminate.
Defined.

(** The tiled sample event on the sample database: the call returns, its
    Event row is the only one, and no stored Event carried its ivorn. *)
Lemma add_to_database_stores_event_witness :
  db.events (database (snd (add_to_database sequential_mean tiled_event sample_world)))
  = [event_row 100 tiled_event]
  /\ ivorn_is_new tiled_event sample_database.
Proof.
  assert (R : fst (add_to_database sequential_mean tiled_event sample_world)
              = Return tt) by (vm_compute; reflexivity).
  pose proof (add_to_database_stores_event sequential_mean tiled_event sample_world R)
    as [Hev Hnew].
  split; [exact Hev|].
  apply Hnew. intros e [].
Defined.

(** The same event, handed to the deduplication pass after it is stored. *)
Lemma stored_event_is_refused_witness :
  fst (remove_previous_events tiled_event
         (snd (add_to_database sequential_mean tiled_event sample_world)))
  = Raise (duplicate_ivorn "ivo://gwnet/LVC#S190425z-1").
Proof.
  assert (R : fst (add_to_database sequential_mean tiled_event sample_world)
              = Return tt) by (vm_compute; reflexivity).
  pose proof (stored_event_is_refused sequential_mean tiled_event sample_world R) as H.
  cbv zeta in H. rewrite H. reflexivity.
Defined.

(** The tiled sample event on a database without a grid. *)
Lemma add_to_database_without_grid_witness :
  fst (add_to_database sequential_mean tiled_event gridless_world)
  = Raise (ValueError "No defined Grids found!")
  /\ snd (add_to_database sequential_mean tiled_event gridless_world)
     = {| database := database gridless_world; oid_supply := 101;
          records := [{| levelname := DEBUG; msg := "Adding Event to database";
                         args := [] |}] |}.
Proof.
  assert (Htype : event_type tiled_event <> "GW_RETRACTION") by discriminate.
  rewrite (add_to_database_without_grid sequential_mean tiled_event gridless_world
             sample_mp_data sample_expsets eq_refl Htype eq_refl eq_refl).
  split; reflexivity.
Defined.

(** The sample strategy with none of the three keys, with [on_grid] only,
    and with all but [prob_limit]. *)
Lemma add_to_database_missing_key_witness :
  fst (add_to_database sequential_mean (event_with None None None) sample_world)
  = Raise (KeyError "on_grid")
  /\ fst (add_to_database sequential_mean (event_with (Some true) None None)
            sample_world)
     = Raise (KeyError "tile_limit")
  /\ fst (add_to_database sequential_mean (event_with (Some true) (Some 5%Z) None)
            sample_world)
     = Raise (KeyError "prob_limit").
Proof.
  assert (Htype : "GW_CBC" <> "GW_RETRACTION") by discriminate.
  assert (Hg : db.grids (database sample_world) <> []) by discriminate.
  assert (Hl : Some 5%Z <> @None Z) by discriminate.
  split; [|split].
  - pose proof (add_to_database_missing_key sequential_mean
                  (event_with None None None) sample_world
                  sample_mp_data sample_expsets eq_refl Htype) as H.
    cbv zeta in H. exact (proj1 (proj1 H eq_refl)).
  - pose proof (add_to_database_missing_key sequential_mean
                  (event_with (Some true) None None) sample_world
                  sample_mp_data sample_expsets eq_refl Htype) as H.
    cbv zeta in H. exact (proj1 (proj1 (proj2 H eq_refl Hg) eq_refl)).
  - pose proof (add_to_database_missing_key sequential_mean
                  (event_with (Some true) (Some 5%Z) None) sample_world
                  sample_mp_data sample_expsets eq_refl Htype) as H.
    cbv zeta in H. exact (proj1 (proj2 (proj2 H eq_refl Hg) Hl eq_refl)).
Defined.

(** The tiled sample event on the grid with two tiles named T0002. *)
Lemma add_to_database_ambiguous_tile_witness :
  fst (add_to_database sequential_mean tiled_event ambiguous_world)
  = Raise MultipleResultsFound
  /\ database (snd (add_to_database sequential_mean tiled_event ambiguous_world))
     = database ambiguous_world.
Proof.
  assert (Htype : event_type tiled_event <> "GW_RETRACTION") by discriminate.
  apply (add_to_database_ambiguous_tile sequential_mean tiled_event ambiguous_world
           sample_mp_data sample_expsets 5 0 sample_grid []
           eq_refl Htype eq_refl eq_refl eq_refl eq_refl).
  exists {| tilename := "T0002"; tile_ra := 0; tile_dec := 0; prob := 0.5 |}.
  split.
  - vm_compute. left. reflexivity.
  - vm_compute. apply le_n.
Defined.

(** The tiled sample event on the sample database: one Survey, with the
    identity after that of the Event. *)
Lemma tiled_plan_stored_witness :
  db.surveys (database (snd (add_to_database sequential_mean tiled_event sample_world)))
  = [survey_row 101 tiled_event (event_row 100 tiled_event) sample_grid].
Proof.
  assert (Htype : event_type tiled_event <> "GW_RETRACTION") by discriminate.
  assert (Hne : limit_tiles
                  (fst (get_grid_tiles sequential_mean tiled_event sample_grid)) 5 0
                <> []) by (vm_compute; discriminate).
  assert (R : fst (add_to_database sequential_mean tiled_event sample_world)
              = Return tt) by (vm_compute; reflexivity).
  pose proof (tiled_plan_stored sequential_mean tiled_event sample_world
                sample_mp_data sample_expsets 5 0 sample_grid []
                eq_refl Htype eq_refl eq_refl eq_refl eq_refl Hne R) as H.
  exact (proj1 H).
Defined.

(** The untiled sample event. *)
Lemma single_pointing_plan_fails_witness :
  fst (add_to_database sequential_mean untiled_event sample_world)
  = Raise (UnboundLocalError "db_grid_tile")
  /\ database (snd (add_to_database sequential_mean untiled_event sample_world))
     = database sample_world.
Proof.
  assert (Htype : event_type untiled_event <> "GW_RETRACTION") by discriminate.
  exact (single_pointing_plan_fails sequential_mean untiled_event sample_world
           sample_mp_data sample_expsets eq_refl Htype eq_refl).
Defined.

(** The wide skymap under a limit of one tile: T0002 is kept, T0001 is
    left out. *)
Lemma plan_takes_best_tiles_witness :
  exists dropped,
    fst (get_grid_tiles sequential_mean tiled_event sample_grid)
    = limit_tiles (fst (get_grid_tiles sequential_mean tiled_event sample_grid)) 1 0
      ++ dropped
    /\ forall kept r,
         In kept (limit_tiles
                    (fst (get_grid_tiles sequential_mean tiled_event sample_grid)) 1 0) ->
         In r dropped -> ranks_before kept r.
Proof.
  apply (plan_takes_best_tiles sequential_mean tiled_event sample_grid 1 0).
  intros r [<-|[<-|[<-|[]]]]; reflexivity.
Defined.

(** The tiled sample event: both Pointings carry the links of the second
    MetaPointing. *)
Lemma pointings_linked_to_last_tile_witness :
  exists ms pts,
    db.mpointings
      (database (snd (add_to_database sequential_mean tiled_event sample_world)))
    = db.mpointings (database sample_world) ++ ms
    /\ db.pointings
         (database (snd (add_to_database sequential_mean tiled_event sample_world)))
       = db.pointings (database sample_world) ++ pts
    /\ forall m0, Forall (linked_like (last ms m0)) pts.
Proof.
  assert (Htype : event_type tiled_event <> "GW_RETRACTION") by discriminate.
  assert (R : fst (add_to_database sequential_mean tiled_event sample_world)
              = Return tt) by (vm_compute; reflexivity).
  exact (pointings_linked_to_last_tile sequential_mean tiled_event sample_world
           sample_mp_data sample_expsets 5 0 sample_grid []
           eq_refl Htype eq_refl eq_refl eq_refl eq_refl R).
Defined.


(** The first notice of the sample event, stored, and then its second
    notice: the pass returns. *)
Lemma update_retires_plan_witness :
  fst (remove_previous_events update_event
         (snd (add_to_database sequential_mean tiled_event sample_world)))
  = Return tt.
Proof.
  assert (Htype : event_type tiled_event <> "GW_RETRACTION") by discriminate.
  assert (R : fst (add_to_database sequential_mean tiled_event sample_world)
              = Return tt) by (vm_compute; reflexivity).
  assert (Hnew : ivorn_is_new update_event
                   (database (snd (add_to_database sequential_mean tiled_event
                                     sample_world)))).
  { intros e He. vm_compute in He. destruct He as [<-|[]]. vm_compute. discriminate. }
  assert (Hkm : NoDup (map db.mp_id
                         (db.mpointings
                            (database (snd (add_to_database sequential_mean tiled_event
                                              sample_world)))))).
  { vm_compute. repeat constructor; simpl; intuition discriminate. }
  assert (Hkp : NoDup (map db.pt_id
                         (db.pointings
                            (database (snd (add_to_database sequential_mean tiled_event
                                              sample_world)))))).
  { vm_compute. repeat constructor; simpl; intuition discriminate. }
  exact (proj1 (update_retires_plan sequential_mean tiled_event update_event
                  sample_world sample_mp_data sample_expsets 5 0 sample_grid []
                  eq_refl Htype eq_refl eq_refl eq_refl eq_refl R
                  eq_refl eq_refl Hnew Hkm Hkp)).
Defined.
